(** * Goxel benchmark tooling: percentiles, summaries, comparison, regressions

    A shallow embedding of the statistical core of
    [tests/performance/benchmark_v14.py], [tools/performance_reporter.py]
    and [tests/performance/analyze_benchmarks.py].

    Python [float] values are modelled as exact rationals ([Q]): every
    arithmetic operation of the source is carried out without rounding, and
    results are compared with [==] ([Qeq]).  The comparisons whose outcome
    could depend on the rounding of a quotient (the two regression
    thresholds and the improvement target) are stated one way only, from
    the decision of the code to the exact inequality, and their boundary
    instances are evaluated on binary64 numbers as well.  Python
    exceptions are modelled by the [Raise] constructor of [result]; what the
    processes, sockets and clocks deliver is an argument of the function
    that consumes it. *)

From Stdlib Require Import String.
From Stdlib Require Import QArith ZArith List Bool Lia Lqa.
From Stdlib Require Import Qround Qabs Permutation Sorted PrimFloat.
Import ListNotations.

Set Warnings "-register-all,-inexact-float".

Local Open Scope Q_scope.

(** ** Python runtime primitives *)

Inductive exn : Set :=
| ZeroDivisionError
| IndexError
| KeyError
| TypeError
| AttributeError
| StatisticsError
| JSONDecodeError
| OSError.

Inductive result (A : Type) : Type :=
| Ok (a : A)
| Raise (e : exn).

Arguments Ok {A} a.
Arguments Raise {A} e.

Definition bind {A B : Type} (m : result A) (k : A -> result B) : result B :=
  match m with
  | Ok a => k a
  | Raise e => Raise e
  end.

Notation "x <- m ;; k" := (bind m (fun x => k))
  (at level 61, m at next level, right associativity).

(** [float.is_integer()]. *)
Definition is_integer (x : Q) : bool :=
  (Qnum x mod Zpos (Qden x) =? 0)%Z.

(** [int(x)] on a float: truncation toward zero. *)
Definition int (x : Q) : Z :=
  Z.quot (Qnum x) (Zpos (Qden x)).

(** [len(l)] as a number. *)
Definition len {A : Type} (l : list A) : Z := Z.of_nat (List.length l).

(** [l[i]] on a Python list: a negative index counts from the end, an index
    outside [-len(l), len(l)) raises IndexError. *)
Definition getitem {A : Type} (l : list A) (i : Z) : result A :=
  let j := (if i <? 0 then len l + i else i)%Z in
  if (j <? 0)%Z then Raise IndexError
  else match nth_error l (Z.to_nat j) with
       | Some x => Ok x
       | None => Raise IndexError
       end.

(** [a / b] on floats: ZeroDivisionError when the divisor is zero. *)
Definition truediv (a b : Q) : result Q :=
  if Qeq_bool b 0 then Raise ZeroDivisionError else Ok (a / b).

(** [sorted(data)]: a stable sort in ascending order. *)
Fixpoint insert (x : Q) (l : list Q) : list Q :=
  match l with
  | [] => [x]
  | y :: l' => if Qle_bool x y then x :: l else y :: insert x l'
  end.

Fixpoint sorted (data : list Q) : list Q :=
  match data with
  | [] => []
  | x :: l => insert x (sorted l)
  end.

(** [sum(data)], [min(data)], [max(data)]; the last two raise ValueError on an
    empty list, which the callers exclude, so they are given on a head and
    tail. *)
Definition sum (data : list Q) : Q := fold_left Qplus data 0.

Definition min_ (x : Q) (l : list Q) : Q :=
  fold_left (fun m y => if Qlt_le_dec y m then y else m) l x.

Definition max_ (x : Q) (l : list Q) : Q :=
  fold_left (fun m y => if Qlt_le_dec m y then y else m) l x.

(** [statistics.mean(data)] and [statistics.median(data)]. *)
Definition mean (data : list Q) : result Q :=
  match data with
  | [] => Raise StatisticsError
  | _ => Ok (sum data / inject_Z (len data))
  end.

Definition median (data : list Q) : result Q :=
  let data := sorted data in
  let n := len data in
  if (n =? 0)%Z then Raise StatisticsError
  else if (n mod 2 =? 1)%Z then getitem data (n / 2)
  else
    let i := (n / 2)%Z in
    a <- getitem data (i - 1) ;;
    b <- getitem data i ;;
    Ok ((a + b) / 2).

(** ** JSON documents, as [json.loads] returns them *)

Inductive json : Type :=
| JNull
| JBool (b : bool)
| JNum (x : Q)
| JStr (s : string)
| JArr (items : list json)
| JObj (members : list (string * json)).

(** The members of a [dict] are kept in insertion order, keys distinct. *)
Fixpoint lookup {A : Type} (k : string) (members : list (string * A))
    : option A :=
  match members with
  | [] => None
  | (k', v) :: rest => if String.eqb k k' then Some v else lookup k rest
  end.

Fixpoint is_substring (s t : string) : bool :=
  if prefix s t then true
  else match t with
       | EmptyString => false
       | String _ t' => is_substring s t'
       end.

(** [k in v] for a string [k]: key membership on a dict, element membership
    on a list, substring on a string, TypeError on anything else. *)
Definition contains (k : string) (v : json) : result bool :=
  match v with
  | JObj members =>
      Ok (match lookup k members with Some _ => true | None => false end)
  | JArr items =>
      Ok (existsb (fun x => match x with
                            | JStr s => String.eqb s k
                            | _ => false
                            end) items)
  | JStr s => Ok (is_substring k s)
  | _ => Raise TypeError
  end.

(** [v[k]] for a string [k]. *)
Definition subscript (v : json) (k : string) : result json :=
  match v with
  | JObj members =>
      match lookup k members with
      | Some x => Ok x
      | None => Raise KeyError
      end
  | _ => Raise TypeError
  end.

(** [v != n] for a number [n]; [True] and [False] compare as 1 and 0. *)
Definition ne_number (v : json) (n : Q) : bool :=
  match v with
  | JNum x => negb (Qeq_bool x n)
  | JBool b => negb (Qeq_bool (if b then 1 else 0) n)
  | _ => true
  end.

(** [v.get(k, default)]: only a dict has the method. *)
Definition get (v : json) (k : string) (default : json) : result json :=
  match v with
  | JObj members =>
      Ok (match lookup k members with Some x => x | None => default end)
  | _ => Raise AttributeError
  end.

(** [str(e)] for a caught exception; the text stands for the message. *)
Definition str_exn (e : exn) : string :=
  match e with
  | ZeroDivisionError => "ZeroDivisionError"
  | IndexError => "IndexError"
  | KeyError => "KeyError"
  | TypeError => "TypeError"
  | AttributeError => "AttributeError"
  | StatisticsError => "StatisticsError"
  | JSONDecodeError => "JSONDecodeError"
  | OSError => "OSError"
  end%string.

(** ** benchmark_v14.py *)

Definition DEFAULT_TIMEOUT : Q := 30.
Definition LATENCY_TARGET_MS : Q := 21 # 10.
Definition THROUGHPUT_TARGET_OPS_SEC : Q := 1000.
Definition MEMORY_TARGET_MB : Q := 50.
Definition IMPROVEMENT_TARGET_PERCENT : Q := 700.
Definition CONCURRENT_CLIENTS_TARGET : Z := 10.

(** An entry of [PerformanceMetrics.errors].  The source formats each entry
    with an f-string; the model keeps the two holes of the format apart. *)
Inductive error_entry : Type :=
| OperationError (operation_name : string) (error_msg : json)
| ClientError (client_id : Z) (error_msg : json)
| FailedToStartDaemon.

Record PerformanceMetrics : Type := {
  test_name : string;
  operation_count : Z;
  total_time_ms : Q;
  avg_latency_ms : Q;
  min_latency_ms : Q;
  max_latency_ms : Q;
  p50_latency_ms : Q;
  p95_latency_ms : Q;
  p99_latency_ms : Q;
  throughput_ops_sec : Q;
  memory_usage_mb : Q;
  success_rate_percent : Q;
  concurrent_clients : Z;
  errors : list error_entry
}.

Record ComparisonResults : Type := {
  cli_metrics : PerformanceMetrics;
  daemon_metrics : PerformanceMetrics;
  improvement_factor : Q;
  latency_improvement_percent : Q;
  throughput_improvement_percent : Q;
  memory_improvement_percent : Q;
  targets_met : list (string * bool)
}.

(** [a < b] and [a > b] on numbers. *)
Definition lt (a b : Q) : bool := if Qlt_le_dec a b then true else false.
Definition gt (a b : Q) : bool := lt b a.

Module CLIPerformanceTester.

Record t : Type := {
  cli_path : string;
  temp_files : list string
}.

(** [_percentile(self, data, percentile)], lines 222-233. *)
Definition _percentile (data : list Q) (percentile : Q) : result Q :=
  match data with
  | [] => Ok 0
  | _ =>
    let sorted_data := sorted data in
    let index := (percentile / 100) * (inject_Z (len sorted_data) - 1) in
    if is_integer index then
      getitem sorted_data (int index)
    else
      lower <- getitem sorted_data (int index) ;;
      upper <- getitem sorted_data (int index + 1) ;;
      Ok (lower + (upper - lower) * (index - inject_Z (int index)))
  end.

(** [benchmark_basic_operations], lines 189-220: the summary built once the
    sampling loop (lines 161-187) has left the durations of the successful
    sequences in [latencies], the failures in [errors] and the peak
    resident-set growth in [memory_usage].  [operations] has three
    entries. *)
Definition len_operations : Z := 3.

Definition benchmark_basic_operations (num_samples : Z)
    (latencies : list Q) (errors : list error_entry) (memory_usage : Q)
    : result PerformanceMetrics :=
  stats <-
    match latencies with
    | x :: rest =>
        let total_time := sum latencies in
        avg_latency <- mean latencies ;;
        let min_latency := min_ x rest in
        let max_latency := max_ x rest in
        p50_latency <- median latencies ;;
        p95_latency <- _percentile latencies 95 ;;
        p99_latency <- _percentile latencies 99 ;;
        throughput <- truediv (inject_Z (len latencies * len_operations))
                              (total_time / 1000) ;;
        ratio <- truediv (inject_Z (len latencies)) (inject_Z num_samples) ;;
        Ok (total_time, avg_latency, min_latency, max_latency,
            p50_latency, p95_latency, p99_latency, throughput, ratio * 100)
    | [] => Ok (0, 0, 0, 0, 0, 0, 0, 0, 0)
    end ;;
  let '(total_time, avg_latency, min_latency, max_latency,
        p50_latency, p95_latency, p99_latency, throughput, success_rate) :=
    stats in
  Ok {| test_name := "CLI_Basic_Operations";
        operation_count := len latencies * len_operations;
        total_time_ms := total_time;
        avg_latency_ms := avg_latency;
        min_latency_ms := min_latency;
        max_latency_ms := max_latency;
        p50_latency_ms := p50_latency;
        p95_latency_ms := p95_latency;
        p99_latency_ms := p99_latency;
        throughput_ops_sec := throughput;
        memory_usage_mb := memory_usage;
        success_rate_percent := success_rate;
        concurrent_clients := 1;
        errors := errors |}.

End CLIPerformanceTester.

Module DaemonPerformanceTester.

Record t : Type := {
  daemon_path : string;
  socket_path : string;
  request_id : Z
}.

(** What the socket exchange of one [send_json_rpc] call comes to: an
    exception raised while connecting, sending, receiving or decoding; or
    a payload received after [duration_ms], which after [strip()] is the
    empty string, or text that [json.loads] rejects, or a document. *)
Inductive payload : Type :=
| EmptyPayload
| InvalidJSON
| Document (response : json).

Inductive exchange : Type :=
| SocketRaised (e : exn)
| Received (duration_ms : Q) (p : payload).

(** The dict that the [except] clause returns. *)
Definition error_response (e : exn) : json :=
  JObj [("error"%string, JStr (str_exn e))].

(** Line 337:
    ["result" in response or
     ("error" in response and response["error"]["code"] != -32700)]. *)
Definition success_of (response : json) : result bool :=
  has_result <- contains "result" response ;;
  if has_result : bool then Ok true
  else
    has_error <- contains "error" response ;;
    if has_error : bool then
      error <- subscript response "error" ;;
      code <- subscript error "code" ;;
      Ok (ne_number code (-32700))
    else Ok false.

(** [send_json_rpc(self, method, params)], lines 293-342.  The request
    only goes out to the socket; [x] is what came back. *)
Definition send_json_rpc (self : t) (x : exchange)
    : (Q * bool * json) * t :=
  let self' := {| daemon_path := daemon_path self;
                  socket_path := socket_path self;
                  request_id := request_id self + 1 |} in
  let failed (e : exn) := (DEFAULT_TIMEOUT * 1000, false, error_response e) in
  (match x with
   | SocketRaised e => failed e
   | Received duration_ms p =>
       match
         (response <- match p with
                      | EmptyPayload => Ok (JObj [])
                      | InvalidJSON => Raise JSONDecodeError
                      | Document response => Ok response
                      end ;;
          success <- success_of response ;;
          Ok (duration_ms, success, response))
       with
       | Ok r => r
       | Raise e => failed e
       end
   end, self').

(** [_percentile(self, data, percentile)], lines 566-577. *)
Definition _percentile (data : list Q) (percentile : Q) : result Q :=
  match data with
  | [] => Ok 0
  | _ =>
    let sorted_data := sorted data in
    let index := (percentile / 100) * (inject_Z (len sorted_data) - 1) in
    if is_integer index then
      getitem sorted_data (int index)
    else
      lower <- getitem sorted_data (int index) ;;
      upper <- getitem sorted_data (int index + 1) ;;
      Ok (lower + (upper - lower) * (index - inject_Z (int index)))
  end.

(** The summary returned when [start_daemon()] fails. *)
Definition not_started (name : string) (clients : Z) : PerformanceMetrics :=
  {| test_name := name;
     operation_count := 0;
     total_time_ms := 0;
     avg_latency_ms := 0;
     min_latency_ms := 0;
     max_latency_ms := 0;
     p50_latency_ms := 0;
     p95_latency_ms := 0;
     p99_latency_ms := 0;
     throughput_ops_sec := 0;
     memory_usage_mb := 0;
     success_rate_percent := 0;
     concurrent_clients := clients;
     errors := [FailedToStartDaemon] |}.

(** [benchmark_basic_operations], lines 346-361 and 417-448: the summary
    built once the sampling loop (lines 385-415) has left the durations of
    the calls of the successful sequences in [latencies], the failures in
    [errors] and the peak resident set in [daemon_memory].  [operations]
    has four entries. *)
Definition len_operations : Z := 4.

Definition benchmark_basic_operations (started : bool) (num_samples : Z)
    (latencies : list Q) (errors : list error_entry) (daemon_memory : Q)
    : result PerformanceMetrics :=
  if negb started then Ok (not_started "Daemon_Basic_Operations" 1)
  else
  stats <-
    match latencies with
    | x :: rest =>
        let total_time := sum latencies in
        avg_latency <- mean latencies ;;
        let min_latency := min_ x rest in
        let max_latency := max_ x rest in
        p50_latency <- median latencies ;;
        p95_latency <- _percentile latencies 95 ;;
        p99_latency <- _percentile latencies 99 ;;
        throughput <- truediv (inject_Z (len latencies))
                              (total_time / 1000) ;;
        ratio <- truediv (inject_Z (len latencies))
                         (inject_Z (num_samples * len_operations)) ;;
        Ok (total_time, avg_latency, min_latency, max_latency,
            p50_latency, p95_latency, p99_latency, throughput, ratio * 100)
    | [] => Ok (0, 0, 0, 0, 0, 0, 0, 0, 0)
    end ;;
  let '(total_time, avg_latency, min_latency, max_latency,
        p50_latency, p95_latency, p99_latency, throughput, success_rate) :=
    stats in
  Ok {| test_name := "Daemon_Basic_Operations";
        operation_count := len latencies;
        total_time_ms := total_time;
        avg_latency_ms := avg_latency;
        min_latency_ms := min_latency;
        max_latency_ms := max_latency;
        p50_latency_ms := p50_latency;
        p95_latency_ms := p95_latency;
        p99_latency_ms := p99_latency;
        throughput_ops_sec := throughput;
        memory_usage_mb := daemon_memory;
        success_rate_percent := success_rate;
        concurrent_clients := 1;
        errors := errors |}.

(** [client_worker(client_id, results)], lines 477-494, run on the
    exchanges [xs] of its [operations_per_client] calls.  It returns the
    pair that it appends to [results]; an exception ends the thread before
    the append.  The request counter is the only state the calls share. *)
Fixpoint client_worker_loop (self : t) (client_id : Z) (xs : list exchange)
    (latencies : list Q) (errors : list error_entry)
    : result (list Q * list error_entry) * t :=
  match xs with
  | [] => (Ok (latencies, errors), self)
  | x :: xs' =>
      let '((duration_ms, success, response), self') :=
        send_json_rpc self x in
      if success : bool then
        client_worker_loop self' client_id xs'
                           (latencies ++ [duration_ms]) errors
      else
        match (error <- get response "error" (JObj []) ;;
               get error "message" (JStr "Unknown error")) with
        | Ok error_msg =>
            client_worker_loop self' client_id xs' latencies
                               (errors ++ [ClientError client_id error_msg])
        | Raise e => (Raise e, self')
        end
  end.

Definition client_worker (self : t) (client_id : Z) (xs : list exchange)
    : result (list Q * list error_entry) * t :=
  client_worker_loop self client_id xs [] [].

(** The threads of lines 504-511, in the order in which they finish: each
    is a client id with the exchanges of its calls.  [results] collects
    what the threads that ran to their end appended. *)
Fixpoint run_clients (self : t) (threads : list (Z * list exchange))
    : list (list Q * list error_entry) * t :=
  match threads with
  | [] => ([], self)
  | (client_id, xs) :: rest =>
      let '(r, self') := client_worker self client_id xs in
      let '(results, self'') := run_clients self' rest in
      (match r with
       | Ok appended => appended :: results
       | Raise _ => results
       end, self'')
  end.

(** [benchmark_concurrent_clients], lines 453-564.  [total_test_time] is
    the wall-clock time around start and join, [daemon_memory] the
    resident set read after the join. *)
Definition benchmark_concurrent_clients (self : t) (started : bool)
    (num_clients operations_per_client : Z)
    (threads : list (Z * list exchange))
    (total_test_time daemon_memory : Q)
    : result PerformanceMetrics * t :=
  if negb started
  then (Ok (not_started "Daemon_Concurrent_Clients" num_clients), self)
  else
  let '(results, self') := run_clients self threads in
  let all_latencies := concat (map fst results) in
  let all_errors := concat (map snd results) in
  (stats <-
     match all_latencies with
     | x :: rest =>
         avg_latency <- mean all_latencies ;;
         let min_latency := min_ x rest in
         let max_latency := max_ x rest in
         p50_latency <- median all_latencies ;;
         p95_latency <- _percentile all_latencies 95 ;;
         p99_latency <- _percentile all_latencies 99 ;;
         throughput <- truediv (inject_Z (len all_latencies))
                               (total_test_time / 1000) ;;
         ratio <- truediv (inject_Z (len all_latencies))
                          (inject_Z (num_clients * operations_per_client)) ;;
         Ok (avg_latency, min_latency, max_latency,
             p50_latency, p95_latency, p99_latency, throughput, ratio * 100)
     | [] => Ok (0, 0, 0, 0, 0, 0, 0, 0)
     end ;;
   let '(avg_latency, min_latency, max_latency,
         p50_latency, p95_latency, p99_latency, throughput, success_rate) :=
     stats in
   Ok {| test_name := "Daemon_Concurrent_Clients";
         operation_count := len all_latencies;
         total_time_ms := total_test_time;
         avg_latency_ms := avg_latency;
         min_latency_ms := min_latency;
         max_latency_ms := max_latency;
         p50_latency_ms := p50_latency;
         p95_latency_ms := p95_latency;
         p99_latency_ms := p99_latency;
         throughput_ops_sec := throughput;
         memory_usage_mb := daemon_memory;
         success_rate_percent := success_rate;
         concurrent_clients := num_clients;
         errors := all_errors |}, self').

End DaemonPerformanceTester.

Module PerformanceComparison.

Record t : Type := {
  cli_tester : CLIPerformanceTester.t;
  daemon_tester : DaemonPerformanceTester.t
}.

(** [_calculate_comparison(self, cli_metrics, daemon_metrics)],
    lines 615-651.  The method returns its result next to the object it
    was called on. *)
Definition _calculate_comparison (self : t)
    (cli_metrics daemon_metrics : PerformanceMetrics)
    : result ComparisonResults * t :=
  (latency <-
     (if gt (avg_latency_ms cli_metrics) 0 then
        improvement_factor <-
          truediv (avg_latency_ms cli_metrics)
                  (avg_latency_ms daemon_metrics) ;;
        ratio <-
          truediv (avg_latency_ms cli_metrics - avg_latency_ms daemon_metrics)
                  (avg_latency_ms cli_metrics) ;;
        Ok (improvement_factor, ratio * 100)
      else Ok (0, 0)) ;;
   let '(improvement_factor, latency_improvement) := latency in
   throughput_improvement <-
     (if gt (throughput_ops_sec cli_metrics) 0 then
        ratio <-
          truediv (throughput_ops_sec daemon_metrics
                   - throughput_ops_sec cli_metrics)
                  (throughput_ops_sec cli_metrics) ;;
        Ok (ratio * 100)
      else Ok 0) ;;
   memory_improvement <-
     (if gt (memory_usage_mb cli_metrics) 0 then
        ratio <-
          truediv (memory_usage_mb cli_metrics
                   - memory_usage_mb daemon_metrics)
                  (memory_usage_mb cli_metrics) ;;
        Ok (ratio * 100)
      else Ok 0) ;;
   let targets_met :=
     [("latency_target"%string,
       lt (avg_latency_ms daemon_metrics) LATENCY_TARGET_MS);
      ("throughput_target"%string,
       gt (throughput_ops_sec daemon_metrics) THROUGHPUT_TARGET_OPS_SEC);
      ("memory_target"%string,
       lt (memory_usage_mb daemon_metrics) MEMORY_TARGET_MB);
      ("improvement_target"%string,
       gt improvement_factor (IMPROVEMENT_TARGET_PERCENT / 100))] in
   Ok {| cli_metrics := cli_metrics;
         daemon_metrics := daemon_metrics;
         improvement_factor := improvement_factor;
         latency_improvement_percent := latency_improvement;
         throughput_improvement_percent := throughput_improvement;
         memory_improvement_percent := memory_improvement;
         targets_met := targets_met |}, self).

End PerformanceComparison.

(** ** tools/performance_reporter.py *)

Module PerformanceReporter.

Record metric : Type := {
  value : Q;
  unit : string
}.

(** [BenchmarkResult], and the shape its [to_dict()] gives the entries of
    a baseline document.  [metrics] is a dict in insertion order. *)
Record BenchmarkResult : Type := {
  name : string;
  metrics : list (string * metric);
  status : string;
  duration_ms : Q;
  notes : list string
}.

(** An entry of the list that [detect_regressions] returns. *)
Record regression : Type := {
  test : string;
  metric_name : string;
  baseline : Q;
  current : Q;
  regression_percent : Q;
  reg_unit : string
}.

(** Lines 312-315: the first baseline result of that name that has the
    metric. *)
Fixpoint find_baseline_value (results : list BenchmarkResult)
    (result_name metric_name : string) : option Q :=
  match results with
  | [] => None
  | baseline_result :: rest =>
      match (if String.eqb (name baseline_result) result_name
             then lookup metric_name (metrics baseline_result)
             else None) with
      | Some m => Some (value m)
      | None => find_baseline_value rest result_name metric_name
      end
  end.

Definition lower_is_better (metric_name : string) : bool :=
  existsb (String.eqb metric_name) ["avg_latency"; "peak_memory"]%string.

(** Lines 320-345: the check of one metric against its baseline value;
    what it appends to [regressions], if anything. *)
Definition check_metric (result_name metric_name : string)
    (metric_data : metric) (baseline_value : Q) : result (list regression) :=
  let current_value := value metric_data in
  let threshold := 1 # 10 in
  if lower_is_better metric_name then
    change <- truediv (current_value - baseline_value) baseline_value ;;
    if gt change threshold then
      Ok [{| test := result_name;
             metric_name := metric_name;
             baseline := baseline_value;
             current := current_value;
             regression_percent := change * 100;
             reg_unit := unit metric_data |}]
    else Ok []
  else
    change <- truediv (baseline_value - current_value) baseline_value ;;
    if gt change threshold then
      Ok [{| test := result_name;
             metric_name := metric_name;
             baseline := baseline_value;
             current := current_value;
             regression_percent := change * 100;
             reg_unit := unit metric_data |}]
    else Ok [].

(** The inner loop, line 308, over the metrics of one result. *)
Fixpoint scan_metrics (baseline_results : list BenchmarkResult)
    (result_name : string) (ms : list (string * metric))
    : result (list regression) :=
  match ms with
  | [] => Ok []
  | (metric_name, metric_data) :: rest =>
      found <-
        match find_baseline_value baseline_results result_name metric_name with
        | None => Ok []
        | Some baseline_value =>
            check_metric result_name metric_name metric_data baseline_value
        end ;;
      more <- scan_metrics baseline_results result_name rest ;;
      Ok (found ++ more)
  end.

(** The outer loop, line 307, over [self.benchmark_results]. *)
Fixpoint scan_results (baseline_results : list BenchmarkResult)
    (benchmark_results : list BenchmarkResult) : result (list regression) :=
  match benchmark_results with
  | [] => Ok []
  | r :: rest =>
      found <- scan_metrics baseline_results (name r) (metrics r) ;;
      more <- scan_results baseline_results rest ;;
      Ok (found ++ more)
  end.

(** [detect_regressions(self, baseline)], lines 300-347.  [None] is a
    baseline that is [None] or empty; otherwise the argument is the list
    under the document's ['results'] key. *)
Definition detect_regressions (benchmark_results : list BenchmarkResult)
    (baseline : option (list BenchmarkResult)) : result (list regression) :=
  match baseline with
  | None => Ok []
  | Some baseline_results => scan_results baseline_results benchmark_results
  end.

End PerformanceReporter.

(** ** tests/performance/analyze_benchmarks.py *)

Module BenchmarkAnalyzer.

(** A benchmark of the results document: its name and
    [results.latency.avg]. *)
Record benchmark : Type := {
  name : string;
  latency_avg : Q
}.

(** An entry of the list that [check_regression] returns; [regression]
    is the percentage that the source formats to one decimal. *)
Record regression : Type := {
  reg_benchmark : string;
  baseline : Q;
  current : Q;
  regression_pct100 : Q
}.

Fixpoint find_benchmark (benchmarks : list benchmark) (n : string)
    : option benchmark :=
  match benchmarks with
  | [] => None
  | b :: rest => if String.eqb (name b) n then Some b
                 else find_benchmark rest n
  end.

Fixpoint scan (baseline_benchmarks data_benchmarks : list benchmark)
    : result (list regression) :=
  match data_benchmarks with
  | [] => Ok []
  | current :: rest =>
      found <-
        match find_benchmark baseline_benchmarks (name current) with
        | Some baseline_match =>
            let current_latency := latency_avg current in
            let baseline_latency := latency_avg baseline_match in
            regression_pct <-
              truediv (current_latency - baseline_latency) baseline_latency ;;
            if gt regression_pct (5 # 100) then
              Ok [{| reg_benchmark := name current;
                     baseline := baseline_latency;
                     current := current_latency;
                     regression_pct100 := regression_pct * 100 |}]
            else Ok []
        | None => Ok []
        end ;;
      more <- scan baseline_benchmarks rest ;;
      Ok (found ++ more)
  end.

(** [check_regression(self, baseline_file)], lines 281-312.  [None] is a
    baseline file that does not exist. *)
Definition check_regression (data_benchmarks : list benchmark)
    (baseline_file : option (list benchmark)) : result (list regression) :=
  match baseline_file with
  | None => Ok []
  | Some baseline_benchmarks => scan baseline_benchmarks data_benchmarks
  end.

End BenchmarkAnalyzer.

(** ** The specification's wording, for comparison with the code *)

(** The percentile as section 4.2 words it. *)
Definition spec_percentile (samples : list Q) (p : Q) : Q :=
  let s := sorted samples in
  let n := inject_Z (len s) in
  let index := p / 100 * (n - 1) in
  let at_ (i : Z) := nth (Z.to_nat i) s 0 in
  if Qeq_bool index (inject_Z (Qfloor index)) then at_ (Qfloor index)
  else at_ (Qfloor index)
       + (at_ (Qceiling index) - at_ (Qfloor index))
         * (index - inject_Z (Qfloor index)).

(** The comparison as section 3 of the specification words it for a metric
    where lower is better. *)
Definition spec_improvementRatio (baselineValue candidateValue : Q) : Q :=
  baselineValue / candidateValue.

Definition spec_isRegression (baselineValue candidateValue : Q) : bool :=
  gt candidateValue baselineValue.

(** The polarity table of sections 3 and 4.4 of the specification:
    latency and memory are better when lower, throughput is better when
    higher; it names no other kind of metric.  With it, the relative change
    in the adverse direction (section 4.5) and the candidate being worse
    than the baseline (section 3). *)
Inductive polarity : Set :=
| LowerIsBetter
| HigherIsBetter.

Definition spec_polarity (metricName : string) : option polarity :=
  if is_substring "latency" metricName || is_substring "memory" metricName
  then Some LowerIsBetter
  else if is_substring "throughput" metricName then Some HigherIsBetter
  else None.

Definition spec_adverse_change (p : polarity) (baselineValue currentValue : Q)
    : Q :=
  match p with
  | LowerIsBetter => (currentValue - baselineValue) / baselineValue
  | HigherIsBetter => (baselineValue - currentValue) / baselineValue
  end.

Definition spec_worse (p : polarity) (baselineValue currentValue : Q)
    : Prop :=
  match p with
  | LowerIsBetter => baselineValue < currentValue
  | HigherIsBetter => currentValue < baselineValue
  end.

(** The variant that section 4.6 rules out: the mean of the medians of the
    workers. *)
Definition averaged_p50 (results : list (list Q * list error_entry))
    : result Q :=
  (fix go (rs : list (list Q * list error_entry)) (acc : list Q) : result Q :=
     match rs with
     | [] => mean acc
     | r :: rs' => p50 <- median (fst r) ;; go rs' (acc ++ [p50])
     end) results [].

(** ** Sample inputs *)

Definition daemon0 : DaemonPerformanceTester.t :=
  {| DaemonPerformanceTester.daemon_path := "../../goxel-headless";
     DaemonPerformanceTester.socket_path := "/tmp/goxel_perf_test.sock";
     DaemonPerformanceTester.request_id := 1 |}.

Definition comparison0 : PerformanceComparison.t :=
  {| PerformanceComparison.cli_tester :=
       {| CLIPerformanceTester.cli_path := "../../goxel-headless";
          CLIPerformanceTester.temp_files := [] |};
     PerformanceComparison.daemon_tester := daemon0 |}.

(** A JSON-RPC reply with a result, one with the error "method not found",
    and one with the error "parse error". *)
Definition reply_ok : json :=
  JObj [("jsonrpc", JStr "2.0"); ("result", JBool true); ("id", JNum 1)]%string.

Definition reply_method_not_found : json :=
  JObj [("jsonrpc", JStr "2.0");
        ("error", JObj [("code", JNum (-32601));
                        ("message", JStr "Method not found")]);
        ("id", JNum 1)]%string.

Definition reply_parse_error : json :=
  JObj [("jsonrpc", JStr "2.0");
        ("error", JObj [("code", JNum (-32700));
                        ("message", JStr "Parse error")]);
        ("id", JNull)]%string.

(** Two workers of two successful calls each, with unlike durations. *)
Definition asymmetric_run : list (Z * list DaemonPerformanceTester.exchange) :=
  [(0%Z, [DaemonPerformanceTester.Received 1
            (DaemonPerformanceTester.Document reply_ok);
          DaemonPerformanceTester.Received 2
            (DaemonPerformanceTester.Document reply_ok)]);
   (1%Z, [DaemonPerformanceTester.Received 3
            (DaemonPerformanceTester.Document reply_ok);
          DaemonPerformanceTester.Received 100
            (DaemonPerformanceTester.Document reply_ok)])].

(** A summary with the given average latency. *)
Definition with_latency (name : string) (avg : Q) : PerformanceMetrics :=
  {| test_name := name;
     operation_count := 300;
     total_time_ms := avg * 300;
     avg_latency_ms := avg;
     min_latency_ms := avg;
     max_latency_ms := avg;
     p50_latency_ms := avg;
     p95_latency_ms := avg;
     p99_latency_ms := avg;
     throughput_ops_sec := 0;
     memory_usage_mb := 0;
     success_rate_percent := 100;
     concurrent_clients := 1;
     errors := [] |}.

(** A parsed latency result holding one [avg_latency] metric, in ms. *)
Definition latency_result (avg : Q) : PerformanceReporter.BenchmarkResult :=
  {| PerformanceReporter.name := "latency_benchmark";
     PerformanceReporter.metrics :=
       [("avg_latency"%string,
         {| PerformanceReporter.value := avg;
            PerformanceReporter.unit := "ms" |})];
     PerformanceReporter.status := "pass";
     PerformanceReporter.duration_ms := 0;
     PerformanceReporter.notes := [] |}.

(** A parsed memory result holding one [final_memory] metric, in MB, as
    [_parse_memory_results] adds it (line 179). *)
Definition memory_result (final : Q) : PerformanceReporter.BenchmarkResult :=
  {| PerformanceReporter.name := "memory_profiling";
     PerformanceReporter.metrics :=
       [("final_memory"%string,
         {| PerformanceReporter.value := final;
            PerformanceReporter.unit := "MB" |})];
     PerformanceReporter.status := "pass";
     PerformanceReporter.duration_ms := 0;
     PerformanceReporter.notes := [] |}.

(** A parsed memory result holding one [peak_memory] metric, in MB
    (line 175), and a parsed throughput result holding one
    [avg_throughput] metric, in ops/sec (line 148). *)
Definition peak_memory_result (peak : Q)
    : PerformanceReporter.BenchmarkResult :=
  {| PerformanceReporter.name := "memory_profiling";
     PerformanceReporter.metrics :=
       [("peak_memory"%string,
         {| PerformanceReporter.value := peak;
            PerformanceReporter.unit := "MB" |})];
     PerformanceReporter.status := "pass";
     PerformanceReporter.duration_ms := 0;
     PerformanceReporter.notes := [] |}.

Definition throughput_result (avg : Q)
    : PerformanceReporter.BenchmarkResult :=
  {| PerformanceReporter.name := "throughput_benchmark";
     PerformanceReporter.metrics :=
       [("avg_throughput"%string,
         {| PerformanceReporter.value := avg;
            PerformanceReporter.unit := "ops/sec" |})];
     PerformanceReporter.status := "pass";
     PerformanceReporter.duration_ms := 0;
     PerformanceReporter.notes := [] |}.

(** A benchmark of a results document with the given average latency. *)
Definition latency_benchmark (avg : Q) : BenchmarkAnalyzer.benchmark :=
  {| BenchmarkAnalyzer.name := "Single_Operation_2Layer";
     BenchmarkAnalyzer.latency_avg := avg |}.

(** ** Definitions used in the statements *)

(** The success flag of what [send_json_rpc] returns. *)
Definition succeeded {S : Type} (r : (Q * bool * json) * S) : bool :=
  snd (fst (fst r)).

(** Element [i] of a list, at an integer index. *)
Definition at_ (s : list Q) (i : Z) : Q := nth (Z.to_nat i) s 0.

(** Linear interpolation in [s] at the fractional rank [x]. *)
Definition interp (s : list Q) (x : Q) : Q :=
  at_ s (Qfloor x)
  + (at_ s (Qfloor x + 1) - at_ s (Qfloor x)) * (x - inject_Z (Qfloor x)).

(** The fractional rank of the percentile [p] in [data]. *)
Definition rank (data : list Q) (p : Q) : Q :=
  p / 100 * (inject_Z (len data) - 1).

(** Sum of a count over the pairs that the workers appended. *)
Definition total {A : Type} (f : A -> Z) (l : list A) : Z :=
  fold_right Z.add 0%Z (map f l).

(** Lists that agree element by element as rationals. *)
Definition pointwise_eq : list Q -> list Q -> Prop := Forall2 Qeq.

(** The relative change of a regression record in the direction that the
    table of the code gives its metric ([lower_is_better]), and what the
    check of line 326 or 337 has established of a record. *)
Definition table_change (r : PerformanceReporter.regression) : Q :=
  if PerformanceReporter.lower_is_better (PerformanceReporter.metric_name r)
  then (PerformanceReporter.current r - PerformanceReporter.baseline r)
       / PerformanceReporter.baseline r
  else (PerformanceReporter.baseline r - PerformanceReporter.current r)
       / PerformanceReporter.baseline r.

Definition flagged (r : PerformanceReporter.regression) : Prop :=
  ~ PerformanceReporter.baseline r == 0
  /\ 1 # 10 < table_change r
  /\ PerformanceReporter.regression_percent r = table_change r * 100
  /\ (0 < PerformanceReporter.baseline r ->
      if PerformanceReporter.lower_is_better (PerformanceReporter.metric_name r)
      then PerformanceReporter.baseline r < PerformanceReporter.current r
      else PerformanceReporter.current r < PerformanceReporter.baseline r).

(** The comparisons that decide on a quotient, carried out on IEEE 754
    binary64 numbers as Python does: the threshold test of line 326 of
    performance_reporter.py (and of line 304 of analyze_benchmarks.py), and
    the improvement target of line 640 of benchmark_v14.py.  They serve to
    evaluate boundary instances without the idealisation of floats as
    rationals. *)
Module Binary64.

Definition exceeds (current_value baseline_value threshold : float) : bool :=
  PrimFloat.ltb threshold
    (PrimFloat.div (PrimFloat.sub current_value baseline_value)
                   baseline_value).

Definition improvement_target (cli_latency daemon_latency : float) : bool :=
  PrimFloat.ltb (PrimFloat.div 700 100)
                (PrimFloat.div cli_latency daemon_latency).

End Binary64.

(** ** benchmark_v14.py: the sampling loops, the assessment and the exit code *)

(** [a >= b] on numbers, [max(a, b)] and [all(d.values())]. *)
Definition ge (a b : Q) : bool := negb (lt a b).

Definition max2 (a b : Q) : Q := if lt a b then b else a.

Definition all_values (d : list (string * bool)) : bool := forallb snd d.

Module CLISampling.

(** What one [subprocess.run] of [run_cli_command] comes to: the process
    ends after [elapsed_ms] with a return code and its standard error, or
    the timeout expires, or another exception is raised. *)
Inductive process_outcome : Type :=
| Exited (elapsed_ms : Q) (returncode : Z) (stderr : string)
| TimeoutExpired
| SpawnRaised (e : exn).

(** [run_cli_command(self, args)], lines 117-140. *)
Definition run_cli_command (o : process_outcome) : Q * bool * string :=
  match o with
  | Exited duration_ms returncode stderr =>
      let success := (returncode =? 0)%Z in
      (duration_ms, success, if negb success then stderr else ""%string)
  | TimeoutExpired => (DEFAULT_TIMEOUT * 1000, false, "Command timeout"%string)
  | SpawnRaised e => (0, false, str_exn e)
  end.

(** What the clock, the process table and the commands deliver to one
    iteration of the loop of lines 161-187: the outcome of the command of
    each operation (by position), the resident set before and after, and
    the wall-clock duration of the whole sequence. *)
Record iteration : Type := {
  outcome : nat -> process_outcome;
  memory_before : Q;
  memory_after : Q;
  sequence_duration : Q
}.

(** The names of [operations], lines 153-157. *)
Definition operations : list string :=
  ["create_project"; "add_voxel"; "export_model"]%string.

(** The inner loop, lines 169-175: the entry appended to [errors] by the
    first command that fails, if one does. *)
Fixpoint run_operations (ops : list string) (k : nat)
    (outcome : nat -> process_outcome) : option error_entry :=
  match ops with
  | [] => None
  | operation_name :: rest =>
      let '(_, success, error_msg) := run_cli_command (outcome k) in
      if success : bool then run_operations rest (S k) outcome
      else Some (OperationError operation_name (JStr error_msg))
  end.

Record loop_state : Type := {
  latencies : list Q;
  errors : list error_entry;
  memory_usage : Q
}.

(** The loop of lines 161-187, with [n] iterations left from index [i]. *)
Fixpoint sampling_loop (num_samples : Z) (world : nat -> iteration)
    (n i : nat) (st : loop_state) : result loop_state :=
  match n with
  | O => Ok st
  | S n' =>
      let it := world i in
      let failure := run_operations operations 0 (outcome it) in
      let st' :=
        {| latencies := match failure with
                        | None => latencies st ++ [sequence_duration it]
                        | Some _ => latencies st
                        end;
           errors := match failure with
                     | None => errors st
                     | Some e => errors st ++ [e]
                     end;
           memory_usage := max2 (memory_usage st)
                                (memory_after it - memory_before it) |} in
      if (num_samples / 10 =? 0)%Z then Raise ZeroDivisionError
      else sampling_loop num_samples world n' (S i) st'
  end.

(** [benchmark_basic_operations(self, num_samples)], lines 142-220: the
    temporary project file [temp_project] is noted in [self.temp_files],
    then comes the loop, then the summary. *)
Definition benchmark_basic_operations (self : CLIPerformanceTester.t)
    (temp_project : string) (num_samples : Z) (world : nat -> iteration)
    : result PerformanceMetrics * CLIPerformanceTester.t :=
  let self' :=
    {| CLIPerformanceTester.cli_path := CLIPerformanceTester.cli_path self;
       CLIPerformanceTester.temp_files :=
         CLIPerformanceTester.temp_files self ++ [temp_project] |} in
  (st <- sampling_loop num_samples world (Z.to_nat num_samples) 0
           {| latencies := []; errors := []; memory_usage := 0 |} ;;
   CLIPerformanceTester.benchmark_basic_operations
     num_samples (latencies st) (errors st) (memory_usage st), self').

End CLISampling.

Module DaemonSampling.

(** What the socket and the process table deliver to one iteration of the
    loop of lines 385-415: the exchange of the call of each operation (by
    position), and the resident set of the daemon, [None] when the process
    is gone. *)
Record iteration : Type := {
  exchange_of : nat -> DaemonPerformanceTester.exchange;
  memory_reading : option Q
}.

(** The methods of [operations], lines 367-372. *)
Definition operations : list string :=
  ["goxel.create_project"; "goxel.add_voxel"; "goxel.get_voxel";
   "goxel.get_status"]%string.

(** The inner loop, lines 390-398: the durations of the calls made, and the
    entry appended to [errors] by the first call that fails, if one does.
    The [.get] chain of line 396 raises when the reply or its error member
    is no dict. *)
Fixpoint run_sequence (self : DaemonPerformanceTester.t) (ops : list string)
    (k : nat) (exchange_of : nat -> DaemonPerformanceTester.exchange)
    (sequence_latencies : list Q)
    : result (list Q * option error_entry) * DaemonPerformanceTester.t :=
  match ops with
  | [] => (Ok (sequence_latencies, None), self)
  | method :: rest =>
      let '((duration_ms, success, response), self') :=
        DaemonPerformanceTester.send_json_rpc self (exchange_of k) in
      let sequence_latencies := sequence_latencies ++ [duration_ms] in
      if success : bool then
        run_sequence self' rest (S k) exchange_of sequence_latencies
      else
        match (error <- get response "error" (JObj []) ;;
               get error "message" (JStr "Unknown error")) with
        | Ok error_msg =>
            (Ok (sequence_latencies,
                 Some (OperationError method error_msg)), self')
        | Raise e => (Raise e, self')
        end
  end.

Record loop_state : Type := {
  latencies : list Q;
  errors : list error_entry;
  daemon_memory : Q
}.

(** The loop of lines 385-415, with [n] iterations left from index [i]. *)
Fixpoint sampling_loop (self : DaemonPerformanceTester.t) (num_samples : Z)
    (world : nat -> iteration) (n i : nat) (st : loop_state)
    : result loop_state * DaemonPerformanceTester.t :=
  match n with
  | O => (Ok st, self)
  | S n' =>
      let it := world i in
      match run_sequence self operations 0 (exchange_of it) [] with
      | (Raise e, self') => (Raise e, self')
      | (Ok (sequence_latencies, failure), self') =>
          let st' :=
            {| latencies := match failure with
                            | None => latencies st ++ sequence_latencies
                            | Some _ => latencies st
                            end;
               errors := match failure with
                         | None => errors st
                         | Some e => errors st ++ [e]
                         end;
               daemon_memory :=
                 if (Z.of_nat i mod 10 =? 0)%Z then
                   match memory_reading it with
                   | Some current_memory =>
                       max2 (daemon_memory st) current_memory
                   | None => daemon_memory st
                   end
                 else daemon_memory st |} in
          if (num_samples / 10 =? 0)%Z then (Raise ZeroDivisionError, self')
          else sampling_loop self' num_samples world n' (S i) st'
      end
  end.

(** [benchmark_basic_operations(self, num_samples)], lines 344-451.
    [started] is what [start_daemon()] returned, [initial_memory] the
    resident set read before the loop. *)
Definition benchmark_basic_operations (self : DaemonPerformanceTester.t)
    (started : bool) (num_samples : Z) (initial_memory : option Q)
    (world : nat -> iteration)
    : result PerformanceMetrics * DaemonPerformanceTester.t :=
  if negb started then
    (DaemonPerformanceTester.benchmark_basic_operations
       false num_samples [] [] 0, self)
  else
    let memory0 := match initial_memory with
                   | Some rss => rss
                   | None => 0
                   end in
    match sampling_loop self num_samples world (Z.to_nat num_samples) 0
            {| latencies := []; errors := []; daemon_memory := memory0 |} with
    | (Raise e, self') => (Raise e, self')
    | (Ok st, self') =>
        (DaemonPerformanceTester.benchmark_basic_operations
           true num_samples (latencies st) (errors st) (daemon_memory st),
         self')
    end.

End DaemonSampling.

Module Assessment.

(** [print_comparison_summary], lines 736-744: whether the summary prints
    that the concurrent target and that all targets are met. *)
Definition concurrent_success (concurrent_metrics : PerformanceMetrics)
    : bool :=
  (CONCURRENT_CLIENTS_TARGET <=? concurrent_clients concurrent_metrics)%Z
  && ge (success_rate_percent concurrent_metrics) 95.

Definition all_targets_met_printed (comparison : ComparisonResults)
    (concurrent_metrics : PerformanceMetrics) : bool :=
  all_values (targets_met comparison)
  && concurrent_success concurrent_metrics.

(** [main], lines 796-800: the exit code. *)
Definition exit_code (comparison_results : ComparisonResults)
    (concurrent_results : PerformanceMetrics) : Z :=
  let all_targets_met :=
    all_values (targets_met comparison_results)
    && ge (success_rate_percent concurrent_results) 95 in
  if all_targets_met then 0%Z else 1%Z.

(** [run_basic_comparison(self, num_samples)], lines 590-606. *)
Definition run_basic_comparison (self : PerformanceComparison.t)
    (temp_project : string) (num_samples : Z)
    (cli_world : nat -> CLISampling.iteration)
    (started : bool) (initial_memory : option Q)
    (daemon_world : nat -> DaemonSampling.iteration)
    : result ComparisonResults * PerformanceComparison.t :=
  let '(c, cli_tester') :=
    CLISampling.benchmark_basic_operations
      (PerformanceComparison.cli_tester self) temp_project num_samples
      cli_world in
  match c with
  | Raise e =>
      (Raise e,
       {| PerformanceComparison.cli_tester := cli_tester';
          PerformanceComparison.daemon_tester :=
            PerformanceComparison.daemon_tester self |})
  | Ok cli_metrics =>
      let '(d, daemon_tester') :=
        DaemonSampling.benchmark_basic_operations
          (PerformanceComparison.daemon_tester self) started num_samples
          initial_memory daemon_world in
      let self' :=
        {| PerformanceComparison.cli_tester := cli_tester';
           PerformanceComparison.daemon_tester := daemon_tester' |} in
      match d with
      | Raise e => (Raise e, self')
      | Ok daemon_metrics =>
          PerformanceComparison._calculate_comparison
            self' cli_metrics daemon_metrics
      end
  end.

End Assessment.

(** An exchange that ends in the [except] clause of [send_json_rpc]
    whatever the reply: the socket raised, or the reply is no JSON. *)
Definition transport_failure (x : DaemonPerformanceTester.exchange) : Prop :=
  match x with
  | DaemonPerformanceTester.SocketRaised _ => True
  | DaemonPerformanceTester.Received _ DaemonPerformanceTester.InvalidJSON =>
      True
  | _ => False
  end.

(** An exchange with a positive duration whose reply is empty or a JSON
    object that has a result, or no error member, or an error object with
    a code. *)
Definition well_formed (x : DaemonPerformanceTester.exchange) : Prop :=
  match x with
  | DaemonPerformanceTester.Received d DaemonPerformanceTester.EmptyPayload =>
      0 < d
  | DaemonPerformanceTester.Received d
      (DaemonPerformanceTester.Document (JObj members)) =>
      0 < d
      /\ (lookup "result" members <> None
          \/ lookup "error" members = None
          \/ exists e code,
               lookup "error" members = Some (JObj e)
               /\ lookup "code" e = Some code)
  | _ => False
  end.

(** An exchange whose call leaves the [try] block of [send_json_rpc] with
    a dict: the reply is empty, or a JSON object that has a result, or no
    error member, or an error object with a code. *)
Definition answered (x : DaemonPerformanceTester.exchange) : Prop :=
  match x with
  | DaemonPerformanceTester.Received _ DaemonPerformanceTester.EmptyPayload =>
      True
  | DaemonPerformanceTester.Received _
      (DaemonPerformanceTester.Document (JObj members)) =>
      lookup "result" members <> None
      \/ lookup "error" members = None
      \/ exists e code,
           lookup "error" members = Some (JObj e)
           /\ lookup "code" e = Some code
  | _ => False
  end.

(** The duration and the success flag that [send_json_rpc] returns for an
    exchange (neither depends on the object it is called on), the
    durations of the calls of a worker that it flags as successful, and
    the number of those that it flags as failed. *)
Definition measured (x : DaemonPerformanceTester.exchange) : Q * bool :=
  fst (fst (DaemonPerformanceTester.send_json_rpc
              {| DaemonPerformanceTester.daemon_path := "";
                 DaemonPerformanceTester.socket_path := "";
                 DaemonPerformanceTester.request_id := 0 |} x)).

Definition successful_durations
    (xs : list DaemonPerformanceTester.exchange) : list Q :=
  map (fun x => fst (measured x)) (filter (fun x => snd (measured x)) xs).

Definition failed_calls (xs : list DaemonPerformanceTester.exchange) : Z :=
  len (filter (fun x => negb (snd (measured x))) xs).

(** The summary of a concurrent run in which no call succeeded and no
    failure was recorded. *)
Definition silent_summary (num_clients : Z) (total_test_time daemon_memory : Q)
    : PerformanceMetrics :=
  {| test_name := "Daemon_Concurrent_Clients";
     operation_count := 0;
     total_time_ms := total_test_time;
     avg_latency_ms := 0;
     min_latency_ms := 0;
     max_latency_ms := 0;
     p50_latency_ms := 0;
     p95_latency_ms := 0;
     p99_latency_ms := 0;
     throughput_ops_sec := 0;
     memory_usage_mb := daemon_memory;
     success_rate_percent := 0;
     concurrent_clients := num_clients;
     errors := [] |}.

(** Iterations of the one-shot loop: one in which the three commands
    succeed, one in which the export fails; a run alternates them. *)
Definition all_commands_succeed : CLISampling.iteration :=
  {| CLISampling.outcome := fun _ => CLISampling.Exited 12 0 "";
     CLISampling.memory_before := 100;
     CLISampling.memory_after := 101;
     CLISampling.sequence_duration := 40 |}.

Definition export_fails : CLISampling.iteration :=
  {| CLISampling.outcome :=
       fun k => match k with
                | 2%nat => CLISampling.Exited 9 1 "cannot export"
                | _ => CLISampling.Exited 12 0 ""
                end;
     CLISampling.memory_before := 100;
     CLISampling.memory_after := 100;
     CLISampling.sequence_duration := 35 |}.

Definition cli_world0 (i : nat) : CLISampling.iteration :=
  if Nat.even i then all_commands_succeed else export_fails.

(** Iterations of the daemon loop: one in which the four calls are
    answered with a result, one in which the third is answered with a parse
    error, one in which the socket raises at once. *)
Definition all_calls_answered : DaemonSampling.iteration :=
  {| DaemonSampling.exchange_of :=
       fun _ => DaemonPerformanceTester.Received 2
                  (DaemonPerformanceTester.Document reply_ok);
     DaemonSampling.memory_reading := Some 20 |}.

Definition third_call_rejected : DaemonSampling.iteration :=
  {| DaemonSampling.exchange_of :=
       fun k => match k with
                | 2%nat => DaemonPerformanceTester.Received 3
                             (DaemonPerformanceTester.Document reply_parse_error)
                | _ => DaemonPerformanceTester.Received 2
                         (DaemonPerformanceTester.Document reply_ok)
                end;
     DaemonSampling.memory_reading := Some 21 |}.

Definition socket_refused : DaemonSampling.iteration :=
  {| DaemonSampling.exchange_of :=
       fun _ => DaemonPerformanceTester.SocketRaised OSError;
     DaemonSampling.memory_reading := None |}.

Definition daemon_world0 (i : nat) : DaemonSampling.iteration :=
  if Nat.even i then all_calls_answered else third_call_rejected.

(** A summary with the given average latency, throughput, memory, success
    rate and number of clients. *)
Definition summary_of (avg throughput memory rate : Q) (clients : Z)
    : PerformanceMetrics :=
  {| test_name := "summary";
     operation_count := 400;
     total_time_ms := avg * 400;
     avg_latency_ms := avg;
     min_latency_ms := avg;
     max_latency_ms := avg;
     p50_latency_ms := avg;
     p95_latency_ms := avg;
     p99_latency_ms := avg;
     throughput_ops_sec := throughput;
     memory_usage_mb := memory;
     success_rate_percent := rate;
     concurrent_clients := clients;
     errors := [] |}.

(** A comparison in which the four targets are met. *)
Definition comparison_passing : ComparisonResults :=
  {| cli_metrics := summary_of 10 100 30 100 1;
     daemon_metrics := summary_of (1 # 2) 2000 20 100 1;
     improvement_factor := 20;
     latency_improvement_percent := 95;
     throughput_improvement_percent := 1900;
     memory_improvement_percent := 100 # 3;
     targets_met := [("latency_target", true); ("throughput_target", true);
                     ("memory_target", true);
                     ("improvement_target", true)]%string |}.

(** ** tools/performance_reporter.py: results and trends *)

(** [d[k] = v] on a dict: the value of an existing key is replaced in
    place, a new key goes to the end. *)
Fixpoint setitem {A : Type} (k : string) (v : A) (d : list (string * A))
    : list (string * A) :=
  match d with
  | [] => [(k, v)]
  | (k', v') :: rest =>
      if String.eqb k k' then (k', v) :: rest
      else (k', v') :: setitem k v rest
  end.

Module ReporterResults.

Import PerformanceReporter.

(** [BenchmarkResult.add_metric(self, key, value, unit)], lines 52-57. *)
Definition add_metric (self : BenchmarkResult) (key : string) (v : Q)
    (u : string) : BenchmarkResult :=
  {| name := name self;
     metrics := setitem key {| value := v; unit := u |} (metrics self);
     status := status self;
     duration_ms := duration_ms self;
     notes := notes self |}.

(** [BenchmarkResult.add_note(self, note)], lines 59-61. *)
Definition add_note (self : BenchmarkResult) (note : string)
    : BenchmarkResult :=
  {| name := name self;
     metrics := metrics self;
     status := status self;
     duration_ms := duration_ms self;
     notes := notes self ++ [note] |}.

(** An entry of the dict that [analyze_performance_trends] returns. *)
Record trend_entry : Type := {
  trend : string;
  recent_avg : Q;
  older_avg : Q;
  change_percent : Q
}.

(** What [analyze_performance_trends] returns: the "no_data" dict, or the
    entries by metric. *)
Inductive analysis : Type :=
| NoData
| Trends (trends : list (string * trend_entry)).

Definition metric_types : list string :=
  ["avg_latency"; "avg_throughput"; "peak_memory"; "improvement_ratio"]%string.

(** Lines 270-277: the values of a metric over the historical documents,
    each document given by the list under its ['results'] key.  The
    timestamps are those that [to_dict] wrote, which [fromisoformat] reads
    back. *)
Definition collect (historical_data : list (list BenchmarkResult))
    (metric : string) : list Q :=
  flat_map
    (fun data =>
       flat_map (fun r => match lookup metric (metrics r) with
                          | Some m => [value m]
                          | None => []
                          end) data)
    historical_data.

(** Lines 279-296: the entry of one metric, if it has two values or more. *)
Definition metric_trend (metric : string) (values : list Q)
    : result (option trend_entry) :=
  if (2 <=? len values)%Z then
    recent_avg <-
      (if (3 <=? len values)%Z
       then mean (skipn (length values - 3) values)
       else getitem values (-1)) ;;
    older_avg <-
      (if (3 <=? len values)%Z
       then mean (firstn 3 values)
       else getitem values 0) ;;
    let trend :=
      if lower_is_better metric then
        if lt recent_avg older_avg then "improving"%string
        else "degrading"%string
      else
        if gt recent_avg older_avg then "improving"%string
        else "degrading"%string in
    ratio <- truediv (recent_avg - older_avg) older_avg ;;
    Ok (Some {| trend := trend;
                recent_avg := recent_avg;
                older_avg := older_avg;
                change_percent := Qabs (ratio * 100) |})
  else Ok None.

(** The loop of line 269 over the metric types. *)
Fixpoint analyze_metrics (historical_data : list (list BenchmarkResult))
    (ms : list string) : result (list (string * trend_entry)) :=
  match ms with
  | [] => Ok []
  | metric :: rest =>
      entry <- metric_trend metric (collect historical_data metric) ;;
      more <- analyze_metrics historical_data rest ;;
      Ok (match entry with
          | Some e => (metric, e) :: more
          | None => more
          end)
  end.

(** [analyze_performance_trends(self, historical_data)], lines 259-298. *)
Definition analyze_performance_trends
    (historical_data : list (list BenchmarkResult)) : result analysis :=
  match historical_data with
  | [] => Ok NoData
  | _ => trends <- analyze_metrics historical_data metric_types ;;
         Ok (Trends trends)
  end.

End ReporterResults.

(** The two averages that a trend compares: the means of the last three
    and of the first three values, or the last and the first value when
    there are only two. *)
Definition recent_of (values : list Q) : Q :=
  if (3 <=? len values)%Z
  then sum (skipn (length values - 3) values) / 3
  else nth (length values - 1) values 0.

Definition older_of (values : list Q) : Q :=
  if (3 <=? len values)%Z
  then sum (firstn 3 values) / 3
  else nth 0 values 0.

(** The record that [detect_regressions] appends for a metric [m] named
    [k] of the result [result_name], against the baseline value [b]. *)
Definition regression_of (result_name k : string)
    (m : PerformanceReporter.metric) (b : Q) : PerformanceReporter.regression :=
  {| PerformanceReporter.test := result_name;
     PerformanceReporter.metric_name := k;
     PerformanceReporter.baseline := b;
     PerformanceReporter.current := PerformanceReporter.value m;
     PerformanceReporter.regression_percent :=
       (if PerformanceReporter.lower_is_better k
        then (PerformanceReporter.value m - b) / b
        else (b - PerformanceReporter.value m) / b) * 100;
     PerformanceReporter.reg_unit := PerformanceReporter.unit m |}.

(** A metric of the results that has a baseline value. *)
Definition matched (results base : list PerformanceReporter.BenchmarkResult)
    (result_name k : string) (m : PerformanceReporter.metric) (b : Q) : Prop :=
  exists r,
    In r results /\ PerformanceReporter.name r = result_name
    /\ In (k, m) (PerformanceReporter.metrics r)
    /\ PerformanceReporter.find_baseline_value base result_name k = Some b.

(** What one metric contributes to the regressions when its baseline value
    is not zero. *)
Definition contribution (base : list PerformanceReporter.BenchmarkResult)
    (result_name : string) (km : string * PerformanceReporter.metric)
    : list PerformanceReporter.regression :=
  match PerformanceReporter.find_baseline_value base result_name (fst km) with
  | Some b =>
      if gt (table_change (regression_of result_name (fst km) (snd km) b))
            (1 # 10)
      then [regression_of result_name (fst km) (snd km) b]
      else []
  | None => []
  end.

(** A benchmark of the data that has a baseline of its name, and the record
    that [check_regression] appends for it. *)
Definition matched_benchmark (data base : list BenchmarkAnalyzer.benchmark)
    (c b : BenchmarkAnalyzer.benchmark) : Prop :=
  In c data
  /\ BenchmarkAnalyzer.find_benchmark base (BenchmarkAnalyzer.name c) = Some b.

Definition latency_change (c b : BenchmarkAnalyzer.benchmark) : Q :=
  (BenchmarkAnalyzer.latency_avg c - BenchmarkAnalyzer.latency_avg b)
  / BenchmarkAnalyzer.latency_avg b.

Definition regression_of_benchmark (c b : BenchmarkAnalyzer.benchmark)
    : BenchmarkAnalyzer.regression :=
  {| BenchmarkAnalyzer.reg_benchmark := BenchmarkAnalyzer.name c;
     BenchmarkAnalyzer.baseline := BenchmarkAnalyzer.latency_avg b;
     BenchmarkAnalyzer.current := BenchmarkAnalyzer.latency_avg c;
     BenchmarkAnalyzer.regression_pct100 := latency_change c b * 100 |}.

Definition benchmark_contribution (base : list BenchmarkAnalyzer.benchmark)
    (c : BenchmarkAnalyzer.benchmark) : list BenchmarkAnalyzer.regression :=
  match BenchmarkAnalyzer.find_benchmark base (BenchmarkAnalyzer.name c) with
  | Some b =>
      if gt (latency_change c b) (5 # 100)
      then [regression_of_benchmark c b]
      else []
  | None => []
  end.

(** * Properties *)

(** *** Python numbers *)

Lemma int_floor (x : Q) : 0 <= x -> int x = Qfloor x.
Proof.
  destruct x as [n d]; unfold int, Qfloor, Qle; simpl; intros H.
  apply Z.quot_div_nonneg; lia.
Qed.

Lemma is_integer_spec (x : Q) :
  is_integer x = true <-> x == inject_Z (Qfloor x).
Proof.
  destruct x as [n d]; unfold is_integer, Qfloor, Qeq; simpl.
  rewrite Z.eqb_eq.
  pose proof (Z.div_mod n (Zpos d) ltac:(lia)) as E.
  split; intros H; nia.
Qed.

Lemma ceiling_floor (x : Q) :
  ~ x == inject_Z (Qfloor x) -> Qceiling x = (Qfloor x + 1)%Z.
Proof.
  intros N.
  pose proof (Qfloor_le x) as F1. pose proof (Qlt_floor x) as F2.
  pose proof (Qle_ceiling x) as C1. pose proof (Qceiling_lt x) as C2.
  assert (A : (Qceiling x - 1 < Qfloor x + 1)%Z).
  { rewrite Zlt_Qlt. lra. }
  assert (B : (Qfloor x <= Qceiling x)%Z).
  { rewrite Zle_Qle. lra. }
  destruct (Z.eq_dec (Qceiling x) (Qfloor x)) as [E|E]; [|lia].
  exfalso; apply N. rewrite E in C1. lra.
Qed.

(** *** Sorting *)

Lemma insert_perm (x : Q) (l : list Q) : Permutation (insert x l) (x :: l).
Proof.
  induction l as [|y l IH]; simpl; [reflexivity|].
  destruct (Qle_bool x y); [reflexivity|].
  rewrite IH. apply perm_swap.
Qed.

Lemma sorted_perm (l : list Q) : Permutation (sorted l) l.
Proof.
  induction l as [|x l IH]; simpl; [constructor|].
  rewrite insert_perm. now constructor.
Qed.

Lemma sorted_length (l : list Q) : length (sorted l) = length l.
Proof. apply Permutation_length, sorted_perm. Qed.

Lemma insert_sorted (x : Q) (l : list Q) :
  StronglySorted Qle l -> StronglySorted Qle (insert x l).
Proof.
  induction 1 as [|y l S IH F]; simpl.
  - repeat constructor.
  - destruct (Qle_bool x y) eqn:E.
    + apply Qle_bool_iff in E. constructor; [now constructor|].
      constructor; [exact E|].
      eapply Forall_impl; [|exact F]. intros z Hz. lra.
    + assert (y <= x).
      { destruct (Qlt_le_dec y x) as [L|L]; [lra|].
        apply Qle_bool_iff in L. congruence. }
      constructor; [exact IH|].
      eapply Permutation_Forall; [symmetry; apply insert_perm|].
      now constructor.
Qed.

Lemma sorted_sorted (l : list Q) : StronglySorted Qle (sorted l).
Proof.
  induction l as [|x l IH]; simpl; [constructor|now apply insert_sorted].
Qed.

Lemma StronglySorted_nth (l : list Q) :
  StronglySorted Qle l ->
  forall i j : nat, (i <= j < length l)%nat -> nth i l 0 <= nth j l 0.
Proof.
  induction 1 as [|x l S IH F]; simpl; intros i j H; [lia|].
  destruct i as [|i], j as [|j]; try lia.
  - lra.
  - rewrite Forall_forall in F. apply F, nth_In. lia.
  - apply IH. lia.
Qed.

Lemma sorted_at_mono (l : list Q) (i j : Z) :
  (0 <= i <= j)%Z -> (j < len l)%Z ->
  at_ (sorted l) i <= at_ (sorted l) j.
Proof.
  intros H1 H2. unfold at_.
  apply StronglySorted_nth; [apply sorted_sorted|].
  rewrite sorted_length. unfold len in H2. lia.
Qed.

Lemma getitem_at (s : list Q) (i : Z) :
  (0 <= i < len s)%Z -> getitem s i = Ok (at_ s i).
Proof.
  intros H. unfold getitem, at_, len in *.
  destruct (i <? 0)%Z eqn:E; [lia|]. rewrite E.
  destruct (nth_error s (Z.to_nat i)) eqn:N.
  - now rewrite (nth_error_nth _ _ _ N).
  - apply nth_error_None in N. lia.
Qed.

Lemma len_sorted (l : list Q) : len (sorted l) = len l.
Proof. unfold len. now rewrite sorted_length. Qed.

(** *** Interpolation at a fractional rank *)

Lemma rank_bounds (data : list Q) (p : Q) :
  data <> [] -> 0 <= p <= 100 ->
  0 <= rank data p <= inject_Z (len data) - 1.
Proof.
  intros NE [H0 H1]. unfold rank.
  assert (L : 1 <= inject_Z (len data)).
  { destruct data; [congruence|]. unfold len. simpl length.
    change 1 with (inject_Z 1). rewrite <- Zle_Qle. lia. }
  assert (E : p / 100 == p * (1 # 100)) by (field).
  rewrite E. split; nra.
Qed.

Lemma inject_Z_sub (a b : Z) : inject_Z (a - b) = inject_Z a - inject_Z b.
Proof.
  unfold Z.sub, Qminus. now rewrite inject_Z_plus, inject_Z_opp.
Qed.

Lemma floor_rank_bounds (n : Z) (x : Q) :
  0 <= x <= inject_Z n - 1 -> (0 <= Qfloor x <= n - 1)%Z.
Proof.
  intros [H0 H1]. split.
  - change 0%Z with (Qfloor 0). now apply Qfloor_resp_le.
  - rewrite <- (Qfloor_Z (n - 1)). apply Qfloor_resp_le.
    rewrite inject_Z_sub. exact H1.
Qed.

Lemma floor_rank_strict (n : Z) (x : Q) :
  0 <= x <= inject_Z n - 1 -> ~ x == inject_Z (Qfloor x) ->
  (Qfloor x + 1 <= n - 1)%Z.
Proof.
  intros H N. pose proof (floor_rank_bounds n x H) as [_ B].
  destruct (Z.eq_dec (Qfloor x) (n - 1)) as [E|E]; [|lia].
  exfalso. apply N. pose proof (Qfloor_le x) as F. rewrite E in *.
  rewrite inject_Z_sub in *. change (inject_Z 1) with 1 in *. lra.
Qed.

Lemma percentile_interp (data : list Q) (p : Q) :
  data <> [] -> 0 <= p <= 100 ->
  exists v, CLIPerformanceTester._percentile data p = Ok v
            /\ v == interp (sorted data) (rank data p).
Proof.
  intros NE Hp.
  pose proof (rank_bounds data p NE Hp) as R.
  pose proof (floor_rank_bounds _ _ R) as FB.
  unfold CLIPerformanceTester._percentile.
  destruct data as [|x0 rest] eqn:D; [congruence|]. rewrite <- D in *.
  rewrite len_sorted. fold (rank data p).
  rewrite (int_floor _ (proj1 R)).
  destruct (is_integer (rank data p)) eqn:I.
  - apply is_integer_spec in I.
    rewrite getitem_at by (rewrite len_sorted; lia).
    eexists; split; [reflexivity|]. unfold interp.
    assert (Z0 : rank data p - inject_Z (Qfloor (rank data p)) == 0) by lra.
    rewrite Z0. ring.
  - assert (N : ~ rank data p == inject_Z (Qfloor (rank data p))).
    { intros C. apply is_integer_spec in C. congruence. }
    pose proof (floor_rank_strict _ _ R N) as S.
    rewrite !getitem_at by (rewrite len_sorted; lia). simpl.
    eexists; split; [reflexivity|]. unfold interp. reflexivity.
Qed.

Lemma Qfloor_unique (x : Q) (z : Z) :
  inject_Z z <= x -> x < inject_Z z + 1 -> Qfloor x = z.
Proof.
  intros H1 H2.
  pose proof (Qfloor_le x) as F1. pose proof (Qlt_floor x) as F2.
  rewrite inject_Z_plus in F2. change (inject_Z 1) with 1 in F2.
  assert (A : (z < Qfloor x + 1)%Z).
  { rewrite Zlt_Qlt, inject_Z_plus. change (inject_Z 1) with 1. lra. }
  assert (B : (Qfloor x < z + 1)%Z).
  { rewrite Zlt_Qlt, inject_Z_plus. change (inject_Z 1) with 1. lra. }
  lia.
Qed.

Section Interpolation.

Variable data : list Q.
Let s := sorted data.
Let n := len data.

Lemma frac_bounds (x : Q) : 0 <= x - inject_Z (Qfloor x) < 1.
Proof.
  pose proof (Qfloor_le x). pose proof (Qlt_floor x) as F.
  rewrite inject_Z_plus in F. change (inject_Z 1) with 1 in F. lra.
Qed.

(** Either the next element exists and is no smaller, or the rank is the
    last index and the fractional part vanishes. *)
Lemma step_nonneg (x : Q) :
  0 <= x <= inject_Z n - 1 ->
  0 <= (at_ s (Qfloor x + 1) - at_ s (Qfloor x)) * (x - inject_Z (Qfloor x)).
Proof.
  intros R. pose proof (floor_rank_bounds _ _ R) as FB.
  pose proof (frac_bounds x) as FR.
  destruct (Qeq_dec x (inject_Z (Qfloor x))) as [E|N].
  - assert (Z0 : x - inject_Z (Qfloor x) == 0) by lra.
    rewrite Z0. lra.
  - pose proof (floor_rank_strict _ _ R N) as S.
    apply Qmult_le_0_compat; [|lra].
    pose proof (sorted_at_mono data (Qfloor x) (Qfloor x + 1)
                  ltac:(lia) ltac:(fold n; lia)).
    fold s in H. lra.
Qed.

Lemma interp_lower (x : Q) :
  0 <= x <= inject_Z n - 1 -> at_ s (Qfloor x) <= interp s x.
Proof.
  intros R. pose proof (step_nonneg x R). unfold interp. lra.
Qed.

Lemma interp_upper (x : Q) :
  0 <= x <= inject_Z n - 1 ->
  interp s x <= at_ s (Z.min (Qfloor x + 1) (n - 1)).
Proof.
  intros R. pose proof (floor_rank_bounds _ _ R) as FB.
  pose proof (frac_bounds x) as FR. unfold interp.
  destruct (Qeq_dec x (inject_Z (Qfloor x))) as [E|N].
  - assert (Z0 : x - inject_Z (Qfloor x) == 0) by lra.
    rewrite Z0.
    pose proof (sorted_at_mono data (Qfloor x) (Z.min (Qfloor x + 1) (n - 1))
                  ltac:(lia) ltac:(fold n; lia)).
    fold s in H. lra.
  - pose proof (floor_rank_strict _ _ R N) as S.
    rewrite Z.min_l by lia.
    pose proof (sorted_at_mono data (Qfloor x) (Qfloor x + 1)
                  ltac:(lia) ltac:(fold n; lia)) as M.
    fold s in M.
    set (a := at_ s (Qfloor x)) in *. set (b := at_ s (Qfloor x + 1)) in *.
    set (f := x - inject_Z (Qfloor x)) in *.
    assert (P : 0 <= (b - a) * (1 - f)) by (apply Qmult_le_0_compat; lra).
    lra.
Qed.

Lemma interp_mono (x y : Q) :
  0 <= x -> x <= y -> y <= inject_Z n - 1 -> interp s x <= interp s y.
Proof.
  intros H0 Hxy H1.
  assert (Rx : 0 <= x <= inject_Z n - 1) by lra.
  assert (Ry : 0 <= y <= inject_Z n - 1) by lra.
  pose proof (floor_rank_bounds _ _ Rx) as FX.
  pose proof (floor_rank_bounds _ _ Ry) as FY.
  pose proof (Qfloor_resp_le _ _ Hxy) as FL.
  destruct (Z.eq_dec (Qfloor x) (Qfloor y)) as [E|NE].
  - unfold interp. rewrite <- E.
    destruct (Qeq_dec y (inject_Z (Qfloor y))) as [I|N].
    + assert (x == y).
      { pose proof (Qfloor_le x). rewrite E in H. lra. }
      assert (Z1 : x - inject_Z (Qfloor x) == 0) by (rewrite E; lra).
      assert (Z2 : y - inject_Z (Qfloor x) == 0) by (rewrite E; lra).
      rewrite Z1, Z2. lra.
    + pose proof (floor_rank_strict _ _ Ry N) as S.
      pose proof (sorted_at_mono data (Qfloor x) (Qfloor x + 1)
                    ltac:(lia) ltac:(fold n; lia)) as M.
      fold s in M.
      set (a := at_ s (Qfloor x)) in *. set (b := at_ s (Qfloor x + 1)) in *.
      assert (P : 0 <= (b - a) * (y - x)) by (apply Qmult_le_0_compat; lra).
      lra.
  - apply Qle_trans with (at_ s (Z.min (Qfloor x + 1) (n - 1)));
      [now apply interp_upper|].
    apply Qle_trans with (at_ s (Qfloor y)); [|now apply interp_lower].
    rewrite Z.min_l by lia.
    apply sorted_at_mono; fold n; lia.
Qed.

End Interpolation.

(** *** Minimum and maximum *)

Lemma min_le (l : list Q) : forall x,
  min_ x l <= x /\ Forall (fun y => min_ x l <= y) l.
Proof.
  unfold min_. induction l as [|y l IH]; intros x; simpl.
  - split; [lra|constructor].
  - destruct (Qlt_le_dec y x) as [L|L].
    + destruct (IH y) as [A B]. split; [lra|]. now constructor.
    + destruct (IH x) as [A B]. split; [lra|]. constructor; [lra|exact B].
Qed.

Lemma max_ge (l : list Q) : forall x,
  x <= max_ x l /\ Forall (fun y => y <= max_ x l) l.
Proof.
  unfold max_. induction l as [|y l IH]; intros x; simpl.
  - split; [lra|constructor].
  - destruct (Qlt_le_dec x y) as [L|L].
    + destruct (IH y) as [A B]. split; [lra|]. now constructor.
    + destruct (IH x) as [A B]. split; [lra|]. constructor; [lra|exact B].
Qed.

Lemma at_sorted_In (data : list Q) (i : Z) :
  (0 <= i < len data)%Z -> In (at_ (sorted data) i) data.
Proof.
  intros H. eapply Permutation_in; [apply sorted_perm|].
  unfold at_. apply nth_In. rewrite sorted_length. unfold len in H. lia.
Qed.

Lemma min_le_at (x : Q) (rest : list Q) (i : Z) :
  (0 <= i < len (x :: rest))%Z -> min_ x rest <= at_ (sorted (x :: rest)) i.
Proof.
  intros H. destruct (min_le rest x) as [A B].
  destruct (at_sorted_In _ _ H) as [E|I]; [rewrite <- E; exact A|].
  rewrite Forall_forall in B. now apply B.
Qed.

Lemma at_le_max (x : Q) (rest : list Q) (i : Z) :
  (0 <= i < len (x :: rest))%Z -> at_ (sorted (x :: rest)) i <= max_ x rest.
Proof.
  intros H. destruct (max_ge rest x) as [A B].
  destruct (at_sorted_In _ _ H) as [E|I]; [rewrite <- E; exact A|].
  rewrite Forall_forall in B. now apply B.
Qed.

(** *** The median is the interpolated 50th percentile *)

Lemma len_pos (data : list Q) : data <> [] -> (1 <= len data)%Z.
Proof. destruct data; [congruence|]. unfold len. simpl. lia. Qed.

Lemma median_interp (data : list Q) :
  data <> [] ->
  exists v, median data = Ok v /\ v == interp (sorted data) (rank data 50).
Proof.
  intros NE. pose proof (len_pos data NE) as L.
  unfold median. rewrite len_sorted.
  destruct (len data =? 0)%Z eqn:E0; [lia|].
  pose proof (Z.div_mod (len data) 2 ltac:(lia)) as DM.
  pose proof (Z.mod_pos_bound (len data) 2 ltac:(lia)) as MB.
  set (k := (len data / 2)%Z) in *.
  destruct (len data mod 2 =? 1)%Z eqn:E1.
  - apply Z.eqb_eq in E1.
    assert (N : inject_Z (len data) == 2 * inject_Z k + 1).
    { replace (len data) with (2 * k + 1)%Z at 1 by lia.
      rewrite inject_Z_plus, inject_Z_mult. reflexivity. }
    assert (R : rank data 50 == inject_Z k).
    { unfold rank. rewrite N. field. }
    assert (F : Qfloor (rank data 50) = k).
    { apply Qfloor_unique; lra. }
    rewrite getitem_at by (rewrite len_sorted; lia).
    eexists; split; [reflexivity|]. unfold interp. rewrite F.
    assert (Z0 : rank data 50 - inject_Z k == 0) by lra.
    rewrite Z0. ring.
  - apply Z.eqb_neq in E1.
    assert (N : inject_Z (len data) == 2 * inject_Z k).
    { replace (len data) with (2 * k)%Z at 1 by lia.
      rewrite inject_Z_mult. reflexivity. }
    assert (R : rank data 50 == inject_Z (k - 1) + (1 # 2)).
    { unfold rank. rewrite N, inject_Z_sub. change (inject_Z 1) with 1. field. }
    assert (F : Qfloor (rank data 50) = (k - 1)%Z).
    { apply Qfloor_unique; lra. }
    rewrite !getitem_at by (rewrite len_sorted; lia). simpl.
    eexists; split; [reflexivity|]. unfold interp. rewrite F.
    replace (k - 1 + 1)%Z with k by lia.
    assert (H : rank data 50 - inject_Z (k - 1) == 1 # 2) by lra.
    rewrite H. field.
Qed.

Lemma rank_mono (data : list Q) (p q : Q) :
  data <> [] -> p <= q -> rank data p <= rank data q.
Proof.
  intros NE H. pose proof (len_pos data NE) as L.
  assert (L' : 1 <= inject_Z (len data)).
  { change 1 with (inject_Z 1). now rewrite <- Zle_Qle. }
  unfold rank.
  assert (E : forall r, r / 100 == r * (1 # 100)) by (intros; field).
  rewrite !E. nra.
Qed.

(** *** Sorting a permutation *)

Lemma pointwise_eq_refl (l : list Q) : pointwise_eq l l.
Proof. induction l; constructor; [reflexivity|assumption]. Qed.

Lemma pointwise_eq_trans (a b c : list Q) :
  pointwise_eq a b -> pointwise_eq b c -> pointwise_eq a c.
Proof.
  intros H. revert c. induction H as [|x y a b E H IH]; intros c K.
  - exact K.
  - inversion K as [|y' z b' c' E' K']; subst.
    constructor; [now rewrite E|now apply IH].
Qed.

Lemma Qle_bool_false (x y : Q) : Qle_bool x y = false -> y < x.
Proof.
  intros H. destruct (Qlt_le_dec y x) as [L|L]; [exact L|].
  apply Qle_bool_iff in L. congruence.
Qed.

Ltac order_cases :=
  repeat match goal with
         | |- context [Qle_bool ?a ?b] =>
             let E := fresh "E" in
             destruct (Qle_bool a b) eqn:E;
             [apply Qle_bool_iff in E|apply Qle_bool_false in E]
         end.

Lemma insert_pointwise (x : Q) (a b : list Q) :
  pointwise_eq a b -> pointwise_eq (insert x a) (insert x b).
Proof.
  induction 1 as [|y z a b E H IH]; simpl.
  - apply pointwise_eq_refl.
  - order_cases; try lra.
    + constructor; [reflexivity|]. now constructor.
    + now constructor.
Qed.

Lemma insert_insert (x y : Q) (s : list Q) :
  pointwise_eq (insert x (insert y s)) (insert y (insert x s)).
Proof.
  induction s as [|z s IH]; simpl.
  - order_cases; try lra; repeat constructor; try reflexivity; lra.
  - order_cases; simpl; order_cases; try lra;
      repeat (constructor; try reflexivity; try lra);
      try apply pointwise_eq_refl; try exact IH.
Qed.

Lemma sorted_permutation (l1 l2 : list Q) :
  Permutation l1 l2 -> pointwise_eq (sorted l1) (sorted l2).
Proof.
  induction 1 as [|x a b P IH|x y a|a b c P1 IH1 P2 IH2]; simpl.
  - constructor.
  - now apply insert_pointwise.
  - apply insert_insert.
  - eapply pointwise_eq_trans; eassumption.
Qed.

Lemma pointwise_at (a b : list Q) (i : Z) :
  pointwise_eq a b -> at_ a i == at_ b i.
Proof.
  unfold at_. intros H. generalize (Z.to_nat i) as k.
  induction H as [|x y a b E H IH]; intros [|k]; simpl;
    try reflexivity; auto.
Qed.

Lemma interp_pointwise (a b : list Q) (x : Q) :
  pointwise_eq a b -> interp a x == interp b x.
Proof.
  intros H. unfold interp.
  now rewrite (pointwise_at a b (Qfloor x) H),
    (pointwise_at a b (Qfloor x + 1) H).
Qed.

(** The percentiles of the pooled durations do not depend on the order in
    which the threads finished. *)
Lemma percentile_permutation (l1 l2 : list Q) (p : Q) :
  Permutation l1 l2 -> l1 <> [] -> 0 <= p <= 100 ->
  exists v1 v2,
    DaemonPerformanceTester._percentile l1 p = Ok v1
    /\ DaemonPerformanceTester._percentile l2 p = Ok v2
    /\ v1 == v2.
Proof.
  intros P NE Hp.
  assert (NE2 : l2 <> []).
  { intros ->. apply Permutation_sym, Permutation_nil in P. contradiction. }
  change DaemonPerformanceTester._percentile
    with CLIPerformanceTester._percentile.
  destruct (percentile_interp l1 p NE Hp) as [v1 [E1 V1]].
  destruct (percentile_interp l2 p NE2 Hp) as [v2 [E2 V2]].
  exists v1, v2. repeat split; try assumption.
  rewrite V1, V2. unfold rank, len.
  rewrite (Permutation_length P).
  apply interp_pointwise, sorted_permutation, P.
Qed.

Lemma median_permutation (l1 l2 : list Q) :
  Permutation l1 l2 -> l1 <> [] ->
  exists v1 v2, median l1 = Ok v1 /\ median l2 = Ok v2 /\ v1 == v2.
Proof.
  intros P NE.
  assert (NE2 : l2 <> []).
  { intros ->. apply Permutation_sym, Permutation_nil in P. contradiction. }
  destruct (median_interp l1 NE) as [v1 [E1 V1]].
  destruct (median_interp l2 NE2) as [v2 [E2 V2]].
  exists v1, v2. repeat split; try assumption.
  rewrite V1, V2. unfold rank, len.
  rewrite (Permutation_length P).
  apply interp_pointwise, sorted_permutation, P.
Qed.

Lemma daemon_percentile_eq (data : list Q) (p : Q) :
  DaemonPerformanceTester._percentile data p
  = CLIPerformanceTester._percentile data p.
Proof. reflexivity. Qed.

Lemma spec_percentile_interp (data : list Q) (p : Q) :
  data <> [] -> 0 <= p <= 100 ->
  spec_percentile data p == interp (sorted data) (rank data p).
Proof.
  intros NE Hp. pose proof (rank_bounds data p NE Hp) as R.
  unfold spec_percentile. rewrite len_sorted. fold (rank data p).
  fold (at_ (sorted data) (Qfloor (rank data p))).
  fold (at_ (sorted data) (Qceiling (rank data p))).
  unfold interp.
  destruct (Qeq_bool (rank data p) (inject_Z (Qfloor (rank data p)))) eqn:E.
  - apply Qeq_bool_iff in E.
    assert (Z0 : rank data p - inject_Z (Qfloor (rank data p)) == 0) by lra.
    rewrite Z0. ring.
  - apply Qeq_bool_neq in E. rewrite (ceiling_floor _ E). reflexivity.
Qed.

Lemma percentile_singleton (x p : Q) :
  CLIPerformanceTester._percentile [x] p = Ok x.
Proof.
  unfold CLIPerformanceTester._percentile. simpl sorted.
  set (index := p / 100 * (inject_Z (len [x]) - 1)).
  assert (N : Qnum index = 0%Z).
  { unfold index. destruct p as [a b]. simpl. lia. }
  unfold is_integer, int. rewrite N. simpl. reflexivity.
Qed.

(** *** Claims on the percentile *)

(** C1.  On a non-empty list of samples and a percentile [p] in [0,100],
    [_percentile] returns (it does not raise) the value that linear
    interpolation between the two nearest ranks of the sorted list gives:
    the element at rank [p/100 * (n-1)] when that rank is an integer, and
    otherwise the element at the floor of the rank plus the fractional part
    of the rank times the step to the element at its ceiling.  On
    [10,20,30,40] it returns 25 at p=50, 10 at p=0 and 40 at p=100; on [42]
    it returns 42 for every p in [0,100]. *)
Theorem percentile_interpolates :
  (forall (data : list Q) (p : Q),
      data <> [] -> 0 <= p <= 100 ->
      exists v, CLIPerformanceTester._percentile data p = Ok v
                /\ v == spec_percentile data p)
  /\ (exists v, CLIPerformanceTester._percentile [10; 20; 30; 40] 50 = Ok v
                /\ v == 25)
  /\ CLIPerformanceTester._percentile [10; 20; 30; 40] 0 = Ok 10
  /\ CLIPerformanceTester._percentile [10; 20; 30; 40] 100 = Ok 40
  /\ (forall p : Q, 0 <= p <= 100 ->
        CLIPerformanceTester._percentile [42] p = Ok 42).
Proof.
  split; [|split; [|split; [|split]]].
  - intros data p NE Hp.
    destruct (percentile_interp data p NE Hp) as [v [E V]].
    exists v. split; [exact E|].
    rewrite V. symmetry. now apply spec_percentile_interp.
  - eexists. split; [reflexivity|]. reflexivity.
  - reflexivity.
  - reflexivity.
  - intros p _. apply percentile_singleton.
Qed.

Lemma percentile_interpolates_witness :
  exists v, CLIPerformanceTester._percentile [30; 10; 40; 20] 95 = Ok v
            /\ v == spec_percentile [30; 10; 40; 20] 95.
Proof.
  apply (proj1 percentile_interpolates).
  - discriminate.
  - split; unfold Qle; simpl; lia.
Defined.

(** C6, as stated, fails: on the empty list [_percentile] raises nothing
    and returns 0. *)
Lemma percentile_empty_counterexample :
  CLIPerformanceTester._percentile [] 50 = Ok 0
  /\ DaemonPerformanceTester._percentile [] 50 = Ok 0.
Proof. split; reflexivity. Qed.

(** C6, amended.  On an empty collection both [_percentile] methods return
    0 for every percentile (the guard of their first line; no exception is
    raised), and on a single-sample collection they return that sample for
    every percentile. *)
Theorem percentile_degenerate (p : Q) :
  CLIPerformanceTester._percentile [] p = Ok 0
  /\ DaemonPerformanceTester._percentile [] p = Ok 0
  /\ (forall x : Q,
        CLIPerformanceTester._percentile [x] p = Ok x
        /\ DaemonPerformanceTester._percentile [x] p = Ok x).
Proof.
  repeat split; try reflexivity; apply percentile_singleton.
Qed.

Lemma truediv_ok (a b : Q) : ~ b == 0 -> truediv a b = Ok (a / b).
Proof.
  intros N. unfold truediv. destruct (Qeq_bool b 0) eqn:E; [|reflexivity].
  apply Qeq_bool_iff in E. contradiction.
Qed.

Lemma truediv_zero (a b : Q) : b == 0 -> truediv a b = Raise ZeroDivisionError.
Proof.
  intros Z0. unfold truediv. now rewrite (proj2 (Qeq_bool_iff b 0) Z0).
Qed.

Lemma div1000_nonzero (a : Q) : ~ a == 0 -> ~ a / 1000 == 0.
Proof.
  intros N C. apply N.
  assert (E : a == a / 1000 * 1000) by field.
  rewrite E, C. ring.
Qed.

Lemma inject_Z_nonzero (z : Z) : z <> 0%Z -> ~ inject_Z z == 0.
Proof. unfold Qeq. simpl. lia. Qed.

(** The order of the statistics of a non-empty sample. *)
Lemma statistics_ordered (x : Q) (rest : list Q) :
  exists p50 p95 p99,
    median (x :: rest) = Ok p50
    /\ CLIPerformanceTester._percentile (x :: rest) 95 = Ok p95
    /\ CLIPerformanceTester._percentile (x :: rest) 99 = Ok p99
    /\ min_ x rest <= p50 /\ p50 <= p95 /\ p95 <= p99 /\ p99 <= max_ x rest.
Proof.
  set (data := x :: rest).
  assert (NE : data <> []) by discriminate.
  destruct (median_interp data NE) as [p50 [E50 V50]].
  destruct (percentile_interp data 95 NE ltac:(lra)) as [p95 [E95 V95]].
  destruct (percentile_interp data 99 NE ltac:(lra)) as [p99 [E99 V99]].
  exists p50, p95, p99. repeat (split; [assumption|]).
  pose proof (rank_bounds data 50 NE ltac:(lra)) as R50.
  pose proof (rank_bounds data 95 NE ltac:(lra)) as R95.
  pose proof (rank_bounds data 99 NE ltac:(lra)) as R99.
  pose proof (rank_mono data 50 95 NE ltac:(lra)) as M1.
  pose proof (rank_mono data 95 99 NE ltac:(lra)) as M2.
  rewrite V50, V95, V99.
  pose proof (floor_rank_bounds _ _ R50) as F50.
  pose proof (floor_rank_bounds _ _ R99) as F99.
  pose proof (len_pos data NE) as L.
  repeat split.
  - eapply Qle_trans; [|apply interp_lower; exact R50].
    apply min_le_at. fold data. lia.
  - apply interp_mono; lra.
  - apply interp_mono; lra.
  - eapply Qle_trans; [apply interp_upper; exact R99|].
    apply at_le_max. fold data. lia.
Qed.

(** *** Claims on the summary *)

(** C7.  Every summary that [benchmark_basic_operations] builds from a
    non-empty list of successful durations has
    min <= p50 (median) <= p95 <= p99 <= max, and such a summary is built
    whenever the durations do not sum to zero and [num_samples] is not zero;
    with no successful duration the summary is built and min, p50, p95, p99
    and max are all 0. *)
Theorem summary_statistics_ordered :
  (forall (num_samples : Z) (latencies : list Q) (errors : list error_entry)
          (memory_usage : Q) (m : PerformanceMetrics),
      latencies <> [] ->
      CLIPerformanceTester.benchmark_basic_operations
        num_samples latencies errors memory_usage = Ok m ->
      min_latency_ms m <= p50_latency_ms m
      /\ p50_latency_ms m <= p95_latency_ms m
      /\ p95_latency_ms m <= p99_latency_ms m
      /\ p99_latency_ms m <= max_latency_ms m)
  /\ (forall (num_samples : Z) (latencies : list Q)
             (errors : list error_entry) (memory_usage : Q),
         latencies <> [] -> ~ sum latencies == 0 -> num_samples <> 0%Z ->
         exists m,
           CLIPerformanceTester.benchmark_basic_operations
             num_samples latencies errors memory_usage = Ok m)
  /\ (forall (num_samples : Z) (errors : list error_entry) (memory_usage : Q),
        exists m,
          CLIPerformanceTester.benchmark_basic_operations
            num_samples [] errors memory_usage = Ok m
          /\ min_latency_ms m = 0 /\ p50_latency_ms m = 0
          /\ p95_latency_ms m = 0 /\ p99_latency_ms m = 0
          /\ max_latency_ms m = 0).
Proof.
  split; [|split].
  - intros num_samples latencies errors memory_usage m NE H.
    destruct latencies as [|x rest]; [congruence|].
    destruct (statistics_ordered x rest)
      as (p50 & p95 & p99 & E50 & E95 & E99 & O).
    unfold CLIPerformanceTester.benchmark_basic_operations in H.
    rewrite E50, E95, E99 in H. cbn [mean bind] in H.
    destruct (truediv _ (sum (x :: rest) / 1000)); [|discriminate].
    cbn [bind] in H.
    destruct (truediv _ (inject_Z num_samples)); [|discriminate].
    cbn [bind] in H. injection H as <-. exact O.
  - intros num_samples latencies errors memory_usage NE S N.
    destruct latencies as [|x rest]; [congruence|].
    destruct (statistics_ordered x rest)
      as (p50 & p95 & p99 & E50 & E95 & E99 & O).
    unfold CLIPerformanceTester.benchmark_basic_operations.
    rewrite E50, E95, E99. cbn [mean bind].
    rewrite truediv_ok by (now apply div1000_nonzero).
    rewrite truediv_ok by (now apply inject_Z_nonzero).
    cbn [bind]. eexists. reflexivity.
  - intros. eexists. split; [reflexivity|]. cbn. auto.
Qed.

Lemma summary_statistics_ordered_witness :
  exists m,
    CLIPerformanceTester.benchmark_basic_operations
      4 [30; 10; 40; 20] [] 12 = Ok m
    /\ min_latency_ms m <= p50_latency_ms m
    /\ p50_latency_ms m <= p95_latency_ms m
    /\ p95_latency_ms m <= p99_latency_ms m
    /\ p99_latency_ms m <= max_latency_ms m.
Proof.
  destruct (proj1 (proj2 summary_statistics_ordered) 4%Z [30; 10; 40; 20] [] 12
              ltac:(discriminate) ltac:(vm_compute; discriminate) ltac:(lia))
    as [m E].
  exists m. split; [exact E|].
  apply (proj1 summary_statistics_ordered 4%Z [30; 10; 40; 20] [] 12 m
           ltac:(discriminate) E).
Defined.

(** C8.  A summary built from zero successful samples is returned without
    any exception (so without a division by zero) and reports a throughput
    of 0, for the one-shot tester and for the daemon tester; with successful
    samples whose durations do not sum to zero, the throughput is the count
    of successful operations divided by the sum of the successful durations
    in seconds. *)
Theorem throughput_zero_guard :
  (forall (num_samples : Z) (errors : list error_entry) (memory : Q),
      (exists m,
          CLIPerformanceTester.benchmark_basic_operations
            num_samples [] errors memory = Ok m
          /\ throughput_ops_sec m = 0)
      /\ (forall started : bool,
            exists m,
              DaemonPerformanceTester.benchmark_basic_operations
                started num_samples [] errors memory = Ok m
              /\ throughput_ops_sec m = 0))
  /\ (forall (num_samples : Z) (latencies : list Q)
             (errors : list error_entry) (memory : Q),
        latencies <> [] -> ~ sum latencies == 0 -> num_samples <> 0%Z ->
        (exists m,
            CLIPerformanceTester.benchmark_basic_operations
              num_samples latencies errors memory = Ok m
            /\ operation_count m = (len latencies * 3)%Z
            /\ throughput_ops_sec m
               == inject_Z (operation_count m) / (sum latencies / 1000))
        /\ (exists m,
               DaemonPerformanceTester.benchmark_basic_operations
                 true num_samples latencies errors memory = Ok m
               /\ operation_count m = len latencies
               /\ throughput_ops_sec m
                  == inject_Z (operation_count m) / (sum latencies / 1000))).
Proof.
  split.
  - intros. split.
    + eexists. split; reflexivity.
    + intros [|]; eexists; split; reflexivity.
  - intros num_samples latencies errors memory NE S N.
    destruct latencies as [|x rest]; [congruence|].
    destruct (statistics_ordered x rest)
      as (p50 & p95 & p99 & E50 & E95 & E99 & O).
    split.
    + unfold CLIPerformanceTester.benchmark_basic_operations.
      rewrite E50, E95, E99. cbn [mean bind].
      rewrite truediv_ok by (now apply div1000_nonzero).
      rewrite truediv_ok by (now apply inject_Z_nonzero).
      cbn [bind]. eexists. split; [reflexivity|]. split; reflexivity.
    + unfold DaemonPerformanceTester.benchmark_basic_operations.
      change DaemonPerformanceTester._percentile
        with CLIPerformanceTester._percentile.
      rewrite E50, E95, E99. cbn [mean bind negb].
      rewrite truediv_ok by (now apply div1000_nonzero).
      rewrite truediv_ok
        by (apply inject_Z_nonzero;
            unfold DaemonPerformanceTester.len_operations; lia).
      cbn [bind]. eexists. split; [reflexivity|]. split; reflexivity.
Qed.

Lemma throughput_zero_guard_witness :
  exists m,
    DaemonPerformanceTester.benchmark_basic_operations
      true 1 [2; 3; 1; 2] [] 20 = Ok m
    /\ operation_count m = 4%Z
    /\ throughput_ops_sec m
       == inject_Z (operation_count m) / (sum [2; 3; 1; 2] / 1000).
Proof.
  apply (proj2 (proj2 throughput_zero_guard 1%Z [2; 3; 1; 2] [] 20
                  ltac:(discriminate) ltac:(vm_compute; discriminate)
                  ltac:(lia))).
Defined.

(** *** send_json_rpc *)

(** C5, as stated, fails: a reply that carries the JSON-RPC error object
    "method not found" is recorded as a success. *)
Lemma rpc_error_counterexample :
  fst (DaemonPerformanceTester.send_json_rpc daemon0
         (DaemonPerformanceTester.Received 5
            (DaemonPerformanceTester.Document reply_method_not_found)))
  = (5, true, reply_method_not_found).
Proof. reflexivity. Qed.

(** C5, amended.  A socket-mode sample is recorded as failed when the
    exchange raises and when the reply is not valid JSON; a reply that
    carries a JSON-RPC error object and no result is recorded as failed
    exactly when the error code is the number -32700 (parse error), and as
    a success for every other code. *)
Theorem rpc_failure_classification
    (self : DaemonPerformanceTester.t) (duration_ms : Q) :
  (forall e : exn,
      succeeded (DaemonPerformanceTester.send_json_rpc self
                   (DaemonPerformanceTester.SocketRaised e)) = false)
  /\ succeeded (DaemonPerformanceTester.send_json_rpc self
                  (DaemonPerformanceTester.Received duration_ms
                     DaemonPerformanceTester.InvalidJSON)) = false
  /\ (forall (members error : list (string * json)) (code : json),
         lookup "result" members = None ->
         lookup "error" members = Some (JObj error) ->
         lookup "code" error = Some code ->
         succeeded (DaemonPerformanceTester.send_json_rpc self
                      (DaemonPerformanceTester.Received duration_ms
                         (DaemonPerformanceTester.Document (JObj members))))
         = ne_number code (-32700))
  /\ (forall x : Q, ne_number (JNum x) (-32700) = false <-> x == -32700).
Proof.
  split; [reflexivity|]. split; [reflexivity|]. split.
  - intros members error code R E C.
    unfold succeeded, DaemonPerformanceTester.send_json_rpc,
      DaemonPerformanceTester.success_of.
    cbn [bind contains subscript fst snd]. rewrite R. cbn [bind].
    rewrite E. cbn [bind subscript]. rewrite C. reflexivity.
  - intros x. cbn [ne_number]. rewrite negb_false_iff. apply Qeq_bool_iff.
Qed.

Lemma rpc_failure_classification_witness :
  succeeded (DaemonPerformanceTester.send_json_rpc daemon0
               (DaemonPerformanceTester.Received 5
                  (DaemonPerformanceTester.Document reply_parse_error)))
  = false.
Proof.
  refine (proj1 (proj2 (proj2 (rpc_failure_classification daemon0 5)))
            _ _ (JNum (-32700)) _ _ _); reflexivity.
Defined.

(** *** _calculate_comparison *)

Lemma gt_true (a b : Q) : gt a b = true <-> b < a.
Proof.
  unfold gt, lt. destruct (Qlt_le_dec b a); split; intros;
    try lra; try discriminate; auto.
Qed.

Lemma gt_false (a b : Q) : gt a b = false <-> a <= b.
Proof.
  unfold gt, lt. destruct (Qlt_le_dec b a); split; intros;
    try lra; try discriminate; auto.
Qed.

(** The three guarded percentages never raise. *)
Lemma lt_true (a b : Q) : lt a b = true <-> a < b.
Proof. apply (gt_true b a). Qed.

Lemma ge_true (a b : Q) : ge a b = true <-> b <= a.
Proof.
  unfold ge. rewrite negb_true_iff. apply (gt_false b a).
Qed.

Lemma guarded_ratio_ok (a b : Q) :
  exists v,
    (if gt b 0 then ratio <- truediv a b ;; Ok (ratio * 100) else Ok 0) = Ok v.
Proof.
  destruct (gt b 0) eqn:G; [|now eexists].
  apply gt_true in G. rewrite truediv_ok by lra. now eexists.
Qed.

Lemma comparison_latency (self : PerformanceComparison.t)
    (cli daemon : PerformanceMetrics) :
  0 < avg_latency_ms cli -> ~ avg_latency_ms daemon == 0 ->
  exists r,
    PerformanceComparison._calculate_comparison self cli daemon = (Ok r, self)
    /\ improvement_factor r = avg_latency_ms cli / avg_latency_ms daemon
    /\ latency_improvement_percent r
       = (avg_latency_ms cli - avg_latency_ms daemon) / avg_latency_ms cli
         * 100.
Proof.
  intros P N. unfold PerformanceComparison._calculate_comparison.
  rewrite (proj2 (gt_true _ _) P).
  rewrite (truediv_ok _ _ N), truediv_ok by lra. cbn [bind].
  destruct (guarded_ratio_ok
              (throughput_ops_sec daemon - throughput_ops_sec cli)
              (throughput_ops_sec cli)) as [t ->].
  destruct (guarded_ratio_ok
              (memory_usage_mb cli - memory_usage_mb daemon)
              (memory_usage_mb cli)) as [u ->].
  cbn [bind]. eexists. split; [reflexivity|]. split; reflexivity.
Qed.

(** C3, as stated, fails: the result of the comparison has no regression
    flag, and no field that it computes stands for one.  With a baseline
    latency of 0, a candidate of 1 ms (a regression in the specification's
    terms) and a candidate of 0 ms (none) give the same improvement factor,
    the same three percentages and the same targets. *)
Lemma comparison_flag_counterexample :
  spec_isRegression 0 1 = true
  /\ spec_isRegression 0 0 = false
  /\ exists r1 r0,
       fst (PerformanceComparison._calculate_comparison comparison0
              (with_latency "CLI_Basic_Operations" 0)
              (with_latency "Daemon_Basic_Operations" 1)) = Ok r1
       /\ fst (PerformanceComparison._calculate_comparison comparison0
                 (with_latency "CLI_Basic_Operations" 0)
                 (with_latency "Daemon_Basic_Operations" 0)) = Ok r0
       /\ improvement_factor r1 = improvement_factor r0
       /\ latency_improvement_percent r1 = latency_improvement_percent r0
       /\ throughput_improvement_percent r1
          = throughput_improvement_percent r0
       /\ memory_improvement_percent r1 = memory_improvement_percent r0
       /\ targets_met r1 = targets_met r0.
Proof.
  split; [reflexivity|]. split; [reflexivity|].
  eexists. eexists. split; [reflexivity|]. split; [reflexivity|].
  repeat split.
Qed.

(** C3, amended.  The comparison treats latency as lower-is-better.  With
    positive average latencies it returns a result whose
    [improvement_factor] is the specification's improvement ratio
    baseline / candidate; it computes no regression flag, but a candidate
    latency above the baseline shows exactly as a negative
    [latency_improvement_percent], and exactly as an improvement factor
    below 1.  With a baseline latency that is not positive both figures are
    reported as 0, whatever the candidate.  The instance below evaluates
    10 ms against 2 ms (ratio 5, improvement of 80 percent) and 2 ms
    against 10 ms (ratio 0.2, improvement of -400 percent). *)
Theorem comparison_latency_polarity
    (self : PerformanceComparison.t) (cli daemon : PerformanceMetrics) :
  (0 < avg_latency_ms cli -> 0 < avg_latency_ms daemon ->
   exists r,
     fst (PerformanceComparison._calculate_comparison self cli daemon) = Ok r
     /\ improvement_factor r
        == spec_improvementRatio (avg_latency_ms cli) (avg_latency_ms daemon)
     /\ (avg_latency_ms cli < avg_latency_ms daemon
         <-> latency_improvement_percent r < 0)
     /\ (avg_latency_ms cli < avg_latency_ms daemon
         <-> improvement_factor r < 1))
  /\ (avg_latency_ms cli <= 0 ->
      exists r,
        fst (PerformanceComparison._calculate_comparison self cli daemon)
        = Ok r
        /\ improvement_factor r = 0
        /\ latency_improvement_percent r = 0).
Proof.
  split.
  - intros Pc Pd.
    destruct (comparison_latency self cli daemon Pc ltac:(lra))
      as (r & E & F & L).
    exists r. rewrite E. split; [reflexivity|]. rewrite F, L.
    unfold spec_improvementRatio.
    set (c := avg_latency_ms cli) in *. set (d := avg_latency_ms daemon) in *.
    split; [reflexivity|]. split.
    + assert (E1 : (c - d) / c * 100 == (c - d) * (100 / c)) by (field; lra).
      rewrite E1.
      assert (P : 0 < 100 / c) by (apply Qlt_shift_div_l; lra).
      split; intros H; nra.
    + split; intros H.
      * apply Qlt_shift_div_r; lra.
      * assert (E1 : c == c / d * d) by (field; lra).
        assert (c / d * d < 1 * d) by (apply Qmult_lt_compat_r; lra).
        lra.
  - intros Z0. unfold PerformanceComparison._calculate_comparison.
    rewrite (proj2 (gt_false _ _) Z0). cbn [bind].
    destruct (guarded_ratio_ok
                (throughput_ops_sec daemon - throughput_ops_sec cli)
                (throughput_ops_sec cli)) as [t ->].
    destruct (guarded_ratio_ok
                (memory_usage_mb cli - memory_usage_mb daemon)
                (memory_usage_mb cli)) as [u ->].
    cbn [bind fst]. eexists. split; [reflexivity|]. split; reflexivity.
Qed.

Lemma comparison_latency_polarity_witness :
  (exists r,
      fst (PerformanceComparison._calculate_comparison comparison0
             (with_latency "CLI_Basic_Operations" 10)
             (with_latency "Daemon_Basic_Operations" 2)) = Ok r
      /\ improvement_factor r == 5
      /\ latency_improvement_percent r == 80)
  /\ (exists r,
         fst (PerformanceComparison._calculate_comparison comparison0
                (with_latency "CLI_Basic_Operations" 2)
                (with_latency "Daemon_Basic_Operations" 10)) = Ok r
         /\ improvement_factor r == 2 # 10
         /\ latency_improvement_percent r == - (400)
         /\ latency_improvement_percent r < 0).
Proof.
  split.
  - destruct (proj1 (comparison_latency_polarity comparison0
                       (with_latency "CLI_Basic_Operations" 10)
                       (with_latency "Daemon_Basic_Operations" 2))
                ltac:(reflexivity) ltac:(reflexivity)) as (r & E & F & _).
    exists r. split; [exact E|]. split; [rewrite F; reflexivity|].
    injection E as <-. reflexivity.
  - destruct (proj1 (comparison_latency_polarity comparison0
                       (with_latency "CLI_Basic_Operations" 2)
                       (with_latency "Daemon_Basic_Operations" 10))
                ltac:(reflexivity) ltac:(reflexivity)) as (r & E & F & R & _).
    exists r. split; [exact E|]. split; [rewrite F; reflexivity|].
    split; [injection E as <-; reflexivity|]. apply R. reflexivity.
Defined.

(** [send_json_rpc] advances the request counter of the object it is
    called on. *)
Lemma send_json_rpc_counts (self : DaemonPerformanceTester.t)
    (x : DaemonPerformanceTester.exchange) :
  DaemonPerformanceTester.request_id
    (snd (DaemonPerformanceTester.send_json_rpc self x))
  = (DaemonPerformanceTester.request_id self + 1)%Z.
Proof. reflexivity. Qed.

Lemma comparison_baseline_zero (self : PerformanceComparison.t)
    (cli daemon : PerformanceMetrics) :
  avg_latency_ms cli <= 0 ->
  exists r,
    PerformanceComparison._calculate_comparison self cli daemon = (Ok r, self)
    /\ improvement_factor r = 0.
Proof.
  intros Z0. unfold PerformanceComparison._calculate_comparison.
  rewrite (proj2 (gt_false _ _) Z0). cbn [bind].
  destruct (guarded_ratio_ok
              (throughput_ops_sec daemon - throughput_ops_sec cli)
              (throughput_ops_sec cli)) as [t ->].
  destruct (guarded_ratio_ok
              (memory_usage_mb cli - memory_usage_mb daemon)
              (memory_usage_mb cli)) as [u ->].
  cbn [bind]. eexists. split; reflexivity.
Qed.

Lemma comparison_candidate_zero (self : PerformanceComparison.t)
    (cli daemon : PerformanceMetrics) :
  0 < avg_latency_ms cli -> avg_latency_ms daemon == 0 ->
  PerformanceComparison._calculate_comparison self cli daemon
  = (Raise ZeroDivisionError, self).
Proof.
  intros P Z0. unfold PerformanceComparison._calculate_comparison.
  rewrite (proj2 (gt_true _ _) P), (truediv_zero _ _ Z0). reflexivity.
Qed.

(** C10.  With a non-negative baseline average latency, the comparison
    returns a result exactly when the candidate average latency is nonzero
    or the baseline average latency is zero; with a positive baseline and a
    zero candidate average latency the division of line 619 is reached and
    raises ZeroDivisionError. *)
Theorem improvement_factor_guard
    (self : PerformanceComparison.t) (cli daemon : PerformanceMetrics) :
  0 <= avg_latency_ms cli ->
  ((exists r,
       fst (PerformanceComparison._calculate_comparison self cli daemon) = Ok r)
   <-> (~ avg_latency_ms daemon == 0 \/ avg_latency_ms cli == 0))
  /\ (0 < avg_latency_ms cli -> avg_latency_ms daemon == 0 ->
      fst (PerformanceComparison._calculate_comparison self cli daemon)
      = Raise ZeroDivisionError).
Proof.
  intros NN. split; [split|].
  - intros [r E].
    destruct (Qeq_dec (avg_latency_ms daemon) 0) as [D|D]; [|now left].
    right. destruct (Qlt_le_dec 0 (avg_latency_ms cli)) as [P|P]; [|lra].
    rewrite (comparison_candidate_zero self cli daemon P D) in E.
    discriminate.
  - intros [D|C].
    + destruct (Qlt_le_dec 0 (avg_latency_ms cli)) as [P|P].
      * destruct (comparison_latency self cli daemon P D) as (r & E & _).
        exists r. now rewrite E.
      * destruct (comparison_baseline_zero self cli daemon P) as (r & E & _).
        exists r. now rewrite E.
    + destruct (comparison_baseline_zero self cli daemon ltac:(lra))
        as (r & E & _).
      exists r. now rewrite E.
  - intros P D. now rewrite (comparison_candidate_zero self cli daemon P D).
Qed.

Lemma improvement_factor_guard_witness :
  fst (PerformanceComparison._calculate_comparison comparison0
         (with_latency "CLI_Basic_Operations" 10)
         (DaemonPerformanceTester.not_started "Daemon_Basic_Operations" 1))
  = Raise ZeroDivisionError.
Proof.
  apply (proj2 (improvement_factor_guard comparison0
                  (with_latency "CLI_Basic_Operations" 10)
                  (DaemonPerformanceTester.not_started
                     "Daemon_Basic_Operations" 1)
                  ltac:(discriminate))); reflexivity.
Defined.

(** *** benchmark_concurrent_clients *)

Lemma len_app {A : Type} (l1 l2 : list A) :
  len (l1 ++ l2) = (len l1 + len l2)%Z.
Proof. unfold len. rewrite length_app. lia. Qed.

Lemma len_nil {A : Type} : len (@nil A) = 0%Z.
Proof. reflexivity. Qed.

Lemma len_cons {A : Type} (x : A) (l : list A) : len (x :: l) = (1 + len l)%Z.
Proof. unfold len. simpl length. lia. Qed.

Lemma len_concat {A B : Type} (f : A -> list B) (l : list A) :
  len (concat (map f l)) = total (fun r => len (f r)) l.
Proof.
  induction l as [|a l IH]; [reflexivity|].
  cbn [map concat]. rewrite len_app, IH. reflexivity.
Qed.

(** A worker that runs to its end has classified every one of its calls. *)
Lemma client_worker_loop_counts (client_id : Z)
    (xs : list DaemonPerformanceTester.exchange) :
  forall self latencies errors latencies' errors' self',
    DaemonPerformanceTester.client_worker_loop
      self client_id xs latencies errors
    = (Ok (latencies', errors'), self') ->
    (len latencies' + len errors' = len latencies + len errors + len xs)%Z.
Proof.
  induction xs as [|x xs IH]; intros self lat errs lat' errs' self' H.
  - cbn in H. injection H as <- <- _. rewrite len_nil. lia.
  - cbn [DaemonPerformanceTester.client_worker_loop] in H.
    destruct (DaemonPerformanceTester.send_json_rpc self x)
      as [[[d success] response] s1].
    rewrite len_cons.
    destruct success.
    + apply IH in H. rewrite len_app, len_cons, len_nil in H. lia.
    + destruct (bind (get response "error" (JObj [])) _) as [msg|e];
        [|discriminate].
      apply IH in H. rewrite len_app, len_cons, len_nil in H. lia.
Qed.

(** The flag and the duration of a call do not depend on the object. *)
Lemma send_json_rpc_measured (self : DaemonPerformanceTester.t)
    (x : DaemonPerformanceTester.exchange) :
  fst (fst (DaemonPerformanceTester.send_json_rpc self x)) = measured x.
Proof. reflexivity. Qed.

Lemma answered_call (self : DaemonPerformanceTester.t)
    (x : DaemonPerformanceTester.exchange) :
  answered x ->
  exists d success response,
    fst (DaemonPerformanceTester.send_json_rpc self x) = (d, success, response)
    /\ (success = false ->
        exists msg,
          (error <- get response "error" (JObj []) ;;
           get error "message" (JStr "Unknown error")) = Ok msg).
Proof.
  destruct x as [e|d [| |r]]; cbn [answered]; try contradiction.
  - intros _. exists d, false, (JObj []). split; [reflexivity|].
    intros _. now eexists.
  - destruct r as [| | | | |members]; try contradiction.
    intros W.
    unfold DaemonPerformanceTester.send_json_rpc,
      DaemonPerformanceTester.success_of.
    cbn [fst bind contains subscript].
    destruct (lookup "result" members) as [v|] eqn:R.
    + cbn [bind]. exists d, true, (JObj members). split; [reflexivity|].
      discriminate.
    + cbn [bind].
      destruct W as [W|[W|(e & code & W1 & W2)]]; [congruence| |].
      * rewrite W. cbn [bind]. exists d, false, (JObj members).
        split; [reflexivity|]. intros _. cbn [get]. rewrite W. now eexists.
      * rewrite W1. cbn [bind subscript]. rewrite W2. cbn [bind].
        exists d, (ne_number code (-32700)), (JObj members).
        split; [reflexivity|]. intros _. cbn [get bind]. rewrite W1.
        cbn [bind get]. now eexists.
Qed.

Lemma successful_durations_cons (x : DaemonPerformanceTester.exchange)
    (xs : list DaemonPerformanceTester.exchange) :
  successful_durations (x :: xs)
  = if snd (measured x) then fst (measured x) :: successful_durations xs
    else successful_durations xs.
Proof.
  unfold successful_durations. cbn [filter].
  destruct (snd (measured x)); reflexivity.
Qed.

Lemma failed_calls_cons (x : DaemonPerformanceTester.exchange)
    (xs : list DaemonPerformanceTester.exchange) :
  failed_calls (x :: xs)
  = if snd (measured x) then failed_calls xs else (1 + failed_calls xs)%Z.
Proof.
  unfold failed_calls. cbn [filter].
  destruct (snd (measured x)); cbn [negb]; [reflexivity|apply len_cons].
Qed.

(** A worker whose calls are all answered runs to its end: it has appended
    the durations of the calls flagged as successful, in order, and one
    error entry for each call flagged as failed. *)
Lemma client_worker_loop_answered (client_id : Z)
    (xs : list DaemonPerformanceTester.exchange) :
  Forall answered xs ->
  forall self latencies errors,
    exists errors' self',
      DaemonPerformanceTester.client_worker_loop
        self client_id xs latencies errors
      = (Ok (latencies ++ successful_durations xs, errors ++ errors'), self')
      /\ len errors' = failed_calls xs.
Proof.
  induction 1 as [|x xs W F IH]; intros self lat errs.
  - exists [], self. cbn. rewrite !app_nil_r. split; reflexivity.
  - cbn [DaemonPerformanceTester.client_worker_loop].
    destruct (answered_call self x W) as (d & success & r & E & G).
    pose proof (send_json_rpc_measured self x) as M.
    destruct (DaemonPerformanceTester.send_json_rpc self x) as [t s1].
    cbn [fst] in E, M. subst t. cbn [fst] in M.
    rewrite successful_durations_cons, failed_calls_cons, <- M.
    cbn [snd fst].
    destruct success.
    + destruct (IH s1 (lat ++ [d]) errs) as (errs' & s2 & E2 & L2).
      exists errs', s2. rewrite E2, <- app_assoc.
      split; [reflexivity|exact L2].
    + destruct (G eq_refl) as [msg ->].
      destruct (IH s1 lat (errs ++ [ClientError client_id msg]))
        as (errs' & s2 & E2 & L2).
      exists (ClientError client_id msg :: errs'), s2.
      rewrite E2, <- app_assoc. split; [reflexivity|].
      rewrite len_cons. lia.
Qed.

Lemma run_clients_answered
    (threads : list (Z * list DaemonPerformanceTester.exchange)) :
  Forall (fun th => Forall answered (snd th)) threads ->
  forall self,
    map fst (fst (DaemonPerformanceTester.run_clients self threads))
    = map (fun th => successful_durations (snd th)) threads
    /\ total (fun r => len (snd r))
             (fst (DaemonPerformanceTester.run_clients self threads))
       = total (fun th => failed_calls (snd th)) threads.
Proof.
  induction 1 as [|[id xs] threads W F IH]; intros self.
  - split; reflexivity.
  - cbn [DaemonPerformanceTester.run_clients snd] in *.
    unfold DaemonPerformanceTester.client_worker.
    destruct (client_worker_loop_answered id xs W self [] [])
      as (errs & s1 & E & L).
    rewrite E. specialize (IH s1).
    destruct (DaemonPerformanceTester.run_clients s1 threads) as [rs s2].
    cbn [fst] in *. destruct IH as [IH1 IH2].
    unfold total in *. cbn [map fold_right fst snd app].
    rewrite IH1, IH2, L. split; reflexivity.
Qed.

Lemma calls_classified (xs : list DaemonPerformanceTester.exchange) :
  (len (successful_durations xs) + failed_calls xs = len xs)%Z.
Proof.
  induction xs as [|x xs IH]; [reflexivity|].
  rewrite successful_durations_cons, failed_calls_cons, !len_cons.
  destruct (snd (measured x)); rewrite ?len_cons; lia.
Qed.

(** C4, as stated, fails: one worker with one successful and one failed
    call yields an operation count of 1, not 2. *)
Lemma concurrent_counts_counterexample :
  exists m,
    fst (DaemonPerformanceTester.benchmark_concurrent_clients daemon0 true 1 2
           [(0%Z, [DaemonPerformanceTester.Received 5
                     (DaemonPerformanceTester.Document reply_ok);
                   DaemonPerformanceTester.Received 7
                     DaemonPerformanceTester.EmptyPayload])]
           12 20) = Ok m
    /\ operation_count m = 1%Z
    /\ errors m = [ClientError 0 (JStr "Unknown error")].
Proof. eexists. split; [reflexivity|]. split; reflexivity. Qed.

(** C4, amended.  In the summary of a concurrent run whose calls are all
    answered, p50, p95 and p99 are the median and the percentiles of the
    pooled list of the durations of all the calls, of all workers, that
    [send_json_rpc] flagged as successful; the operation count is the
    number of these successful calls only, and the calls flagged as failed
    are counted by the entries of [errors], so that the two add up to the
    calls made.  The summary is built whenever the wall-clock time and the
    number of planned calls are not zero.  On an asymmetric run the pooled
    median differs from the mean of the workers' medians. *)
Theorem concurrent_summary_pools :
  (forall (self : DaemonPerformanceTester.t)
          (num_clients operations_per_client : Z)
          (threads : list (Z * list DaemonPerformanceTester.exchange))
          (total_test_time daemon_memory : Q) (m : PerformanceMetrics),
      Forall (fun th => Forall answered (snd th)) threads ->
      fst (DaemonPerformanceTester.benchmark_concurrent_clients self true
             num_clients operations_per_client threads
             total_test_time daemon_memory) = Ok m ->
      let pooled :=
        concat (map (fun th => successful_durations (snd th)) threads) in
      operation_count m = len pooled
      /\ len (errors m) = total (fun th => failed_calls (snd th)) threads
      /\ (operation_count m + len (errors m)
          = total (fun th => len (snd th)) threads)%Z
      /\ (pooled <> [] ->
          median pooled = Ok (p50_latency_ms m)
          /\ DaemonPerformanceTester._percentile pooled 95
             = Ok (p95_latency_ms m)
          /\ DaemonPerformanceTester._percentile pooled 99
             = Ok (p99_latency_ms m)))
  /\ (forall (self : DaemonPerformanceTester.t)
             (num_clients operations_per_client : Z)
             (threads : list (Z * list DaemonPerformanceTester.exchange))
             (total_test_time daemon_memory : Q),
         ~ total_test_time == 0 ->
         (num_clients * operations_per_client <> 0)%Z ->
         exists m,
           fst (DaemonPerformanceTester.benchmark_concurrent_clients self true
                  num_clients operations_per_client threads
                  total_test_time daemon_memory) = Ok m)
  /\ (exists m avg,
         fst (DaemonPerformanceTester.benchmark_concurrent_clients daemon0 true
                2 2 asymmetric_run 110 20) = Ok m
         /\ p50_latency_ms m == 5 # 2
         /\ averaged_p50
              (fst (DaemonPerformanceTester.run_clients daemon0 asymmetric_run))
            = Ok avg
         /\ avg == 53 # 2).
Proof.
  split; [|split].
  - intros self nc opc threads tt mem m A H.
    destruct (run_clients_answered threads A self) as [R1 R2].
    assert (S : (total (fun th => len (successful_durations (snd th))) threads
                 + total (fun th => failed_calls (snd th)) threads
                 = total (fun th => len (snd th)) threads)%Z).
    { clear. unfold total.
      induction threads as [|th threads IH]; [reflexivity|].
      cbn [map fold_right]. pose proof (calls_classified (snd th)). lia. }
    unfold DaemonPerformanceTester.benchmark_concurrent_clients in H.
    cbn [negb] in H.
    destruct (DaemonPerformanceTester.run_clients self threads)
      as [results s1].
    cbn [fst] in R1, R2. cbv zeta in H. rewrite R1 in H.
    set (pooled :=
           concat (map (fun th => successful_durations (snd th)) threads))
      in *.
    assert (Lp : len pooled
                 = total (fun th => len (successful_durations (snd th)))
                         threads).
    { unfold pooled.
      apply (len_concat (fun th => successful_durations (snd th))). }
    assert (Le : len (concat (map snd results))
                 = total (fun th => failed_calls (snd th)) threads)
      by (now rewrite len_concat).
    destruct pooled as [|x rest] eqn:P.
    + cbn [bind fst] in H. injection H as <-.
      cbn [operation_count errors]. split; [reflexivity|].
      split; [exact Le|]. split; [lia|congruence].
    + destruct (statistics_ordered x rest)
        as (p50 & p95 & p99 & E50 & E95 & E99 & _).
      change DaemonPerformanceTester._percentile
        with CLIPerformanceTester._percentile in *.
      rewrite E50, E95, E99 in H. cbn [mean bind] in H.
      destruct (truediv (inject_Z (len (x :: rest))) (tt / 1000));
        [|discriminate].
      cbn [bind] in H.
      destruct (truediv (inject_Z (len (x :: rest))) (inject_Z (nc * opc)));
        [|discriminate].
      cbn [bind fst] in H. injection H as <-.
      cbn [operation_count errors p50_latency_ms p95_latency_ms
           p99_latency_ms].
      split; [reflexivity|]. split; [exact Le|]. split; [lia|auto].
  - intros self nc opc threads tt mem T N.
    unfold DaemonPerformanceTester.benchmark_concurrent_clients.
    cbn [negb].
    destruct (DaemonPerformanceTester.run_clients self threads)
      as [results s1].
    cbv zeta.
    destruct (concat (map fst results)) as [|x rest] eqn:P.
    + cbn [bind fst]. now eexists.
    + destruct (statistics_ordered x rest)
        as (p50 & p95 & p99 & E50 & E95 & E99 & _).
      change DaemonPerformanceTester._percentile
        with CLIPerformanceTester._percentile in *.
      rewrite E50, E95, E99. cbn [mean bind].
      rewrite truediv_ok by (now apply div1000_nonzero).
      rewrite truediv_ok by (now apply inject_Z_nonzero).
      cbn [bind fst]. now eexists.
  - eexists. eexists. split; [reflexivity|]. split; [reflexivity|].
    split; reflexivity.
Qed.

Lemma concurrent_summary_pools_witness :
  exists m,
    fst (DaemonPerformanceTester.benchmark_concurrent_clients daemon0 true
           2 2 asymmetric_run 110 20) = Ok m
    /\ operation_count m = 4%Z
    /\ median [1; 2; 3; 100] = Ok (p50_latency_ms m)
    /\ DaemonPerformanceTester._percentile [1; 2; 3; 100] 95
       = Ok (p95_latency_ms m).
Proof.
  assert (A : Forall (fun th => Forall answered (snd th)) asymmetric_run)
    by (repeat constructor; cbn; left; discriminate).
  eexists. split; [reflexivity|].
  destruct (proj1 concurrent_summary_pools daemon0 2%Z 2%Z asymmetric_run
              110 20 _ A eq_refl) as (C & _ & _ & P).
  split; [exact C|].
  destruct (P ltac:(discriminate)) as (P50 & P95 & _).
  split; [exact P50|exact P95].
Defined.

(** *** detect_regressions *)

Module Import ReporterFacts.
Import PerformanceReporter.

Lemma truediv_inv (a b v : Q) :
  truediv a b = Ok v -> ~ b == 0 /\ v = a / b.
Proof.
  unfold truediv. destruct (Qeq_bool b 0) eqn:E; [discriminate|].
  intros [= <-]. split; [|reflexivity]. now apply Qeq_bool_neq.
Qed.

Lemma ratio_gt_tenth (a b : Q) : 0 < b -> 1 # 10 < a / b -> 0 < a.
Proof.
  intros P H.
  assert (E : a == a / b * b) by (field; lra).
  assert (0 < a / b * b) by (apply Qmult_lt_0_compat; lra).
  lra.
Qed.

Lemma check_metric_sound (result_name mname : string) (data : metric)
    (b : Q) (l : list regression) (r : regression) :
  check_metric result_name mname data b = Ok l -> In r l -> flagged r.
Proof.
  unfold check_metric, flagged, table_change.
  destruct (lower_is_better mname) eqn:LB.
  - destruct (truediv (value data - b) b) as [v|] eqn:T; [|discriminate].
    apply truediv_inv in T as [N ->]. cbn [bind].
    destruct (gt _ _) eqn:G; intros [= <-]; [|contradiction].
    intros [<-|[]]. cbn [baseline current metric_name regression_percent].
    rewrite LB. apply gt_true in G. repeat split; auto.
    intros P. pose proof (ratio_gt_tenth _ _ P G). lra.
  - destruct (truediv (b - value data) b) as [v|] eqn:T; [|discriminate].
    apply truediv_inv in T as [N ->]. cbn [bind].
    destruct (gt _ _) eqn:G; intros [= <-]; [|contradiction].
    intros [<-|[]]. cbn [baseline current metric_name regression_percent].
    rewrite LB. apply gt_true in G. repeat split; auto.
    intros P. pose proof (ratio_gt_tenth _ _ P G). lra.
Qed.

Lemma scan_metrics_sound (base : list BenchmarkResult) (result_name : string)
    (ms : list (string * metric)) :
  forall l r, scan_metrics base result_name ms = Ok l -> In r l -> flagged r.
Proof.
  induction ms as [|[mname data] ms IH]; intros l r H I.
  - injection H as <-. contradiction.
  - cbn [scan_metrics] in H.
    destruct (find_baseline_value base result_name mname) as [b|].
    + destruct (check_metric result_name mname data b) as [found|] eqn:C;
        [|discriminate].
      cbn [bind] in H.
      destruct (scan_metrics base result_name ms) as [more|]; [|discriminate].
      injection H as <-. apply in_app_or in I as [I|I].
      * eapply check_metric_sound; eassumption.
      * eapply IH; [reflexivity|exact I].
    + cbn [bind] in H.
      destruct (scan_metrics base result_name ms) as [more|]; [|discriminate].
      injection H as <-. eapply IH; [reflexivity|exact I].
Qed.

Lemma scan_results_sound (base rs : list BenchmarkResult) :
  forall l r, scan_results base rs = Ok l -> In r l -> flagged r.
Proof.
  induction rs as [|x rs IH]; intros l r H I.
  - injection H as <-. contradiction.
  - cbn [scan_results] in H.
    destruct (scan_metrics base (name x) (metrics x)) as [found|] eqn:S;
      [|discriminate].
    cbn [bind] in H.
    destruct (scan_results base rs) as [more|]; [|discriminate].
    injection H as <-. apply in_app_or in I as [I|I].
    + eapply scan_metrics_sound; eassumption.
    + eapply IH; [reflexivity|exact I].
Qed.

End ReporterFacts.

(** A metric that the specification counts as higher-is-better is not in
    the table of the code, which then treats it as such. *)
Lemma higher_not_listed (k : string) :
  spec_polarity k = Some HigherIsBetter ->
  PerformanceReporter.lower_is_better k = false.
Proof.
  intros H. unfold PerformanceReporter.lower_is_better. cbn [existsb].
  destruct (String.eqb k "avg_latency") eqn:E1.
  - apply String.eqb_eq in E1. subst k. discriminate.
  - destruct (String.eqb k "peak_memory") eqn:E2; [|reflexivity].
    apply String.eqb_eq in E2. subst k. discriminate.
Qed.

Lemma scan_sound (base data : list BenchmarkAnalyzer.benchmark) :
  forall l r,
    BenchmarkAnalyzer.scan base data = Ok l -> In r l ->
    ~ BenchmarkAnalyzer.baseline r == 0
    /\ 5 # 100 < (BenchmarkAnalyzer.current r - BenchmarkAnalyzer.baseline r)
                 / BenchmarkAnalyzer.baseline r.
Proof.
  induction data as [|c data IH]; intros l r H I.
  - injection H as <-. contradiction.
  - cbn [BenchmarkAnalyzer.scan] in H.
    destruct (BenchmarkAnalyzer.find_benchmark base (BenchmarkAnalyzer.name c))
      as [b|].
    + destruct (truediv _ _) as [v|] eqn:T; [|discriminate].
      apply truediv_inv in T as [N ->]. cbn [bind] in H.
      destruct (gt _ _) eqn:G; cbn [bind] in H;
        (destruct (BenchmarkAnalyzer.scan base data) as [more|];
         [|discriminate]); cbn [bind] in H; injection H as <-.
      * destruct I as [<-|I]; [|eapply IH; [reflexivity|exact I]].
        apply gt_true in G. split; assumption.
      * eapply IH; [reflexivity|exact I].
    + cbn [bind] in H.
      destruct (BenchmarkAnalyzer.scan base data) as [more|]; [|discriminate].
      injection H as <-. eapply IH; [reflexivity|exact I].
Qed.

Lemma ratio_gt_positive (a b t : Q) : 0 < t -> 0 < b -> t < a / b -> 0 < a.
Proof.
  intros Pt P H.
  assert (E : a == a / b * b) by (field; lra).
  assert (0 < a / b * b) by (apply Qmult_lt_0_compat; lra).
  lra.
Qed.

(** C2, as stated, fails on both functions it is about.
    [check_regression] has a tolerance of its own, 5%: against a baseline
    of 10 ms it reports 11.0 ms.  [detect_regressions] looks the direction
    of a metric up in a table of two names and treats every other metric
    as higher-is-better: a [final_memory] that fell from 100 MB to 80 MB,
    an improvement, is reported. *)
Lemma regression_claim_counterexample :
  (exists r,
      BenchmarkAnalyzer.check_regression
        [latency_benchmark 11] (Some [latency_benchmark 10]) = Ok [r]
      /\ BenchmarkAnalyzer.baseline r = 10
      /\ BenchmarkAnalyzer.current r = 11)
  /\ (exists r,
         PerformanceReporter.detect_regressions
           [memory_result 80] (Some [memory_result 100]) = Ok [r]
         /\ PerformanceReporter.metric_name r = "final_memory"%string
         /\ spec_polarity "final_memory" = Some LowerIsBetter
         /\ PerformanceReporter.baseline r = 100
         /\ PerformanceReporter.current r = 80).
Proof.
  split; eexists; (split; [reflexivity|]); repeat split.
Qed.

(** C2, amended.  For a latency or memory metric that its table lists
    ([avg_latency], [peak_memory]) and for every throughput metric,
    [detect_regressions] emits a record only when the relative change in
    the adverse direction strictly exceeds its tolerance of 10%: every such
    record has a change above one tenth of the baseline and, on a positive
    baseline, a current value strictly worse than the baseline, so that
    none is emitted for a metric that improved or is unchanged.  Against a
    baseline latency of 10 ms, 11.0 ms yields no record and 11.01 ms
    yields one, as 9 ms and 10 ms yield none; a [peak_memory] that rose
    from 100 MB to 120 MB and an [avg_throughput] that fell from 1000 to
    800 ops/s yield a record, the opposite changes none.
    [check_regression] applies the same strict rule to the average latency
    at its own tolerance of 5%: 10.5 ms against 10 ms yields no record,
    11.0 ms yields one.  The four boundary instances come out the same
    when the comparison is carried out on binary64 numbers. *)
Theorem regression_threshold_strict :
  (forall (results : list PerformanceReporter.BenchmarkResult)
          (baseline : option (list PerformanceReporter.BenchmarkResult))
          (regressions : list PerformanceReporter.regression)
          (r : PerformanceReporter.regression) (p : polarity),
      PerformanceReporter.detect_regressions results baseline
      = Ok regressions ->
      In r regressions ->
      spec_polarity (PerformanceReporter.metric_name r) = Some p ->
      (PerformanceReporter.lower_is_better (PerformanceReporter.metric_name r)
       = true \/ p = HigherIsBetter) ->
      1 # 10 < spec_adverse_change p (PerformanceReporter.baseline r)
                                     (PerformanceReporter.current r)
      /\ (0 < PerformanceReporter.baseline r ->
          spec_worse p (PerformanceReporter.baseline r)
                       (PerformanceReporter.current r)))
  /\ (PerformanceReporter.detect_regressions
        [latency_result 11] (Some [latency_result 10]) = Ok []
      /\ (exists r,
             PerformanceReporter.detect_regressions
               [latency_result (1101 # 100)] (Some [latency_result 10])
             = Ok [r]
             /\ PerformanceReporter.baseline r = 10
             /\ PerformanceReporter.current r = 1101 # 100)
      /\ PerformanceReporter.detect_regressions
           [latency_result 9] (Some [latency_result 10]) = Ok []
      /\ PerformanceReporter.detect_regressions
           [latency_result 10] (Some [latency_result 10]) = Ok [])
  /\ ((exists r,
          PerformanceReporter.detect_regressions
            [peak_memory_result 120] (Some [peak_memory_result 100])
          = Ok [r])
      /\ PerformanceReporter.detect_regressions
           [peak_memory_result 80] (Some [peak_memory_result 100]) = Ok []
      /\ (exists r,
             PerformanceReporter.detect_regressions
               [throughput_result 800] (Some [throughput_result 1000])
             = Ok [r])
      /\ PerformanceReporter.detect_regressions
           [throughput_result 1200] (Some [throughput_result 1000]) = Ok [])
  /\ (forall (data : list BenchmarkAnalyzer.benchmark)
             (baseline : option (list BenchmarkAnalyzer.benchmark))
             (regressions : list BenchmarkAnalyzer.regression)
             (r : BenchmarkAnalyzer.regression),
         BenchmarkAnalyzer.check_regression data baseline = Ok regressions ->
         In r regressions ->
         5 # 100 < spec_adverse_change LowerIsBetter
                     (BenchmarkAnalyzer.baseline r)
                     (BenchmarkAnalyzer.current r)
         /\ (0 < BenchmarkAnalyzer.baseline r ->
             BenchmarkAnalyzer.baseline r < BenchmarkAnalyzer.current r))
  /\ (BenchmarkAnalyzer.check_regression
        [latency_benchmark (105 # 10)] (Some [latency_benchmark 10]) = Ok []
      /\ exists r,
           BenchmarkAnalyzer.check_regression
             [latency_benchmark 11] (Some [latency_benchmark 10]) = Ok [r])
  /\ (Binary64.exceeds 11.0%float 10.0%float 0.1%float = false
      /\ Binary64.exceeds 11.01%float 10.0%float 0.1%float = true
      /\ Binary64.exceeds 10.5%float 10.0%float 0.05%float = false
      /\ Binary64.exceeds 11.0%float 10.0%float 0.05%float = true).
Proof.
  split; [|split; [|split; [|split; [|split]]]].
  - intros results [base|] regs r p H I S L.
    + destruct (scan_results_sound base results regs r H I) as (A & B & _ & D).
      unfold table_change in B.
      destruct L as [L| ->].
      * rewrite L in B, D.
        destruct p.
        -- split; [exact B|exact D].
        -- apply higher_not_listed in S. congruence.
      * rewrite (higher_not_listed _ S) in B, D. split; [exact B|exact D].
    + injection H as <-. contradiction.
  - split; [reflexivity|]. split; [|split; reflexivity].
    eexists. split; [reflexivity|]. split; reflexivity.
  - split; [eexists; reflexivity|]. split; [reflexivity|].
    split; [eexists; reflexivity|reflexivity].
  - intros data [base|] regs r H I.
    + destruct (scan_sound base data regs r H I) as [N G].
      split; [exact G|]. intros P. cbn [spec_adverse_change] in G.
      pose proof (ratio_gt_positive _ _ (5 # 100) ltac:(reflexivity) P G).
      lra.
    + injection H as <-. contradiction.
  - split; [reflexivity|]. eexists. reflexivity.
  - repeat split; reflexivity.
Qed.

Lemma regression_threshold_strict_witness :
  1 # 10 < spec_adverse_change LowerIsBetter 10 (1101 # 100)
  /\ spec_worse LowerIsBetter 10 (1101 # 100).
Proof.
  destruct (proj1 regression_threshold_strict
              [latency_result (1101 # 100)] (Some [latency_result 10])
              _ _ LowerIsBetter eq_refl (or_introl eq_refl) eq_refl
              (or_introl eq_refl)) as [A B].
  split; [exact A|]. apply B. reflexivity.
Defined.

(** *** Where binary64 and exact arithmetic part *)

(** The statements of this file about the three threshold tests go one
    way only: a record or a met target implies the exact inequality.  The
    converse is not claimed, and does not hold of the program: a quotient
    that lies above the threshold by less than a rounding is rounded onto
    it.  A latency that rose by a little more than 5% is not reported, and
    a one-shot latency a little more than 7 times the daemon's does not
    meet the improvement target. *)
Lemma binary64_rounding_at_the_threshold :
  (Binary64.exceeds 9457559217478028%float 9007199254740979%float 0.05%float
   = false
   /\ 5 # 100 < (9457559217478028 - 9007199254740979) / 9007199254740979)
  /\ (Binary64.improvement_target 0x1.c000000000002p+2%float
                                  0x1.0000000000001p+0%float = false
      /\ 7 * (1 + 1 / 2 ^ 52) < 7 + 1 / 2 ^ 49)
  /\ Binary64.improvement_target 7.5%float 1%float = true.
Proof.
  split; [split; reflexivity|]. split; [split; reflexivity|reflexivity].
Qed.

(** * The sampling loops, the assessment, trends and regressions *)

(** *** More on the percentile *)

(** X1.  On a non-empty list of samples [_percentile] is monotone in the
    percentile: for 0 <= p <= q <= 100 both calls return, and the value at
    [p] is at most the value at [q] (so p50 <= p95 <= p99 is one instance). *)
Theorem percentile_monotone (data : list Q) (p q : Q) :
  data <> [] -> 0 <= p -> p <= q -> q <= 100 ->
  exists vp vq,
    CLIPerformanceTester._percentile data p = Ok vp
    /\ CLIPerformanceTester._percentile data q = Ok vq
    /\ vp <= vq.
Proof.
  intros NE H0 Hpq H1.
  destruct (percentile_interp data p NE ltac:(lra)) as [vp [Ep Vp]].
  destruct (percentile_interp data q NE ltac:(lra)) as [vq [Eq Vq]].
  exists vp, vq. repeat split; try assumption.
  rewrite Vp, Vq.
  pose proof (rank_bounds data p NE ltac:(lra)) as Rp.
  pose proof (rank_bounds data q NE ltac:(lra)) as Rq.
  pose proof (rank_mono data p q NE Hpq).
  apply interp_mono; lra.
Qed.

Lemma percentile_monotone_witness :
  exists vp vq,
    CLIPerformanceTester._percentile [30; 10; 40; 20] 95 = Ok vp
    /\ CLIPerformanceTester._percentile [30; 10; 40; 20] 99 = Ok vq
    /\ vp <= vq.
Proof.
  apply percentile_monotone; [discriminate|..]; unfold Qle; simpl; lia.
Defined.

(** X2.  On a non-empty list of samples and a percentile in [0,100],
    [_percentile] returns a value between the smallest and the largest
    sample. *)
Theorem percentile_within_range (x : Q) (rest : list Q) (p : Q) :
  0 <= p <= 100 ->
  exists v,
    CLIPerformanceTester._percentile (x :: rest) p = Ok v
    /\ min_ x rest <= v <= max_ x rest.
Proof.
  intros Hp. set (data := x :: rest).
  assert (NE : data <> []) by discriminate.
  destruct (percentile_interp data p NE Hp) as [v [E V]].
  exists v. split; [exact E|]. rewrite V.
  pose proof (rank_bounds data p NE Hp) as R.
  pose proof (floor_rank_bounds _ _ R) as F.
  pose proof (len_pos data NE) as L.
  split.
  - eapply Qle_trans; [|apply interp_lower; exact R].
    apply min_le_at. fold data. lia.
  - eapply Qle_trans; [apply interp_upper; exact R|].
    apply at_le_max. fold data. lia.
Qed.

Lemma percentile_within_range_witness :
  exists v,
    CLIPerformanceTester._percentile [30; 10; 40; 20] 95 = Ok v
    /\ min_ 30 [10; 40; 20] <= v <= max_ 30 [10; 40; 20].
Proof.
  apply percentile_within_range. split; unfold Qle; simpl; lia.
Defined.

(** X3.  On an odd number of samples [_percentile(data, 50)], in both
    classes, and [statistics.median(data)], which the summaries use for
    p50, return the same element of the sorted list, the middle one: the
    rank is an integer and no arithmetic on the samples is involved. *)
Theorem percentile_50_is_median (data : list Q) :
  (len data mod 2 = 1)%Z ->
  exists v,
    CLIPerformanceTester._percentile data 50 = Ok v
    /\ DaemonPerformanceTester._percentile data 50 = Ok v
    /\ median data = Ok v
    /\ v = at_ (sorted data) (len data / 2).
Proof.
  intros Odd.
  assert (NE : data <> []) by (intros ->; discriminate).
  pose proof (len_pos data NE) as L.
  pose proof (Z.div_mod (len data) 2 ltac:(lia)) as DM.
  set (k := (len data / 2)%Z) in *.
  assert (N : inject_Z (len data) == 2 * inject_Z k + 1).
  { replace (len data) with (2 * k + 1)%Z at 1 by lia.
    rewrite inject_Z_plus, inject_Z_mult. reflexivity. }
  assert (R : rank data 50 == inject_Z k).
  { unfold rank. rewrite N. field. }
  assert (F : Qfloor (rank data 50) = k) by (apply Qfloor_unique; lra).
  assert (P : 0 <= rank data 50).
  { rewrite R. change 0 with (inject_Z 0). rewrite <- Zle_Qle. lia. }
  assert (I : is_integer (rank data 50) = true).
  { apply is_integer_spec. rewrite F. exact R. }
  exists (at_ (sorted data) k).
  assert (E : CLIPerformanceTester._percentile data 50
              = Ok (at_ (sorted data) k)).
  { unfold CLIPerformanceTester._percentile.
    destruct data as [|x0 rest] eqn:D; [congruence|]. rewrite <- D in *.
    rewrite len_sorted. fold (rank data 50).
    rewrite I, (int_floor _ P), F.
    apply getitem_at. rewrite len_sorted. lia. }
  split; [exact E|]. split; [exact E|]. split; [|reflexivity].
  unfold median. rewrite len_sorted.
  destruct (len data =? 0)%Z eqn:E0; [lia|].
  rewrite Odd. cbn [Z.eqb Pos.eqb]. fold k.
  apply getitem_at. rewrite len_sorted. lia.
Qed.

Lemma percentile_50_is_median_witness :
  exists v,
    CLIPerformanceTester._percentile [30; 10; 40] 50 = Ok v
    /\ DaemonPerformanceTester._percentile [30; 10; 40] 50 = Ok v
    /\ median [30; 10; 40] = Ok v
    /\ v = at_ (sorted [30; 10; 40]) (len [30; 10; 40] / 2).
Proof. apply percentile_50_is_median. reflexivity. Defined.

(** X4.  [_percentile] does not depend on the order in which the samples were
    recorded: on two non-empty lists that are permutations of each other
    and a percentile in [0,100] it returns equal values. *)
Theorem percentile_order_independent (l1 l2 : list Q) (p : Q) :
  Permutation l1 l2 -> l1 <> [] -> 0 <= p <= 100 ->
  exists v1 v2,
    CLIPerformanceTester._percentile l1 p = Ok v1
    /\ DaemonPerformanceTester._percentile l2 p = Ok v2
    /\ v1 == v2.
Proof.
  intros P NE Hp.
  destruct (percentile_permutation l1 l2 p P NE Hp) as (v1 & v2 & E1 & E2 & V).
  now exists v1, v2.
Qed.

Lemma percentile_order_independent_witness :
  exists v1 v2,
    CLIPerformanceTester._percentile [1; 2; 3; 100] 95 = Ok v1
    /\ DaemonPerformanceTester._percentile [3; 100; 1; 2] 95 = Ok v2
    /\ v1 == v2.
Proof.
  apply percentile_order_independent.
  - change [1; 2; 3; 100] with ([1; 2] ++ [3; 100]).
    change [3; 100; 1; 2] with ([3; 100] ++ [1; 2]).
    apply Permutation_app_comm.
  - discriminate.
  - split; unfold Qle; simpl; lia.
Defined.

(** X5.  A percentile above 100 on a list of at least two samples makes
    [_percentile] raise IndexError: the rank lies beyond the last index and
    nothing clamps it. *)
Theorem percentile_above_100 (data : list Q) (p : Q) :
  (2 <= len data)%Z -> 100 < p ->
  CLIPerformanceTester._percentile data p = Raise IndexError.
Proof.
  intros L Hp.
  assert (L' : 2 <= inject_Z (len data)).
  { change 2 with (inject_Z 2). now rewrite <- Zle_Qle. }
  unfold CLIPerformanceTester._percentile.
  destruct data as [|x0 rest] eqn:D; [cbn in L; lia|]. rewrite <- D in *.
  rewrite len_sorted.
  set (index := p / 100 * (inject_Z (len data) - 1)).
  assert (I : inject_Z (len data) - 1 < index).
  { unfold index.
    assert (E : p / 100 == p * (1 # 100)) by field. rewrite E. nra. }
  assert (P : 0 <= index) by lra.
  rewrite (int_floor _ P).
  assert (F : (len data - 1 <= Qfloor index)%Z).
  { rewrite <- (Qfloor_Z (len data - 1)). apply Qfloor_resp_le.
    rewrite inject_Z_sub. change (inject_Z 1) with 1. lra. }
  assert (G : forall i, (len data <= i)%Z -> getitem (sorted data) i = Raise IndexError).
  { intros i Hi. unfold getitem.
    destruct (i <? 0)%Z eqn:E; [lia|]. rewrite E.
    destruct (nth_error (sorted data) (Z.to_nat i)) eqn:N; [|reflexivity].
    assert (Z.to_nat i < length (sorted data))%nat
      by (apply nth_error_Some; congruence).
    rewrite sorted_length in H. unfold len in Hi. lia. }
  destruct (is_integer index) eqn:Int.
  - apply G. apply is_integer_spec in Int.
    destruct (Z.eq_dec (Qfloor index) (len data - 1)) as [E|E]; [|lia].
    exfalso. rewrite E, inject_Z_sub in Int. change (inject_Z 1) with 1 in Int.
    lra.
  - destruct (Z.eq_dec (Qfloor index) (len data - 1)) as [E|E].
    + rewrite E. rewrite getitem_at by (rewrite len_sorted; lia).
      cbn [bind]. rewrite G by lia. reflexivity.
    + rewrite G by lia. reflexivity.
Qed.

Lemma percentile_above_100_witness :
  CLIPerformanceTester._percentile [30; 10; 40; 20] 150 = Raise IndexError.
Proof.
  apply percentile_above_100; [unfold len; simpl; lia | reflexivity].
Defined.

Lemma int_ceiling (x : Q) : x <= 0 -> int x = Qceiling x.
Proof.
  destruct x as [n d]; unfold int, Qceiling, Qfloor, Qle; simpl; intros H.
  replace n with (- - n)%Z at 1 by lia.
  rewrite Z.quot_opp_l by lia. rewrite Z.quot_div_nonneg by lia. reflexivity.
Qed.

Lemma getitem_in_range {A : Type} (l : list A) (i : Z) :
  (- len l <= i < len l)%Z -> exists v, getitem l i = Ok v.
Proof.
  intros H. unfold getitem, len in *.
  destruct (i <? 0)%Z eqn:E.
  - destruct (Z.of_nat (length l) + i <? 0)%Z eqn:E2; [lia|].
    destruct (nth_error l _) eqn:N; [now eexists|].
    apply nth_error_None in N. lia.
  - rewrite E.
    destruct (nth_error l _) eqn:N; [now eexists|].
    apply nth_error_None in N. lia.
Qed.

Lemma integer_ceiling (x : Q) :
  x == inject_Z (Qfloor x) -> Qceiling x = Qfloor x.
Proof.
  intros I.
  pose proof (Qle_ceiling x) as C1. pose proof (Qceiling_lt x) as C2.
  assert (A : (Qceiling x - 1 < Qfloor x)%Z) by (rewrite Zlt_Qlt; lra).
  assert (B : (Qfloor x <= Qceiling x)%Z) by (rewrite Zle_Qle; lra).
  lia.
Qed.

(** X6.  A negative percentile down to -100 on a list of at least two samples
    raises nothing: [_percentile] returns a value, read through Python's
    negative indices from the end of the sorted list. *)
Theorem percentile_negative_accepted (data : list Q) (p : Q) :
  (2 <= len data)%Z -> - (100) <= p -> p < 0 ->
  exists v, CLIPerformanceTester._percentile data p = Ok v.
Proof.
  intros L Hlo Hhi.
  assert (L' : 2 <= inject_Z (len data)).
  { change 2 with (inject_Z 2). now rewrite <- Zle_Qle. }
  unfold CLIPerformanceTester._percentile.
  destruct data as [|x0 rest] eqn:D; [cbn in L; lia|]. rewrite <- D in *.
  rewrite len_sorted.
  set (index := p / 100 * (inject_Z (len data) - 1)).
  assert (I : - (inject_Z (len data) - 1) <= index < 0).
  { unfold index.
    assert (E : p / 100 == p * (1 # 100)) by field. rewrite E. split; nra. }
  rewrite (int_ceiling index) by lra.
  pose proof (Qle_ceiling index) as C1. pose proof (Qceiling_lt index) as C2.
  rewrite inject_Z_sub in C2. change (inject_Z 1) with 1 in C2.
  assert (B1 : (Qceiling index <= 0)%Z).
  { assert (Qceiling index - 1 < 0)%Z; [|lia].
    rewrite Zlt_Qlt, inject_Z_sub. change (inject_Z 1) with 1.
    change (inject_Z 0) with 0. lra. }
  assert (B2 : (- (len data - 1) <= Qceiling index)%Z).
  { rewrite Zle_Qle, inject_Z_opp, inject_Z_sub.
    change (inject_Z 1) with 1. lra. }
  destruct (is_integer index) eqn:Int.
  - apply is_integer_spec in Int.
    rewrite <- (integer_ceiling _ Int) in Int.
    assert (Qceiling index <> 0)%Z.
    { intros Z0. rewrite Z0 in Int. change (inject_Z 0) with 0 in Int. lra. }
    apply getitem_in_range. rewrite len_sorted. lia.
  - assert (S : (- (len data - 1) < Qceiling index)%Z).
    { destruct (Z.eq_dec (Qceiling index) (- (len data - 1))) as [E|E]; [|lia].
      exfalso.
      assert (X : index == inject_Z (Qceiling index)).
      { rewrite E, inject_Z_opp, inject_Z_sub. change (inject_Z 1) with 1.
        rewrite E, inject_Z_opp, inject_Z_sub in C1.
        change (inject_Z 1) with 1 in C1. lra. }
      assert (Y : Qfloor index = Qceiling index).
      { pose proof (Qfloor_le index) as F1. pose proof (Qlt_floor index) as F2.
        rewrite inject_Z_plus in F2. change (inject_Z 1) with 1 in F2.
        assert (Qfloor index <= Qceiling index)%Z by (rewrite Zle_Qle; lra).
        assert (Qceiling index < Qfloor index + 1)%Z.
        { rewrite Zlt_Qlt, inject_Z_plus. change (inject_Z 1) with 1. lra. }
        lia. }
      rewrite <- Y in X. apply is_integer_spec in X. congruence. }
    destruct (getitem_in_range (sorted data) (Qceiling index)) as [lo ->];
      [rewrite len_sorted; lia|].
    destruct (getitem_in_range (sorted data) (Qceiling index + 1)) as [hi ->];
      [rewrite len_sorted; lia|].
    cbn [bind]. now eexists.
Qed.

Lemma percentile_negative_accepted_witness :
  exists v, CLIPerformanceTester._percentile [10; 20; 30; 40] (-10) = Ok v.
Proof.
  apply percentile_negative_accepted;
    [unfold len; simpl; lia | discriminate | reflexivity].
Defined.

(** *** More on the summaries *)

Lemma fold_left_Qplus (l : list Q) : forall a,
  fold_left Qplus l a == a + fold_left Qplus l 0.
Proof.
  induction l as [|x l IH]; intros a; simpl; [ring|].
  rewrite (IH (a + x)), (IH (0 + x)). ring.
Qed.

Lemma sum_cons (x : Q) (l : list Q) : sum (x :: l) == x + sum l.
Proof. unfold sum. simpl. rewrite fold_left_Qplus. ring. Qed.

Lemma sum_bounds (lo hi : Q) (l : list Q) :
  Forall (fun y => lo <= y <= hi) l ->
  lo * inject_Z (len l) <= sum l <= hi * inject_Z (len l).
Proof.
  induction 1 as [|y l [A B] F IH].
  - unfold sum, len. simpl. split; unfold Qle; simpl; lia.
  - rewrite sum_cons, len_cons, inject_Z_plus. change (inject_Z 1) with 1.
    split; nra.
Qed.

Lemma mean_bounds (x : Q) (rest : list Q) :
  min_ x rest <= sum (x :: rest) / inject_Z (len (x :: rest)) <= max_ x rest.
Proof.
  destruct (min_le rest x) as [A1 A2]. destruct (max_ge rest x) as [B1 B2].
  assert (F : Forall (fun y => min_ x rest <= y <= max_ x rest) (x :: rest)).
  { constructor; [split; assumption|].
    rewrite Forall_forall in *. intros y Hy. split; auto. }
  apply sum_bounds in F.
  assert (P : 0 < inject_Z (len (x :: rest))).
  { change 0 with (inject_Z 0). rewrite <- Zlt_Qlt, len_cons.
    unfold len. lia. }
  split.
  - apply Qle_shift_div_l; lra.
  - apply Qle_shift_div_r; lra.
Qed.

(** What a summary returned by the one-shot tester holds. *)
Lemma cli_summary_inv (num_samples : Z) (x : Q) (rest : list Q)
    (errs : list error_entry) (mem : Q) (m : PerformanceMetrics) :
  CLIPerformanceTester.benchmark_basic_operations
    num_samples (x :: rest) errs mem = Ok m ->
  ~ sum (x :: rest) / 1000 == 0
  /\ num_samples <> 0%Z
  /\ total_time_ms m = sum (x :: rest)
  /\ avg_latency_ms m = sum (x :: rest) / inject_Z (len (x :: rest))
  /\ min_latency_ms m = min_ x rest
  /\ max_latency_ms m = max_ x rest
  /\ throughput_ops_sec m
     = inject_Z (len (x :: rest) * 3) / (sum (x :: rest) / 1000)
  /\ success_rate_percent m
     = inject_Z (len (x :: rest)) / inject_Z num_samples * 100
  /\ operation_count m = (len (x :: rest) * 3)%Z
  /\ errors m = errs
  /\ memory_usage_mb m = mem.
Proof.
  intros H.
  destruct (statistics_ordered x rest)
    as (p50 & p95 & p99 & E50 & E95 & E99 & _).
  unfold CLIPerformanceTester.benchmark_basic_operations in H.
  rewrite E50, E95, E99 in H. cbn [mean bind] in H.
  destruct (truediv _ (sum (x :: rest) / 1000)) as [t|] eqn:T; [|discriminate].
  cbn [bind] in H.
  destruct (truediv _ (inject_Z num_samples)) as [r|] eqn:R; [|discriminate].
  cbn [bind] in H. injection H as <-.
  apply ReporterFacts.truediv_inv in T as [T1 ->].
  apply ReporterFacts.truediv_inv in R as [R1 ->].
  cbn. repeat split; auto.
  intros ->. apply R1. reflexivity.
Qed.

Lemma daemon_summary_inv (num_samples : Z) (x : Q) (rest : list Q)
    (errs : list error_entry) (mem : Q) (m : PerformanceMetrics) :
  DaemonPerformanceTester.benchmark_basic_operations
    true num_samples (x :: rest) errs mem = Ok m ->
  ~ sum (x :: rest) / 1000 == 0
  /\ num_samples <> 0%Z
  /\ total_time_ms m = sum (x :: rest)
  /\ avg_latency_ms m = sum (x :: rest) / inject_Z (len (x :: rest))
  /\ min_latency_ms m = min_ x rest
  /\ max_latency_ms m = max_ x rest
  /\ throughput_ops_sec m
     = inject_Z (len (x :: rest)) / (sum (x :: rest) / 1000)
  /\ success_rate_percent m
     = inject_Z (len (x :: rest)) / inject_Z (num_samples * 4) * 100
  /\ operation_count m = len (x :: rest)
  /\ errors m = errs
  /\ memory_usage_mb m = mem.
Proof.
  intros H.
  destruct (statistics_ordered x rest)
    as (p50 & p95 & p99 & E50 & E95 & E99 & _).
  unfold DaemonPerformanceTester.benchmark_basic_operations in H.
  change DaemonPerformanceTester._percentile
    with CLIPerformanceTester._percentile in H.
  rewrite E50, E95, E99 in H. cbn [mean bind negb] in H.
  destruct (truediv _ (sum (x :: rest) / 1000)) as [t|] eqn:T; [|discriminate].
  cbn [bind] in H.
  destruct (truediv _ (inject_Z (num_samples * _))) as [r|] eqn:R;
    [|discriminate].
  cbn [bind] in H. injection H as <-.
  apply ReporterFacts.truediv_inv in T as [T1 ->].
  apply ReporterFacts.truediv_inv in R as [R1 ->].
  cbn. repeat split; auto.
  intros ->. apply R1. reflexivity.
Qed.

(** X7.  In every summary the one-shot benchmark builds from a non-empty list of
    durations, the average latency lies between the minimum and the maximum
    latency, and the total time is the average times the number of
    durations. *)
Theorem summary_mean_between_extremes
    (num_samples : Z) (latencies : list Q) (errs : list error_entry)
    (mem : Q) (m : PerformanceMetrics) :
  latencies <> [] ->
  CLIPerformanceTester.benchmark_basic_operations
    num_samples latencies errs mem = Ok m ->
  min_latency_ms m <= avg_latency_ms m
  /\ avg_latency_ms m <= max_latency_ms m
  /\ total_time_ms m == avg_latency_ms m * inject_Z (len latencies).
Proof.
  intros NE H. destruct latencies as [|x rest]; [congruence|].
  destruct (cli_summary_inv _ _ _ _ _ _ H)
    as (_ & _ & -> & -> & -> & -> & _).
  destruct (mean_bounds x rest) as [A B].
  repeat split; try assumption.
  field. apply inject_Z_nonzero. rewrite len_cons. unfold len. lia.
Qed.

Lemma summary_mean_between_extremes_witness :
  exists m,
    CLIPerformanceTester.benchmark_basic_operations 10 [30; 10; 40; 20] [] 12
    = Ok m
    /\ min_latency_ms m <= avg_latency_ms m
    /\ avg_latency_ms m <= max_latency_ms m
    /\ total_time_ms m == avg_latency_ms m * inject_Z (len [30; 10; 40; 20]).
Proof.
  eexists. split; [reflexivity|].
  apply (summary_mean_between_extremes 10 [30; 10; 40; 20] [] 12);
    [discriminate|reflexivity].
Defined.

(** X8.  In every summary that [benchmark_basic_operations] returns,
    throughput and average latency are tied.  Built from at least one
    duration, their product is 3000 for the one-shot tester (three
    operations per duration) and 1000 for the daemon tester; built from no
    duration, or with the daemon not started, both are 0.  So a daemon
    summary that meets the throughput target (> 1000 ops/s) always meets
    the latency target (< 2.1 ms) too. *)
Theorem throughput_is_inverse_latency :
  (forall (num_samples : Z) (latencies : list Q) (errs : list error_entry)
          (mem : Q) (m : PerformanceMetrics),
      CLIPerformanceTester.benchmark_basic_operations
        num_samples latencies errs mem = Ok m ->
      (latencies <> []
       /\ throughput_ops_sec m * avg_latency_ms m == 3000)
      \/ (latencies = []
          /\ throughput_ops_sec m = 0 /\ avg_latency_ms m = 0))
  /\ (forall (started : bool) (num_samples : Z) (latencies : list Q)
             (errs : list error_entry) (mem : Q) (m : PerformanceMetrics),
         DaemonPerformanceTester.benchmark_basic_operations
           started num_samples latencies errs mem = Ok m ->
         ((started = true /\ latencies <> []
           /\ throughput_ops_sec m * avg_latency_ms m == 1000)
          \/ ((started = false \/ latencies = [])
              /\ throughput_ops_sec m = 0 /\ avg_latency_ms m = 0))
         /\ (gt (throughput_ops_sec m) THROUGHPUT_TARGET_OPS_SEC = true ->
             lt (avg_latency_ms m) LATENCY_TARGET_MS = true)).
Proof.
  assert (P : forall (x : Q) (rest : list Q),
             0 < inject_Z (len (x :: rest))).
  { intros x rest. change 0 with (inject_Z 0).
    rewrite <- Zlt_Qlt, len_cons. unfold len. lia. }
  split.
  - intros num_samples [|x rest] errs mem m H.
    + right. injection H as <-. repeat split.
    + left. split; [discriminate|].
      destruct (cli_summary_inv _ _ _ _ _ _ H)
        as (N & _ & _ & -> & _ & _ & -> & _).
      specialize (P x rest).
      rewrite inject_Z_mult. change (inject_Z 3) with 3. field.
      split; [lra|]. intros Z0. apply N. rewrite Z0. reflexivity.
  - intros [|] num_samples latencies errs mem m H.
    + destruct latencies as [|x rest].
      * injection H as <-. split; [right; repeat split; now right|].
        discriminate.
      * destruct (daemon_summary_inv _ _ _ _ _ _ H)
          as (N & _ & _ & -> & _ & _ & -> & _).
        specialize (P x rest).
        set (n := inject_Z (len (x :: rest))) in *.
        set (s := sum (x :: rest)) in *.
        assert (S0 : ~ s == 0).
        { intros Z0. apply N. rewrite Z0. reflexivity. }
        split.
        -- left. split; [reflexivity|]. split; [discriminate|].
           field. split; lra.
        -- rewrite gt_true, lt_true.
           unfold THROUGHPUT_TARGET_OPS_SEC, LATENCY_TARGET_MS.
           intros K.
           assert (E : n / (s / 1000) == 1000 * (n / s)) by (field; lra).
           rewrite E in K.
           destruct (Qlt_le_dec 0 s) as [Ps|Ns].
           ++ assert (s < n).
              { assert (1 < n / s) by lra.
                assert (n == n / s * s) by (field; lra).
                assert (1 * s < n / s * s)
                  by (apply Qmult_lt_compat_r; lra).
                lra. }
              apply Qlt_shift_div_r; lra.
           ++ exfalso.
              assert (n / s <= 0).
              { assert (E2 : n / s == - (n / - s)) by (field; lra).
                rewrite E2.
                assert (0 <= n / - s) by (apply Qle_shift_div_l; lra).
                lra. }
              lra.
    + injection H as <-. split; [right; repeat split; now left|].
      discriminate.
Qed.

Lemma throughput_is_inverse_latency_witness :
  exists m,
    DaemonPerformanceTester.benchmark_basic_operations
      true 1 [2; 3; 1; 2] [] 20 = Ok m
    /\ throughput_ops_sec m * avg_latency_ms m == 1000.
Proof.
  eexists. split; [reflexivity|].
  destruct (proj2 throughput_is_inverse_latency true 1%Z [2; 3; 1; 2] [] 20
              _ eq_refl) as [[(_ & _ & E)|([A|A] & _)] _];
    [exact E|discriminate|discriminate].
Defined.

(** *** The sampling loop of the one-shot tester *)

Lemma sum_positive (l : list Q) :
  Forall (fun d => 0 < d) l -> l <> [] -> 0 < sum l.
Proof.
  induction 1 as [|x l P F IH]; intros NE; [congruence|].
  rewrite sum_cons. destruct l as [|y l].
  - unfold sum. simpl. lra.
  - assert (0 < sum (y :: l)) by (apply IH; discriminate). lra.
Qed.

Lemma max2_ge (a b : Q) : a <= max2 a b.
Proof. unfold max2, lt. destruct (Qlt_le_dec a b); lra. Qed.

Section CLILoop.

Import CLISampling.

Variable num_samples : Z.
Variable world : nat -> iteration.

Lemma cli_loop_progress_raises (n i : nat) (st : loop_state) :
  (0 < num_samples < 10)%Z -> (0 < n)%nat ->
  sampling_loop num_samples world n i st = Raise ZeroDivisionError.
Proof.
  intros H N. destruct n as [|n]; [lia|]. cbn [sampling_loop].
  rewrite Z.div_small by lia. reflexivity.
Qed.

Lemma cli_loop_completes (n : nat) :
  (10 <= num_samples)%Z ->
  (forall j, 0 < sequence_duration (world j)) ->
  forall i st,
    Forall (fun d => 0 < d) (latencies st) -> 0 <= memory_usage st ->
    exists st',
      sampling_loop num_samples world n i st = Ok st'
      /\ (len (latencies st') + len (errors st')
          = len (latencies st) + len (errors st) + Z.of_nat n)%Z
      /\ Forall (fun d => 0 < d) (latencies st')
      /\ 0 <= memory_usage st'.
Proof.
  intros H D. induction n as [|n IH]; intros i st P M.
  - exists st. repeat split; auto. lia.
  - cbn [sampling_loop].
    assert (E : (num_samples / 10 =? 0)%Z = false).
    { apply Z.eqb_neq. intros C. apply Z.div_small_iff in C; lia. }
    rewrite E.
    match goal with
    | |- context [sampling_loop _ _ n (S i) ?s] =>
        destruct (IH (S i) s) as (st' & L & C & P' & M')
    end.
    + cbn [latencies].
      destruct (run_operations operations 0 (outcome (world i))); [exact P|].
      apply Forall_app. split; [exact P|]. constructor; [apply D|constructor].
    + cbn [memory_usage]. pose proof (max2_ge (memory_usage st)
        (memory_after (world i) - memory_before (world i))). lra.
    + exists st'. split; [exact L|]. split; [|split; assumption].
      rewrite C. cbn [latencies errors].
      destruct (run_operations operations 0 (outcome (world i)));
        rewrite len_app, len_cons, len_nil; lia.
Qed.

End CLILoop.

Lemma cli_summary_total (num_samples : Z) (latencies : list Q)
    (errs : list error_entry) (mem : Q) :
  latencies <> [] -> 0 < sum latencies -> num_samples <> 0%Z ->
  exists m,
    CLIPerformanceTester.benchmark_basic_operations
      num_samples latencies errs mem = Ok m.
Proof.
  intros NE S N. destruct latencies as [|x rest]; [congruence|].
  destruct (statistics_ordered x rest)
    as (p50 & p95 & p99 & E50 & E95 & E99 & _).
  unfold CLIPerformanceTester.benchmark_basic_operations.
  rewrite E50, E95, E99. cbn [mean bind].
  rewrite truediv_ok by (apply div1000_nonzero; lra).
  rewrite truediv_ok by (now apply inject_Z_nonzero).
  cbn [bind]. now eexists.
Qed.

(** X9.  The one-shot [benchmark_basic_operations] raises ZeroDivisionError
    whenever it is asked for 1 to 9 samples: the progress line takes
    [(i + 1) % (num_samples // 10)], outside any try block, in the first
    iteration. *)
Theorem cli_benchmark_needs_ten_samples
    (self : CLIPerformanceTester.t) (temp_project : string)
    (num_samples : Z) (world : nat -> CLISampling.iteration) :
  (0 < num_samples < 10)%Z ->
  fst (CLISampling.benchmark_basic_operations
         self temp_project num_samples world)
  = Raise ZeroDivisionError.
Proof.
  intros H. unfold CLISampling.benchmark_basic_operations. cbn [fst].
  rewrite cli_loop_progress_raises by lia. reflexivity.
Qed.

Lemma cli_benchmark_needs_ten_samples_witness :
  fst (CLISampling.benchmark_basic_operations
         (PerformanceComparison.cli_tester comparison0) "/tmp/p.gox" 5
         cli_world0)
  = Raise ZeroDivisionError.
Proof. apply cli_benchmark_needs_ten_samples. lia. Defined.

(** X10.  With at least ten samples and positive measured durations the one-shot
    [benchmark_basic_operations] returns a summary in which every iteration
    is accounted for, as three operations or as one error entry:
    [operation_count + 3 * len(errors) = 3 * num_samples]; its success rate
    is 100 * operation_count / (3 * num_samples), within [0,100], and its
    memory figure is not negative. *)
Theorem cli_benchmark_accounting
    (self : CLIPerformanceTester.t) (temp_project : string)
    (num_samples : Z) (world : nat -> CLISampling.iteration) :
  (10 <= num_samples)%Z ->
  (forall j, 0 < CLISampling.sequence_duration (world j)) ->
  exists m,
    fst (CLISampling.benchmark_basic_operations
           self temp_project num_samples world) = Ok m
    /\ (operation_count m + 3 * len (errors m) = 3 * num_samples)%Z
    /\ 0 <= success_rate_percent m <= 100
    /\ success_rate_percent m * inject_Z (3 * num_samples)
       == 100 * inject_Z (operation_count m)
    /\ 0 <= memory_usage_mb m.
Proof.
  intros H D. unfold CLISampling.benchmark_basic_operations. cbn [fst].
  destruct (cli_loop_completes num_samples world (Z.to_nat num_samples) H D 0
              {| CLISampling.latencies := []; CLISampling.errors := [];
                 CLISampling.memory_usage := 0 |})
    as (st & -> & C & P & M); [constructor|cbn; lra|].
  cbn [bind]. cbn [CLISampling.latencies CLISampling.errors] in C.
  rewrite (@len_nil Q), (@len_nil error_entry) in C.
  destruct st as [lat errs mem]. cbn [CLISampling.latencies CLISampling.errors
    CLISampling.memory_usage] in *.
  assert (N : 10 <= inject_Z num_samples).
  { change 10 with (inject_Z 10). now rewrite <- Zle_Qle. }
  destruct lat as [|x rest].
  - eexists. split; [reflexivity|].
    cbn [operation_count errors success_rate_percent memory_usage_mb].
    rewrite len_nil in *. split; [lia|]. split; [lra|]. split; [ring|exact M].
  - destruct (cli_summary_total num_samples (x :: rest) errs mem
                ltac:(discriminate)) as [m E].
    + apply sum_positive; [exact P|discriminate].
    + lia.
    + exists m. split; [exact E|].
      destruct (cli_summary_inv _ _ _ _ _ _ E)
        as (_ & _ & _ & _ & _ & _ & _ & -> & -> & -> & ->).
      assert (L : 0 < inject_Z (len (x :: rest)) <= inject_Z num_samples).
      { split.
        - change 0 with (inject_Z 0). rewrite <- Zlt_Qlt, len_cons.
          unfold len. lia.
        - rewrite <- Zle_Qle. unfold len in *. lia. }
      split; [lia|]. split; [|split; [|exact M]].
      * split.
        -- apply Qmult_le_0_compat; [|lra].
           apply Qle_shift_div_l; lra.
        -- assert (inject_Z (len (x :: rest)) / inject_Z num_samples <= 1)
             by (apply Qle_shift_div_r; lra).
           lra.
      * rewrite !inject_Z_mult. change (inject_Z 3) with 3. field. lra.
Qed.

Lemma cli_benchmark_accounting_witness :
  exists m,
    fst (CLISampling.benchmark_basic_operations
           (PerformanceComparison.cli_tester comparison0) "/tmp/p.gox" 10
           cli_world0) = Ok m
    /\ (operation_count m + 3 * len (errors m) = 3 * 10)%Z
    /\ 0 <= success_rate_percent m <= 100
    /\ success_rate_percent m * inject_Z (3 * 10)
       == 100 * inject_Z (operation_count m)
    /\ 0 <= memory_usage_mb m.
Proof.
  apply cli_benchmark_accounting; [lia|].
  intros j. unfold cli_world0. destruct (Nat.even j); reflexivity.
Defined.

(** *** Calls that end in the except clause *)

Lemma transport_failure_response (self : DaemonPerformanceTester.t)
    (x : DaemonPerformanceTester.exchange) :
  transport_failure x ->
  exists e,
    fst (DaemonPerformanceTester.send_json_rpc self x)
    = (DEFAULT_TIMEOUT * 1000, false, DaemonPerformanceTester.error_response e).
Proof.
  destruct x as [e|d [| |r]]; cbn; intros H; try contradiction;
    eexists; reflexivity.
Qed.

Lemma error_response_unreadable (e : exn) :
  (error <- get (DaemonPerformanceTester.error_response e) "error" (JObj []) ;;
   get error "message" (JStr "Unknown error"))
  = Raise AttributeError.
Proof. reflexivity. Qed.

Lemma get_raises_attribute_error (v : json) (k : string) (d : json) (e : exn) :
  get v k d = Raise e -> e = AttributeError.
Proof. destruct v; cbn; congruence. Qed.

Lemma get_chain_raises_attribute_error (response : json) (e : exn) :
  (error <- get response "error" (JObj []) ;;
   get error "message" (JStr "Unknown error")) = Raise e ->
  e = AttributeError.
Proof.
  destruct (get response "error" (JObj [])) as [v|e'] eqn:G; cbn [bind].
  - apply get_raises_attribute_error.
  - intros [= <-]. eapply get_raises_attribute_error; eassumption.
Qed.

Lemma client_worker_loop_raises (client_id : Z)
    (xs : list DaemonPerformanceTester.exchange) :
  forall self latencies errors e,
    fst (DaemonPerformanceTester.client_worker_loop
           self client_id xs latencies errors) = Raise e ->
    e = AttributeError.
Proof.
  induction xs as [|x xs IH]; intros self lat errs e H.
  - discriminate.
  - cbn [DaemonPerformanceTester.client_worker_loop] in H.
    destruct (DaemonPerformanceTester.send_json_rpc self x)
      as [[[d success] response] s1].
    destruct success; [eapply IH; eassumption|].
    destruct (bind (get response "error" (JObj [])) _) as [msg|e'] eqn:G.
    + eapply IH; eassumption.
    + cbn in H. injection H as <-.
      eapply get_chain_raises_attribute_error; eassumption.
Qed.

Lemma client_worker_loop_transport_failure (client_id : Z)
    (xs : list DaemonPerformanceTester.exchange) :
  Exists transport_failure xs ->
  forall self latencies errors,
    fst (DaemonPerformanceTester.client_worker_loop
           self client_id xs latencies errors) = Raise AttributeError.
Proof.
  induction xs as [|x xs IH]; intros H self lat errs.
  - inversion H.
  - cbn [DaemonPerformanceTester.client_worker_loop].
    destruct (DaemonPerformanceTester.send_json_rpc self x)
      as [[[d success] response] s1] eqn:S.
    inversion H as [? ? T|? ? T]; subst.
    + destruct (transport_failure_response self x T) as [e E].
      rewrite S in E. cbn [fst] in E. injection E as -> -> ->.
      rewrite error_response_unreadable. reflexivity.
    + destruct success; [now apply IH|].
      destruct (bind (get response "error" (JObj [])) _) as [msg|e'] eqn:G.
      * now apply IH.
      * apply get_chain_raises_attribute_error in G. now subst.
Qed.

(** X11.  A client worker whose exchanges include one that fails below JSON-RPC
    (socket error, timeout or unreadable reply) ends in AttributeError and
    returns nothing: [send_json_rpc] hands back the exception as the reply
    and the worker calls [.get] on it. *)
Theorem worker_dies_on_transport_failure
    (self : DaemonPerformanceTester.t) (client_id : Z)
    (xs : list DaemonPerformanceTester.exchange) :
  Exists transport_failure xs ->
  fst (DaemonPerformanceTester.client_worker self client_id xs)
  = Raise AttributeError.
Proof.
  intros H. unfold DaemonPerformanceTester.client_worker.
  now apply client_worker_loop_transport_failure.
Qed.

Lemma worker_dies_on_transport_failure_witness :
  fst (DaemonPerformanceTester.client_worker daemon0 3
         [DaemonPerformanceTester.Received 5
            (DaemonPerformanceTester.Document reply_ok);
          DaemonPerformanceTester.SocketRaised OSError;
          DaemonPerformanceTester.Received 4
            (DaemonPerformanceTester.Document reply_ok)])
  = Raise AttributeError.
Proof.
  apply worker_dies_on_transport_failure.
  apply Exists_cons_tl, Exists_cons_hd. exact I.
Defined.

Lemma run_clients_all_die (threads : list (Z * list DaemonPerformanceTester.exchange)) :
  Forall (fun th => Exists transport_failure (snd th)) threads ->
  forall self, fst (DaemonPerformanceTester.run_clients self threads) = [].
Proof.
  induction 1 as [|[id xs] threads T F IH]; intros self; [reflexivity|].
  cbn [DaemonPerformanceTester.run_clients].
  pose proof (client_worker_loop_transport_failure id xs T self [] []) as W.
  unfold DaemonPerformanceTester.client_worker.
  destruct (DaemonPerformanceTester.client_worker_loop self id xs [] [])
    as [r s1].
  cbn [fst] in W. subst r.
  specialize (IH s1).
  destruct (DaemonPerformanceTester.run_clients s1 threads) as [rs s2].
  exact IH.
Qed.

(** X12.  When every client of a concurrent run meets a transport failure, the
    merged summary is still returned and shows no trace of it: zero
    operations, a success rate of 0 and an empty error list. *)
Theorem transport_failures_leave_no_trace
    (self : DaemonPerformanceTester.t) (num_clients operations_per_client : Z)
    (threads : list (Z * list DaemonPerformanceTester.exchange))
    (total_test_time daemon_memory : Q) :
  Forall (fun th => Exists transport_failure (snd th)) threads ->
  fst (DaemonPerformanceTester.benchmark_concurrent_clients self true
         num_clients operations_per_client threads
         total_test_time daemon_memory)
  = Ok (silent_summary num_clients total_test_time daemon_memory).
Proof.
  intros H. unfold DaemonPerformanceTester.benchmark_concurrent_clients.
  cbn [negb].
  pose proof (run_clients_all_die threads H self) as R.
  destruct (DaemonPerformanceTester.run_clients self threads) as [rs s1].
  cbn [fst] in R. subst rs. reflexivity.
Qed.

Lemma transport_failures_leave_no_trace_witness :
  fst (DaemonPerformanceTester.benchmark_concurrent_clients daemon0 true
         2 1
         [(0%Z, [DaemonPerformanceTester.SocketRaised OSError]);
          (1%Z, [DaemonPerformanceTester.Received 3
                   DaemonPerformanceTester.InvalidJSON])]
         60000 20)
  = Ok (silent_summary 2 60000 20).
Proof.
  apply transport_failures_leave_no_trace.
  repeat constructor.
Defined.

(** *** The sampling loop of the daemon tester *)

Lemma well_formed_call (self : DaemonPerformanceTester.t)
    (x : DaemonPerformanceTester.exchange) :
  well_formed x ->
  exists d success response,
    fst (DaemonPerformanceTester.send_json_rpc self x) = (d, success, response)
    /\ 0 < d
    /\ (success = false ->
        exists msg,
          (error <- get response "error" (JObj []) ;;
           get error "message" (JStr "Unknown error")) = Ok msg).
Proof.
  destruct x as [e|d [| |r]]; cbn [well_formed]; try contradiction.
  - intros P. exists d, false, (JObj []). repeat split; auto.
    intros _. now eexists.
  - destruct r as [| | | | |members]; try contradiction.
    intros [P W].
    unfold DaemonPerformanceTester.send_json_rpc,
      DaemonPerformanceTester.success_of.
    cbn [fst bind contains subscript].
    destruct (lookup "result" members) as [v|] eqn:R.
    + cbn [bind]. exists d, true, (JObj members). repeat split; auto.
      discriminate.
    + cbn [bind].
      destruct W as [W|[W|(e & code & W1 & W2)]]; [congruence| |].
      * rewrite W. cbn [bind]. exists d, false, (JObj members).
        repeat split; auto. intros _. cbn [get]. rewrite W. now eexists.
      * rewrite W1. cbn [bind subscript]. rewrite W2. cbn [bind].
        exists d, (ne_number code (-32700)), (JObj members).
        repeat split; auto. intros _. cbn [get bind]. rewrite W1.
        cbn [bind get]. now eexists.
Qed.

Section DaemonLoop.

Import DaemonSampling.

Variable num_samples : Z.
Variable world : nat -> iteration.

Lemma run_sequence_well_formed (xs : nat -> DaemonPerformanceTester.exchange)
    (ops : list string) :
  (forall k, well_formed (xs k)) ->
  forall self k acc,
    Forall (fun d => 0 < d) acc ->
    exists seq failure self',
      run_sequence self ops k xs acc = (Ok (seq, failure), self')
      /\ (failure = None ->
          Forall (fun d => 0 < d) seq
          /\ len seq = (len acc + len ops)%Z).
Proof.
  intros W. induction ops as [|method ops IH]; intros self k acc P.
  - exists acc, None, self. split; [reflexivity|]. intros _.
    split; [exact P|]. rewrite len_nil. lia.
  - cbn [run_sequence].
    destruct (well_formed_call self (xs k) (W k)) as (d & s & r & E & D & G).
    destruct (DaemonPerformanceTester.send_json_rpc self (xs k)) as [t s1].
    cbn [fst] in E. subst t.
    assert (P' : Forall (fun d => 0 < d) (acc ++ [d])).
    { apply Forall_app. split; [exact P|]. now repeat constructor. }
    destruct s.
    + destruct (IH s1 (S k) (acc ++ [d]) P') as (seq & f & s2 & R & K).
      exists seq, f, s2. split; [exact R|]. intros N.
      destruct (K N) as [K1 K2]. split; [exact K1|].
      rewrite K2, len_app, !len_cons, len_nil. lia.
    + destruct (G eq_refl) as [msg ->].
      eexists _, _, _. split; [reflexivity|]. discriminate.
Qed.

Lemma daemon_loop_completes (n : nat) :
  (10 <= num_samples)%Z ->
  (forall i k, well_formed (exchange_of (world i) k)) ->
  forall self i st,
    Forall (fun d => 0 < d) (latencies st) ->
    exists st' self',
      sampling_loop self num_samples world n i st = (Ok st', self')
      /\ (len (latencies st') + 4 * len (errors st')
          = len (latencies st) + 4 * len (errors st) + 4 * Z.of_nat n)%Z
      /\ Forall (fun d => 0 < d) (latencies st').
Proof.
  intros H W. induction n as [|n IH]; intros self i st P.
  - exists st, self. repeat split; auto. lia.
  - cbn [sampling_loop].
    destruct (run_sequence_well_formed (exchange_of (world i)) operations
                (W i) self 0%nat [] ltac:(constructor))
      as (seq & f & s1 & -> & K).
    assert (E : (num_samples / 10 =? 0)%Z = false).
    { apply Z.eqb_neq. intros C. apply Z.div_small_iff in C; lia. }
    rewrite E.
    match goal with
    | |- context [sampling_loop s1 _ _ n (S i) ?s] =>
        destruct (IH s1 (S i) s) as (st' & s2 & L & C & P')
    end.
    + cbn [latencies]. destruct f; [exact P|].
      apply Forall_app. split; [exact P|]. now apply K.
    + exists st', s2. split; [exact L|]. split; [|exact P'].
      rewrite C. cbn [latencies errors]. destruct f.
      * unfold len. rewrite length_app. simpl length. lia.
      * destruct (K eq_refl) as [_ K2]. revert K2. unfold len, operations.
        rewrite length_app. simpl length. lia.
Qed.

Lemma daemon_loop_few_samples (self : DaemonPerformanceTester.t)
    (n i : nat) (st : loop_state) :
  (0 < num_samples < 10)%Z -> (0 < n)%nat ->
  exists e, fst (sampling_loop self num_samples world n i st) = Raise e.
Proof.
  intros H N. destruct n as [|n]; [lia|]. cbn [sampling_loop].
  destruct (run_sequence self operations 0 (exchange_of (world i)) [])
    as [[[seq f]|e] s1].
  - rewrite Z.div_small by lia. now eexists.
  - now eexists.
Qed.

Lemma run_sequence_first_failure (self : DaemonPerformanceTester.t)
    (xs : nat -> DaemonPerformanceTester.exchange) (method : string)
    (ops : list string) (k : nat) (acc : list Q) :
  transport_failure (xs k) ->
  fst (run_sequence self (method :: ops) k xs acc) = Raise AttributeError.
Proof.
  intros T. cbn [run_sequence].
  destruct (transport_failure_response self (xs k) T) as [e E].
  destruct (DaemonPerformanceTester.send_json_rpc self (xs k)) as [t s1].
  cbn [fst] in E. subst t. rewrite error_response_unreadable. reflexivity.
Qed.

End DaemonLoop.

Lemma daemon_summary_total (num_samples : Z) (latencies : list Q)
    (errs : list error_entry) (mem : Q) :
  latencies <> [] -> 0 < sum latencies -> num_samples <> 0%Z ->
  exists m,
    DaemonPerformanceTester.benchmark_basic_operations
      true num_samples latencies errs mem = Ok m.
Proof.
  intros NE S N. destruct latencies as [|x rest]; [congruence|].
  destruct (statistics_ordered x rest)
    as (p50 & p95 & p99 & E50 & E95 & E99 & _).
  unfold DaemonPerformanceTester.benchmark_basic_operations.
  change DaemonPerformanceTester._percentile
    with CLIPerformanceTester._percentile.
  rewrite E50, E95, E99. cbn [mean bind negb].
  rewrite truediv_ok by (apply div1000_nonzero; lra).
  rewrite truediv_ok
    by (apply inject_Z_nonzero;
        unfold DaemonPerformanceTester.len_operations; lia).
  cbn [bind]. now eexists.
Qed.

(** X13.  The daemon [benchmark_basic_operations], with the daemon started, raises
    an exception whenever it is asked for 1 to 9 samples, whatever the
    daemon answers. *)
Theorem daemon_benchmark_needs_ten_samples
    (self : DaemonPerformanceTester.t) (num_samples : Z)
    (initial_memory : option Q) (world : nat -> DaemonSampling.iteration) :
  (0 < num_samples < 10)%Z ->
  exists e,
    fst (DaemonSampling.benchmark_basic_operations
           self true num_samples initial_memory world) = Raise e.
Proof.
  intros H. unfold DaemonSampling.benchmark_basic_operations. cbn [negb].
  match goal with
  | |- context [DaemonSampling.sampling_loop self num_samples world ?n 0 ?s] =>
      destruct (daemon_loop_few_samples num_samples world self n 0%nat s H
                  ltac:(lia)) as [e E];
      destruct (DaemonSampling.sampling_loop self num_samples world n 0 s)
        as [r s1]
  end.
  cbn [fst] in E. subst r. now exists e.
Qed.

(** X14.  If the very first call of the daemon benchmark fails below JSON-RPC, the
    whole [benchmark_basic_operations] ends in AttributeError instead of
    recording the failure in its error list. *)
Theorem daemon_benchmark_aborts_on_transport_failure
    (self : DaemonPerformanceTester.t) (num_samples : Z)
    (initial_memory : option Q) (world : nat -> DaemonSampling.iteration) :
  (0 < num_samples)%Z ->
  transport_failure (DaemonSampling.exchange_of (world 0%nat) 0%nat) ->
  fst (DaemonSampling.benchmark_basic_operations
         self true num_samples initial_memory world)
  = Raise AttributeError.
Proof.
  intros H T. unfold DaemonSampling.benchmark_basic_operations. cbn [negb].
  destruct (Z.to_nat num_samples) as [|n] eqn:N; [lia|].
  cbn [DaemonSampling.sampling_loop].
  pose proof (run_sequence_first_failure self
                (DaemonSampling.exchange_of (world 0%nat))
                "goxel.create_project"
                ["goxel.add_voxel"; "goxel.get_voxel"; "goxel.get_status"]%string
                0%nat [] T) as R.
  fold DaemonSampling.operations in R.
  destruct (DaemonSampling.run_sequence self DaemonSampling.operations 0
              (DaemonSampling.exchange_of (world 0%nat)) []) as [r s1].
  cbn [fst] in R. subst r. reflexivity.
Qed.

(** X15.  With at least ten samples and a started daemon whose every reply
    arrives in positive time and is empty or a JSON object that has a
    result member, or no error member, or an error member that is an
    object with a code, the daemon [benchmark_basic_operations] returns a
    summary in which every iteration is accounted for, as four operations
    or as one error entry:
    [operation_count + 4 * len(errors) = 4 * num_samples]; its success rate
    is 100 * operation_count / (4 * num_samples), within [0,100]. *)
Theorem daemon_benchmark_accounting
    (self : DaemonPerformanceTester.t) (num_samples : Z)
    (initial_memory : option Q) (world : nat -> DaemonSampling.iteration) :
  (10 <= num_samples)%Z ->
  (forall i k, well_formed (DaemonSampling.exchange_of (world i) k)) ->
  exists m,
    fst (DaemonSampling.benchmark_basic_operations
           self true num_samples initial_memory world) = Ok m
    /\ (operation_count m + 4 * len (errors m) = 4 * num_samples)%Z
    /\ 0 <= success_rate_percent m <= 100
    /\ success_rate_percent m * inject_Z (4 * num_samples)
       == 100 * inject_Z (operation_count m).
Proof.
  intros H W. unfold DaemonSampling.benchmark_basic_operations. cbn [negb].
  match goal with
  | |- context [DaemonSampling.sampling_loop self num_samples world ?n 0 ?s] =>
      destruct (daemon_loop_completes num_samples world n H W self 0%nat s
                  ltac:(constructor)) as (st & s1 & -> & C & P)
  end.
  cbn [fst]. cbn [DaemonSampling.latencies DaemonSampling.errors] in C.
  rewrite (@len_nil Q), (@len_nil error_entry) in C.
  destruct st as [lat errs mem]. cbn [DaemonSampling.latencies
    DaemonSampling.errors DaemonSampling.daemon_memory] in *.
  assert (N : 10 <= inject_Z num_samples).
  { change 10 with (inject_Z 10). now rewrite <- Zle_Qle. }
  destruct lat as [|x rest].
  - eexists. split; [reflexivity|].
    cbn [operation_count errors success_rate_percent].
    rewrite len_nil in *. split; [lia|]. split; [lra|ring].
  - destruct (daemon_summary_total num_samples (x :: rest) errs mem
                ltac:(discriminate)) as [m E].
    + apply sum_positive; [exact P|discriminate].
    + lia.
    + exists m. split; [exact E|].
      destruct (daemon_summary_inv _ _ _ _ _ _ E)
        as (_ & _ & _ & _ & _ & _ & _ & -> & -> & -> & _).
      assert (L : 0 < inject_Z (len (x :: rest))
                  <= inject_Z (num_samples * 4)).
      { split.
        - change 0 with (inject_Z 0). rewrite <- Zlt_Qlt, len_cons.
          unfold len. lia.
        - rewrite <- Zle_Qle. unfold len in *. lia. }
      assert (N4 : 40 <= inject_Z (num_samples * 4)).
      { change 40 with (inject_Z 40). rewrite <- Zle_Qle. lia. }
      split; [lia|]. split.
      * split.
        -- apply Qmult_le_0_compat; [|lra].
           apply Qle_shift_div_l; lra.
        -- assert (inject_Z (len (x :: rest)) / inject_Z (num_samples * 4)
                   <= 1) by (apply Qle_shift_div_r; lra).
           lra.
      * replace (4 * num_samples)%Z with (num_samples * 4)%Z by lia.
        field. lra.
Qed.

(** *** The assessment and the exit code *)

(** X16.  The verdict that [print_comparison_summary] prints and the exit code of
    [main] disagree in one direction only: a printed "all targets met"
    implies exit code 0, and with exit code 0 the printed verdict is
    positive exactly when the concurrent run had at least 10 clients, a
    condition the exit code does not look at. *)
Theorem printed_verdict_and_exit_code
    (comparison : ComparisonResults) (concurrent : PerformanceMetrics) :
  (Assessment.all_targets_met_printed comparison concurrent = true ->
   Assessment.exit_code comparison concurrent = 0%Z)
  /\ (Assessment.exit_code comparison concurrent = 0%Z ->
      (Assessment.all_targets_met_printed comparison concurrent = true
       <-> (CONCURRENT_CLIENTS_TARGET <= concurrent_clients concurrent)%Z)).
Proof.
  unfold Assessment.all_targets_met_printed, Assessment.exit_code,
    Assessment.concurrent_success.
  destruct (all_values (targets_met comparison)),
    (ge (success_rate_percent concurrent) 95); cbn;
    rewrite ?andb_true_r, ?andb_false_r; split; try discriminate; auto;
    intros _; rewrite ?Z.leb_le; split; auto; discriminate.
Qed.

(** What a returned comparison holds. *)
Lemma comparison_inv (self : PerformanceComparison.t)
    (cli daemon : PerformanceMetrics) (r : ComparisonResults) :
  fst (PerformanceComparison._calculate_comparison self cli daemon) = Ok r ->
  targets_met r
  = [("latency_target"%string, lt (avg_latency_ms daemon) LATENCY_TARGET_MS);
     ("throughput_target"%string,
      gt (throughput_ops_sec daemon) THROUGHPUT_TARGET_OPS_SEC);
     ("memory_target"%string, lt (memory_usage_mb daemon) MEMORY_TARGET_MB);
     ("improvement_target"%string,
      gt (improvement_factor r) (IMPROVEMENT_TARGET_PERCENT / 100))]
  /\ (0 < avg_latency_ms cli ->
      ~ avg_latency_ms daemon == 0
      /\ improvement_factor r = avg_latency_ms cli / avg_latency_ms daemon)
  /\ (avg_latency_ms cli <= 0 -> improvement_factor r = 0).
Proof.
  intros H.
  destruct (Qlt_le_dec 0 (avg_latency_ms cli)) as [P|P].
  - destruct (Qeq_dec (avg_latency_ms daemon) 0) as [D|D].
    + rewrite (comparison_candidate_zero self cli daemon P D) in H.
      discriminate.
    + unfold PerformanceComparison._calculate_comparison in H.
      rewrite (proj2 (gt_true _ _) P) in H.
      rewrite (truediv_ok _ _ D), truediv_ok in H by lra. cbn [bind] in H.
      destruct (guarded_ratio_ok
                  (throughput_ops_sec daemon - throughput_ops_sec cli)
                  (throughput_ops_sec cli)) as [t T]. rewrite T in H.
      destruct (guarded_ratio_ok
                  (memory_usage_mb cli - memory_usage_mb daemon)
                  (memory_usage_mb cli)) as [u U]. rewrite U in H.
      cbn [bind fst] in H. injection H as <-. cbn.
      split; [reflexivity|]. split; [auto|]. intros C. lra.
  - unfold PerformanceComparison._calculate_comparison in H.
    rewrite (proj2 (gt_false _ _) P) in H. cbn [bind] in H.
    destruct (guarded_ratio_ok
                (throughput_ops_sec daemon - throughput_ops_sec cli)
                (throughput_ops_sec cli)) as [t T]. rewrite T in H.
    destruct (guarded_ratio_ok
                (memory_usage_mb cli - memory_usage_mb daemon)
                (memory_usage_mb cli)) as [u U]. rewrite U in H.
    cbn [bind fst] in H. injection H as <-. cbn.
    split; [reflexivity|]. split; [intros C; lra|reflexivity].
Qed.

(** X17.  For a comparison computed by [_calculate_comparison], [main] exits
    with 0 only if the daemon's average latency is positive and the
    one-shot average latency is more than 7 times it, the daemon's average
    latency is below 2.1 ms, its throughput above 1000 ops/s, its memory
    below 50 MB, and the concurrent success rate at least 95%. *)
Theorem exit_code_zero_requires
    (self : PerformanceComparison.t) (cli daemon concurrent : PerformanceMetrics)
    (r : ComparisonResults) :
  fst (PerformanceComparison._calculate_comparison self cli daemon) = Ok r ->
  Assessment.exit_code r concurrent = 0%Z ->
  0 < avg_latency_ms daemon
  /\ 7 * avg_latency_ms daemon < avg_latency_ms cli
  /\ avg_latency_ms daemon < 21 # 10
  /\ 1000 < throughput_ops_sec daemon
  /\ memory_usage_mb daemon < 50
  /\ 95 <= success_rate_percent concurrent.
Proof.
  intros H. destruct (comparison_inv self cli daemon r H) as (T & A & B).
  unfold Assessment.exit_code. rewrite T. unfold all_values.
  cbn [forallb snd].
  assert (S7 : IMPROVEMENT_TARGET_PERCENT / 100 == 7) by reflexivity.
  unfold LATENCY_TARGET_MS, THROUGHPUT_TARGET_OPS_SEC, MEMORY_TARGET_MB.
  destruct (lt (avg_latency_ms daemon) (21 # 10)) eqn:E1;
    [apply lt_true in E1|discriminate].
  destruct (gt (throughput_ops_sec daemon) 1000) eqn:E2;
    [apply gt_true in E2|discriminate].
  destruct (lt (memory_usage_mb daemon) 50) eqn:E3;
    [apply lt_true in E3|discriminate].
  destruct (gt (improvement_factor r) (IMPROVEMENT_TARGET_PERCENT / 100))
    eqn:E4; [apply gt_true in E4; rewrite S7 in E4|discriminate].
  destruct (ge (success_rate_percent concurrent) 95) eqn:E5;
    [apply ge_true in E5|discriminate].
  intros _.
  destruct (Qlt_le_dec 0 (avg_latency_ms cli)) as [P|P];
    [|rewrite (B P) in E4; lra].
  destruct (A P) as [N F]. rewrite F in E4.
  set (c := avg_latency_ms cli) in *. set (d := avg_latency_ms daemon) in *.
  assert (D : 0 < d).
  { destruct (Qlt_le_dec 0 d) as [D|D]; [exact D|]. exfalso.
    assert (D' : 0 < - d) by (destruct (Qeq_dec d 0); [contradiction|lra]).
    assert (E : c / d == - (c / - d)) by (field; lra).
    assert (0 < c / - d) by (apply Qlt_shift_div_l; lra).
    lra. }
  assert (C : 7 * d < c).
  { assert (E : c == c / d * d) by (field; lra).
    assert (7 * d < c / d * d) by (apply Qmult_lt_compat_r; lra).
    lra. }
  repeat split; assumption.
Qed.

Lemma daemon_world0_well_formed (i k : nat) :
  well_formed (DaemonSampling.exchange_of (daemon_world0 i) k).
Proof.
  unfold daemon_world0. destruct (Nat.even i); cbn.
  - split; [reflexivity|]. left. discriminate.
  - destruct k as [|[|[|k]]]; cbn; (split; [reflexivity|]);
      try (left; discriminate).
    right. right. eexists _, _. split; reflexivity.
Qed.

Lemma daemon_benchmark_needs_ten_samples_witness :
  exists e,
    fst (DaemonSampling.benchmark_basic_operations
           daemon0 true 9 (Some 18) daemon_world0) = Raise e.
Proof. apply daemon_benchmark_needs_ten_samples. lia. Defined.

Lemma daemon_benchmark_aborts_on_transport_failure_witness :
  fst (DaemonSampling.benchmark_basic_operations
         daemon0 true 100 (Some 18) (fun _ => socket_refused))
  = Raise AttributeError.
Proof.
  apply daemon_benchmark_aborts_on_transport_failure; [lia|exact I].
Defined.

Lemma daemon_benchmark_accounting_witness :
  exists m,
    fst (DaemonSampling.benchmark_basic_operations
           daemon0 true 10 (Some 18) daemon_world0) = Ok m
    /\ (operation_count m + 4 * len (errors m) = 4 * 10)%Z
    /\ 0 <= success_rate_percent m <= 100
    /\ success_rate_percent m * inject_Z (4 * 10)
       == 100 * inject_Z (operation_count m).
Proof.
  apply daemon_benchmark_accounting; [lia|].
  apply daemon_world0_well_formed.
Defined.

Lemma printed_verdict_and_exit_code_witness :
  Assessment.all_targets_met_printed comparison_passing
    (summary_of 3 500 20 100 5) = true
  <-> (CONCURRENT_CLIENTS_TARGET <= 5)%Z.
Proof.
  apply (proj2 (printed_verdict_and_exit_code comparison_passing
                  (summary_of 3 500 20 100 5))).
  reflexivity.
Defined.

Lemma exit_code_zero_requires_witness :
  7 * (1 # 2) < 10 /\ 1000 < 2000.
Proof.
  destruct (exit_code_zero_requires comparison0 (summary_of 10 100 30 100 1)
              (summary_of (1 # 2) 2000 20 100 1) (summary_of 3 500 20 100 10)
              _ eq_refl eq_refl) as (_ & A & _ & B & _).
  split; [exact A|exact B].
Defined.

(** *** A comparison without a daemon *)

(** X18.  When the daemon failed to start and the one-shot benchmark returned a
    summary, [run_basic_comparison] raises ZeroDivisionError if the
    one-shot average latency is positive (the daemon's empty summary has
    latency 0); otherwise it returns a comparison whose latency and memory
    targets count as met, and [main] exits with 1. *)
Theorem comparison_without_daemon
    (self : PerformanceComparison.t) (temp_project : string) (num_samples : Z)
    (cli_world : nat -> CLISampling.iteration) (initial_memory : option Q)
    (daemon_world : nat -> DaemonSampling.iteration) (c : PerformanceMetrics) :
  fst (CLISampling.benchmark_basic_operations
         (PerformanceComparison.cli_tester self) temp_project num_samples
         cli_world) = Ok c ->
  (0 < avg_latency_ms c ->
   fst (Assessment.run_basic_comparison self temp_project num_samples
          cli_world false initial_memory daemon_world)
   = Raise ZeroDivisionError)
  /\ (avg_latency_ms c <= 0 ->
      exists r,
        fst (Assessment.run_basic_comparison self temp_project num_samples
               cli_world false initial_memory daemon_world) = Ok r
        /\ targets_met r
           = [("latency_target", true); ("throughput_target", false);
              ("memory_target", true); ("improvement_target", false)]%string
        /\ forall concurrent, Assessment.exit_code r concurrent = 1%Z).
Proof.
  intros H. unfold Assessment.run_basic_comparison.
  destruct (CLISampling.benchmark_basic_operations _ _ _ _) as [res s1].
  cbn [fst] in H. subst res.
  unfold DaemonSampling.benchmark_basic_operations. cbn [negb].
  change (DaemonPerformanceTester.benchmark_basic_operations
            false num_samples [] [] 0)
    with (Ok (DaemonPerformanceTester.not_started "Daemon_Basic_Operations" 1)).
  cbv iota beta.
  set (self' := {| PerformanceComparison.cli_tester := s1;
                   PerformanceComparison.daemon_tester :=
                     PerformanceComparison.daemon_tester self |}).
  set (d := DaemonPerformanceTester.not_started "Daemon_Basic_Operations" 1).
  split.
  - intros P.
    now rewrite (comparison_candidate_zero self' c d P ltac:(reflexivity)).
  - intros Z0.
    destruct (comparison_baseline_zero self' c d Z0) as (r & E & F).
    exists r. rewrite E. split; [reflexivity|].
    assert (E' : fst (PerformanceComparison._calculate_comparison self' c d)
                 = Ok r) by (now rewrite E).
    destruct (comparison_inv self' c d r E') as (T & _ & _).
    rewrite F in T. split; [exact T|].
    intros concurrent. unfold Assessment.exit_code. rewrite T. reflexivity.
Qed.

Lemma comparison_without_daemon_witness :
  fst (Assessment.run_basic_comparison comparison0 "/tmp/p.gox" 10
         cli_world0 false None daemon_world0)
  = Raise ZeroDivisionError.
Proof.
  let c := eval vm_compute in
    (fst (CLISampling.benchmark_basic_operations
            (PerformanceComparison.cli_tester comparison0) "/tmp/p.gox" 10
            cli_world0)) in
  match c with
  | Ok ?m =>
      refine (proj1 (comparison_without_daemon comparison0 "/tmp/p.gox" 10
                       cli_world0 None daemon_world0 m _) _)
  end.
  - vm_compute. reflexivity.
  - vm_compute. reflexivity.
Defined.

(** *** Metrics of a result *)

Lemma lookup_setitem_same {A : Type} (k : string) (v : A)
    (d : list (string * A)) :
  lookup k (setitem k v d) = Some v.
Proof.
  induction d as [|[k' v'] d IH]; cbn.
  - now rewrite String.eqb_refl.
  - destruct (String.eqb k k') eqn:E; cbn; rewrite E; [reflexivity|exact IH].
Qed.

Lemma lookup_setitem_other {A : Type} (k k0 : string) (v : A)
    (d : list (string * A)) :
  k0 <> k -> lookup k0 (setitem k v d) = lookup k0 d.
Proof.
  intros N. induction d as [|[k' v'] d IH]; cbn.
  - apply String.eqb_neq in N. now rewrite N.
  - destruct (String.eqb k k') eqn:E; cbn.
    + apply String.eqb_eq in E. subst k'.
      apply String.eqb_neq in N. now rewrite N.
    + now rewrite IH.
Qed.

Lemma keys_setitem {A : Type} (k : string) (v : A) (d : list (string * A)) :
  map fst (setitem k v d)
  = match lookup k d with
    | Some _ => map fst d
    | None => map fst d ++ [k]
    end.
Proof.
  induction d as [|[k' v'] d IH]; cbn; [reflexivity|].
  destruct (String.eqb k k') eqn:E; cbn; [reflexivity|].
  rewrite IH. now destruct (lookup k d).
Qed.

Lemma lookup_none_not_in {A : Type} (k : string) (d : list (string * A)) :
  lookup k d = None -> ~ In k (map fst d).
Proof.
  induction d as [|[k' v'] d IH]; cbn; [tauto|].
  destruct (String.eqb k k') eqn:E; [discriminate|].
  apply String.eqb_neq in E. intros H [C|C]; [congruence|now apply IH].
Qed.

(** [add_metric] behaves as an assignment in a dict. *)
Theorem add_metric_assigns
    (r : PerformanceReporter.BenchmarkResult) (key : string) (v : Q)
    (u : string) :
  let r' := ReporterResults.add_metric r key v u in
  lookup key (PerformanceReporter.metrics r')
  = Some {| PerformanceReporter.value := v; PerformanceReporter.unit := u |}
  /\ (forall k, k <> key ->
        lookup k (PerformanceReporter.metrics r')
        = lookup k (PerformanceReporter.metrics r))
  /\ map fst (PerformanceReporter.metrics r')
     = match lookup key (PerformanceReporter.metrics r) with
       | Some _ => map fst (PerformanceReporter.metrics r)
       | None => map fst (PerformanceReporter.metrics r) ++ [key]
       end
  /\ (NoDup (map fst (PerformanceReporter.metrics r)) ->
      NoDup (map fst (PerformanceReporter.metrics r'))).
Proof.
  cbn. split; [apply lookup_setitem_same|].
  split; [intros k N; now apply lookup_setitem_other|].
  split; [apply keys_setitem|].
  intros ND. rewrite keys_setitem.
  destruct (lookup key (PerformanceReporter.metrics r)) eqn:L; [exact ND|].
  apply NoDup_app; [exact ND|repeat constructor; intros []|].
  intros x Hx [<-|[]]. now apply (lookup_none_not_in _ _ L).
Qed.

Lemma add_metric_assigns_witness :
  NoDup (map fst (PerformanceReporter.metrics
                    (ReporterResults.add_metric (latency_result 3)
                       "avg_latency" 2 "ms"))).
Proof.
  apply (add_metric_assigns (latency_result 3) "avg_latency" 2 "ms").
  repeat constructor. intros [].
Defined.

(** *** Trends *)

Section Trend.

Import PerformanceReporter ReporterResults.

Lemma mean_ok (l : list Q) :
  l <> [] -> mean l = Ok (sum l / inject_Z (len l)).
Proof. destruct l; [congruence|reflexivity]. Qed.

Lemma trend_averages (values : list Q) :
  (2 <= len values)%Z ->
  exists recent older,
    (if (3 <=? len values)%Z
     then mean (skipn (length values - 3) values)
     else getitem values (-1)) = Ok recent
    /\ (if (3 <=? len values)%Z
        then mean (firstn 3 values)
        else getitem values 0) = Ok older
    /\ recent == recent_of values /\ older == older_of values.
Proof.
  intros L. unfold recent_of, older_of.
  destruct (3 <=? len values)%Z eqn:E.
  - apply Z.leb_le in E. unfold len in E.
    assert (L1 : length (skipn (length values - 3) values) = 3%nat)
      by (rewrite length_skipn; lia).
    assert (L2 : length (firstn 3 values) = 3%nat)
      by (rewrite length_firstn; lia).
    rewrite !mean_ok by (intros C; rewrite C in *; discriminate).
    unfold len. rewrite L1, L2. eexists _, _.
    split; [reflexivity|]. split; [reflexivity|]. split; reflexivity.
  - apply Z.leb_gt in E. unfold len in *.
    destruct values as [|a [|b [|c values]]]; cbn [length] in *; try lia.
    exists b, a. cbn. repeat split; reflexivity.
Qed.

Lemma metric_trend_inv (metric : string) (values : list Q) (e : trend_entry) :
  metric_trend metric values = Ok (Some e) ->
  (2 <= len values)%Z
  /\ recent_avg e == recent_of values
  /\ older_avg e == older_of values
  /\ ~ older_avg e == 0
  /\ trend e
     = (if lower_is_better metric then
          if lt (recent_avg e) (older_avg e) then "improving" else "degrading"
        else
          if gt (recent_avg e) (older_avg e) then "improving"
          else "degrading")%string
  /\ change_percent e
     = Qabs ((recent_avg e - older_avg e) / older_avg e * 100).
Proof.
  unfold metric_trend. destruct (2 <=? len values)%Z eqn:L; [|discriminate].
  apply Z.leb_le in L.
  destruct (trend_averages values L) as (recent & older & -> & -> & R & O).
  cbn [bind].
  destruct (truediv (recent - older) older) as [ratio|] eqn:T; [|discriminate].
  apply ReporterFacts.truediv_inv in T as [N ->].
  cbn [bind]. intros [= <-]. cbn. repeat split; auto.
Qed.

Lemma Qabs_pos (x : Q) : ~ x == 0 -> 0 < Qabs x.
Proof.
  intros N. apply Qabs_case; intros H.
  - destruct (Qeq_dec x 0); [contradiction|]. lra.
  - destruct (Qeq_dec x 0); [contradiction|]. lra.
Qed.

Lemma ratio_nonzero (a b : Q) : ~ a == 0 -> ~ b == 0 -> ~ a / b * 100 == 0.
Proof.
  intros A B C. apply A.
  assert (E : a == a / b * 100 * (b / 100)) by (field; exact B).
  rewrite E, C. ring.
Qed.

End Trend.

(** X19.  Every trend entry of [analyze_performance_trends] is "improving" or
    "degrading" with a non-negative change; "improving" entries have a
    positive change, and a metric whose recent and older averages are equal
    is reported as "degrading" with a change of 0. *)
Theorem trend_unchanged_is_degrading
    (metric : string) (values : list Q) (e : ReporterResults.trend_entry) :
  ReporterResults.metric_trend metric values = Ok (Some e) ->
  (ReporterResults.trend e = "improving"%string
   \/ ReporterResults.trend e = "degrading"%string)
  /\ 0 <= ReporterResults.change_percent e
  /\ (ReporterResults.trend e = "improving"%string ->
      0 < ReporterResults.change_percent e)
  /\ (ReporterResults.recent_avg e == ReporterResults.older_avg e ->
      ReporterResults.trend e = "degrading"%string
      /\ ReporterResults.change_percent e == 0).
Proof.
  intros H. destruct (metric_trend_inv _ _ _ H) as (_ & _ & _ & N & T & C).
  rewrite T, C.
  set (r := ReporterResults.recent_avg e) in *.
  set (o := ReporterResults.older_avg e) in *.
  split; [|split; [apply Qabs_nonneg|split]].
  - destruct (PerformanceReporter.lower_is_better metric);
      [destruct (lt r o)|destruct (gt r o)]; auto.
  - intros I. apply Qabs_pos, ratio_nonzero; [|exact N].
    intros Z0.
    destruct (PerformanceReporter.lower_is_better metric).
    + destruct (lt r o) eqn:E; [|discriminate]. apply lt_true in E. lra.
    + destruct (gt r o) eqn:E; [|discriminate]. apply gt_true in E. lra.
  - intros E. split.
    + destruct (PerformanceReporter.lower_is_better metric).
      * destruct (lt r o) eqn:L; [apply lt_true in L; lra|reflexivity].
      * destruct (gt r o) eqn:G; [apply gt_true in G; lra|reflexivity].
    + assert (Z0 : r - o == 0) by lra. rewrite Z0.
      assert (Z1 : 0 / o * 100 == 0) by (field; exact N).
      rewrite Z1. reflexivity.
Qed.

Lemma trend_unchanged_is_degrading_witness :
  exists e,
    ReporterResults.metric_trend "avg_throughput" [900; 900] = Ok (Some e)
    /\ ReporterResults.trend e = "degrading"%string
    /\ ReporterResults.change_percent e == 0.
Proof.
  eexists. split; [reflexivity|].
  apply (proj2 (proj2 (proj2 (trend_unchanged_is_degrading
                                "avg_throughput" [900; 900] _ eq_refl)))).
  reflexivity.
Defined.

(** X20.  With exactly three recorded values of a metric the recent window
    (the last three values) and the older window (the first three) are the
    same: when the values do not sum to zero the trend is "degrading" with
    a change of 0, whatever they are, and when they sum to zero the
    analysis raises ZeroDivisionError. *)
Theorem trend_of_three_values (metric : string) (values : list Q) :
  length values = 3%nat ->
  (~ sum values == 0 ->
   exists e,
     ReporterResults.metric_trend metric values = Ok (Some e)
     /\ ReporterResults.trend e = "degrading"%string
     /\ ReporterResults.change_percent e == 0)
  /\ (sum values == 0 ->
      ReporterResults.metric_trend metric values = Raise ZeroDivisionError).
Proof.
  intros L.
  destruct values as [|a [|b [|c [|d values]]]]; try discriminate.
  unfold ReporterResults.metric_trend. cbn [len length Z.of_nat Z.leb].
  cbn -[sum Qdiv truediv lt gt Qabs PerformanceReporter.lower_is_better].
  set (avg := sum [a; b; c] / inject_Z (len [a; b; c])).
  assert (E : sum [a; b; c] == avg * 3)
    by (unfold avg; change (inject_Z (len [a; b; c])) with 3; field).
  split; intros S.
  - assert (N : ~ avg == 0).
    { intros C. apply S. rewrite E, C. ring. }
    rewrite (truediv_ok _ _ N). cbn [bind].
    eexists. split; [reflexivity|].
    cbn [ReporterResults.trend ReporterResults.change_percent].
    change (sum [a; b; c] / inject_Z 3) with avg.
    assert (F1 : lt avg avg = false) by (apply (gt_false avg avg); lra).
    assert (F2 : gt avg avg = false) by (apply gt_false; lra).
    rewrite F1, F2. split.
    + now destruct (PerformanceReporter.lower_is_better metric).
    + assert (Z0 : (avg - avg) / avg * 100 == 0) by (field; exact N).
      rewrite Z0. reflexivity.
  - assert (Z0 : avg == 0) by lra.
    rewrite (truediv_zero _ _ Z0). reflexivity.
Qed.

Lemma trend_of_three_values_witness :
  (exists e,
      ReporterResults.metric_trend "avg_latency" [5; 3; 1] = Ok (Some e)
      /\ ReporterResults.trend e = "degrading"%string
      /\ ReporterResults.change_percent e == 0)
  /\ ReporterResults.metric_trend "avg_latency" [0; 0; 0]
     = Raise ZeroDivisionError.
Proof.
  split.
  - apply (proj1 (trend_of_three_values "avg_latency" [5; 3; 1] eq_refl)).
    discriminate.
  - apply (proj2 (trend_of_three_values "avg_latency" [0; 0; 0] eq_refl)).
    reflexivity.
Defined.

(** X21.  On the same series of values a latency metric and a throughput metric
    get the same change percentage and are never both "improving"; they
    are both "degrading" exactly when the recent and older averages are
    equal. *)
Theorem trend_polarity (values : list Q)
    (e1 e2 : ReporterResults.trend_entry) :
  ReporterResults.metric_trend "avg_latency" values = Ok (Some e1) ->
  ReporterResults.metric_trend "avg_throughput" values = Ok (Some e2) ->
  ReporterResults.change_percent e1 == ReporterResults.change_percent e2
  /\ ~ (ReporterResults.trend e1 = "improving"%string
        /\ ReporterResults.trend e2 = "improving"%string)
  /\ ((ReporterResults.trend e1 = "degrading"%string
       /\ ReporterResults.trend e2 = "degrading"%string)
      <-> ReporterResults.recent_avg e1 == ReporterResults.older_avg e1).
Proof.
  intros H1 H2.
  destruct (metric_trend_inv _ _ _ H1) as (_ & R1 & O1 & N1 & T1 & C1).
  destruct (metric_trend_inv _ _ _ H2) as (_ & R2 & O2 & N2 & T2 & C2).
  change (PerformanceReporter.lower_is_better "avg_latency") with true in T1.
  change (PerformanceReporter.lower_is_better "avg_throughput")
    with false in T2.
  rewrite T1, T2, C1, C2.
  set (r1 := ReporterResults.recent_avg e1) in *.
  set (o1 := ReporterResults.older_avg e1) in *.
  set (r2 := ReporterResults.recent_avg e2) in *.
  set (o2 := ReporterResults.older_avg e2) in *.
  assert (R : r1 == r2) by (rewrite R1, R2; reflexivity).
  assert (O : o1 == o2) by (rewrite O1, O2; reflexivity).
  split; [now rewrite R, O|].
  destruct (lt r1 o1) eqn:L; [apply lt_true in L|apply (gt_false o1) in L];
    (destruct (gt r2 o2) eqn:G; [apply gt_true in G|apply gt_false in G]).
  - lra.
  - split; [intros [_ C]; discriminate|]. split; [intros [C _]; discriminate|].
    lra.
  - split; [intros [C _]; discriminate|]. split; [intros [_ C]; discriminate|].
    lra.
  - split; [intros [C _]; discriminate|]. split; [lra|auto].
Qed.

Lemma trend_polarity_witness :
  exists e1 e2,
    ReporterResults.metric_trend "avg_latency" [4; 2] = Ok (Some e1)
    /\ ReporterResults.metric_trend "avg_throughput" [4; 2] = Ok (Some e2)
    /\ ReporterResults.change_percent e1 == ReporterResults.change_percent e2.
Proof.
  eexists _, _. split; [reflexivity|]. split; [reflexivity|].
  apply (trend_polarity [4; 2] _ _ eq_refl eq_refl).
Defined.

(** X22.  With at least two values, the trend of a metric raises
    ZeroDivisionError exactly when the average of the older window is 0;
    otherwise an entry is produced. *)
Theorem trend_zero_baseline (metric : string) (values : list Q) :
  (2 <= len values)%Z ->
  (ReporterResults.metric_trend metric values = Raise ZeroDivisionError
   <-> older_of values == 0)
  /\ (~ older_of values == 0 ->
      exists e, ReporterResults.metric_trend metric values = Ok (Some e)).
Proof.
  intros L. unfold ReporterResults.metric_trend.
  rewrite (proj2 (Z.leb_le _ _) L).
  destruct (trend_averages values L) as (recent & older & -> & -> & R & O).
  cbn [bind]. rewrite <- O.
  destruct (Qeq_dec older 0) as [Z0|N].
  - rewrite (truediv_zero _ _ Z0). cbn [bind]. split; [tauto|contradiction].
  - rewrite (truediv_ok _ _ N). cbn [bind]. split.
    + split; [discriminate|contradiction].
    + intros _. now eexists.
Qed.

Lemma trend_zero_baseline_witness :
  ReporterResults.metric_trend "improvement_ratio" [0; 7] = Raise ZeroDivisionError
  <-> older_of [0; 7] == 0.
Proof.
  apply (proj1 (trend_zero_baseline "improvement_ratio" [0; 7]
                  ltac:(unfold len; simpl; lia))).
Defined.

(** *** detect_regressions, in full *)

Section Regressions.

Import PerformanceReporter.

Variable base : list BenchmarkResult.

Lemma check_metric_nonzero (result_name k : string) (m : metric) (b : Q) :
  ~ b == 0 ->
  check_metric result_name k m b
  = Ok (if gt (table_change (regression_of result_name k m b)) (1 # 10)
        then [regression_of result_name k m b]
        else []).
Proof.
  intros N. unfold check_metric, table_change, regression_of.
  cbn [metric_name current baseline].
  destruct (lower_is_better k); rewrite (truediv_ok _ _ N); cbn [bind];
    destruct (gt _ _); reflexivity.
Qed.

Lemma check_metric_zero (result_name k : string) (m : metric) (b : Q) :
  b == 0 -> check_metric result_name k m b = Raise ZeroDivisionError.
Proof.
  intros Z0. unfold check_metric.
  destruct (lower_is_better k); now rewrite (truediv_zero _ _ Z0).
Qed.

(** The scan of the metrics of one result either returns the
    contributions in order, or meets a zero baseline value and raises. *)
Lemma scan_metrics_cases (result_name : string) (ms : list (string * metric)) :
  (scan_metrics base result_name ms
   = Ok (flat_map (contribution base result_name) ms)
   /\ forall k m b,
        In (k, m) ms -> find_baseline_value base result_name k = Some b ->
        ~ b == 0)
  \/ (scan_metrics base result_name ms = Raise ZeroDivisionError
      /\ exists k m b,
           In (k, m) ms
           /\ find_baseline_value base result_name k = Some b /\ b == 0).
Proof.
  induction ms as [|[k m] ms IH]; cbn [scan_metrics flat_map].
  - left. split; [reflexivity|]. intros k m b [].
  - unfold contribution at 1. cbn [fst snd].
    destruct (find_baseline_value base result_name k) as [b|] eqn:F.
    + destruct (Qeq_dec b 0) as [Z0|N].
      * right. rewrite (check_metric_zero _ _ _ _ Z0). split; [reflexivity|].
        exists k, m, b. repeat split; auto. now left.
      * rewrite (check_metric_nonzero _ _ _ _ N). cbn [bind].
        destruct IH as [[-> A]|[-> (k' & m' & b' & I & F' & Z')]].
        -- left. split; [reflexivity|].
           intros k0 m0 b0 [[= <- <-]|I] F0; [congruence|eauto].
        -- right. split; [reflexivity|].
           exists k', m', b'. repeat split; auto. now right.
    + cbn [bind].
      destruct IH as [[-> A]|[-> (k' & m' & b' & I & F' & Z')]].
      * left. split; [reflexivity|].
        intros k0 m0 b0 [[= <- <-]|I] F0; [congruence|eauto].
      * right. split; [reflexivity|].
        exists k', m', b'. repeat split; auto. now right.
Qed.

Lemma scan_results_cases (rs : list BenchmarkResult) :
  (scan_results base rs
   = Ok (flat_map (fun r => flat_map (contribution base (name r)) (metrics r)) rs)
   /\ forall n k m b, matched rs base n k m b -> ~ b == 0)
  \/ (scan_results base rs = Raise ZeroDivisionError
      /\ exists n k m b, matched rs base n k m b /\ b == 0).
Proof.
  induction rs as [|r rs IH]; cbn [scan_results flat_map].
  - left. split; [reflexivity|]. intros n k m b (r & [] & _).
  - destruct (scan_metrics_cases (name r) (metrics r))
      as [[-> A]|[-> (k & m & b & I & F & Z0)]].
    + cbn [bind].
      destruct IH as [[-> B]|[-> (n & k & m & b & M & Z0)]].
      * left. split; [reflexivity|].
        intros n k m b (r0 & [<-|I] & Nm & Im & F).
        -- subst n. eauto.
        -- apply (B n k m). exists r0. auto.
      * right. split; [reflexivity|]. exists n, k, m, b. split; [|exact Z0].
        destruct M as (r0 & I & Nm & Im & F). exists r0. split; [now right|].
        auto.
    + right. split; [reflexivity|]. exists (name r), k, m, b.
      split; [|exact Z0]. exists r. split; [now left|]. auto.
Qed.

Lemma in_contributions (rs : list BenchmarkResult) (rec : regression) :
  In rec (flat_map (fun r => flat_map (contribution base (name r)) (metrics r)) rs)
  <-> exists n k m b,
        matched rs base n k m b
        /\ 1 # 10 < table_change (regression_of n k m b)
        /\ rec = regression_of n k m b.
Proof.
  rewrite in_flat_map. split.
  - intros (r & I & H). apply in_flat_map in H as ([k m] & Im & C).
    unfold contribution in C. cbn [fst snd] in C.
    destruct (find_baseline_value base (name r) k) as [b|] eqn:F; [|destruct C].
    destruct (gt _ _) eqn:G; [|destruct C]. destruct C as [<-|[]].
    apply gt_true in G. exists (name r), k, m, b. split; [|auto].
    exists r. auto.
  - intros (n & k & m & b & (r & I & Nm & Im & F) & G & ->). subst n.
    exists r. split; [exact I|]. apply in_flat_map. exists (k, m).
    split; [exact Im|]. unfold contribution. cbn [fst snd]. rewrite F.
    rewrite (proj2 (gt_true _ _) G). now left.
Qed.

End Regressions.

(** X23.  [detect_regressions] against a baseline raises exactly when some metric
    of some result has a baseline value of 0 under the same benchmark name
    and metric key, and the exception is then ZeroDivisionError. *)
Theorem detect_regressions_raises_iff
    (results base : list PerformanceReporter.BenchmarkResult) :
  ((exists e,
       PerformanceReporter.detect_regressions results (Some base) = Raise e)
   <-> exists n k m b, matched results base n k m b /\ b == 0)
  /\ (forall e,
         PerformanceReporter.detect_regressions results (Some base) = Raise e ->
         e = ZeroDivisionError).
Proof.
  cbn [PerformanceReporter.detect_regressions].
  destruct (scan_results_cases base results) as [[-> A]|[-> B]].
  - split; [|discriminate]. split; [intros [e C]; discriminate|].
    intros (n & k & m & b & M & Z0). now destruct (A n k m b M).
  - split; [|congruence]. split; [intros _; exact B|]. intros _. now eexists.
Qed.

(** X24.  When [detect_regressions], given a baseline, returns, each of its
    records comes from a metric that has a baseline value under the same
    benchmark name and metric key, carries that baseline value and the
    current value, and has changed by more than 10% of the baseline in the
    direction that the table of the code gives the metric: upwards for
    [avg_latency] and [peak_memory], the two names of the table, downwards
    for every other metric.  So a [final_memory] that fell from 100 MB to
    80 MB is reported, and one that doubled is not. *)
Theorem detect_regressions_records :
  (forall (results base : list PerformanceReporter.BenchmarkResult)
          (regressions : list PerformanceReporter.regression)
          (rec : PerformanceReporter.regression),
      PerformanceReporter.detect_regressions results (Some base)
      = Ok regressions ->
      In rec regressions ->
      exists n k m b,
        matched results base n k m b
        /\ PerformanceReporter.test rec = n
        /\ PerformanceReporter.metric_name rec = k
        /\ PerformanceReporter.baseline rec = b
        /\ PerformanceReporter.current rec = PerformanceReporter.value m
        /\ PerformanceReporter.reg_unit rec = PerformanceReporter.unit m
        /\ (if PerformanceReporter.lower_is_better k
            then 1 # 10 < (PerformanceReporter.value m - b) / b
            else 1 # 10 < (b - PerformanceReporter.value m) / b)
        /\ (0 < b ->
            if PerformanceReporter.lower_is_better k
            then b < PerformanceReporter.value m
            else PerformanceReporter.value m < b))
  /\ (forall k : string,
         PerformanceReporter.lower_is_better k = true
         <-> k = "avg_latency"%string \/ k = "peak_memory"%string)
  /\ (exists r,
         PerformanceReporter.detect_regressions
           [memory_result 80] (Some [memory_result 100]) = Ok [r])
  /\ PerformanceReporter.detect_regressions
       [memory_result 200] (Some [memory_result 100]) = Ok [].
Proof.
  split; [|split; [|split]].
  - intros results base regs rec H I.
    cbn [PerformanceReporter.detect_regressions] in H.
    destruct (scan_results_cases base results) as [[E A]|[E B]];
      rewrite E in H; [|discriminate].
    injection H as <-.
    apply in_contributions in I as (n & k & m & b & M & G & ->).
    exists n, k, m, b. split; [exact M|].
    unfold table_change, regression_of in G.
    cbn [PerformanceReporter.test PerformanceReporter.metric_name
         PerformanceReporter.baseline PerformanceReporter.current
         PerformanceReporter.reg_unit regression_of] in *.
    repeat (split; [reflexivity|]).
    destruct (PerformanceReporter.lower_is_better k);
      (split; [exact G|]); intros P;
      pose proof (ratio_gt_positive _ _ (1 # 10) ltac:(reflexivity) P G); lra.
  - intros k. unfold PerformanceReporter.lower_is_better. cbn [existsb].
    rewrite !orb_true_iff, !String.eqb_eq. intuition discriminate.
  - eexists. reflexivity.
  - reflexivity.
Qed.

(** *** A run against its own results *)

Lemma lookup_in_nodup {A : Type} (k : string) (v : A) (d : list (string * A)) :
  NoDup (map fst d) -> In (k, v) d -> lookup k d = Some v.
Proof.
  induction d as [|[k' v'] d IH]; cbn; intros ND I; [destruct I|].
  inversion ND as [|? ? NI ND']; subst.
  destruct I as [[= -> ->]|I].
  - now rewrite String.eqb_refl.
  - destruct (String.eqb k k') eqn:E; [|now apply IH].
    apply String.eqb_eq in E. subst k'. exfalso. apply NI.
    change k with (fst (k, v)). now apply in_map.
Qed.

Lemma lookup_some_in {A : Type} (k : string) (v : A) (d : list (string * A)) :
  lookup k d = Some v -> exists k', k' = k /\ In (k', v) d.
Proof.
  induction d as [|[k' v'] d IH]; cbn; [discriminate|].
  destruct (String.eqb k k') eqn:E.
  - apply String.eqb_eq in E. intros [= ->]. exists k'. split; [auto|now left].
  - intros H. destruct (IH H) as (k0 & -> & I). exists k. split; [auto|].
    now right.
Qed.

Lemma find_own_value (rs : list PerformanceReporter.BenchmarkResult)
    (r : PerformanceReporter.BenchmarkResult) (k : string)
    (m : PerformanceReporter.metric) :
  NoDup (map PerformanceReporter.name rs) ->
  In r rs ->
  lookup k (PerformanceReporter.metrics r) = Some m ->
  PerformanceReporter.find_baseline_value rs (PerformanceReporter.name r) k
  = Some (PerformanceReporter.value m).
Proof.
  induction rs as [|r0 rs IH]; cbn; intros ND I L; [destruct I|].
  inversion ND as [|? ? NI ND']; subst.
  destruct (String.eqb (PerformanceReporter.name r0)
              (PerformanceReporter.name r)) eqn:E.
  - apply String.eqb_eq in E. destruct I as [->|I].
    + now rewrite L.
    + exfalso. apply NI. rewrite E. now apply in_map.
  - destruct I as [->|I]; [now rewrite String.eqb_refl in E|]. now apply IH.
Qed.

(** X25.  A set of results with distinct benchmark names, distinct metric keys and
    non-zero values shows no regression when it is compared with itself. *)
Theorem no_regression_against_itself
    (results : list PerformanceReporter.BenchmarkResult) :
  NoDup (map PerformanceReporter.name results) ->
  (forall r, In r results ->
     NoDup (map fst (PerformanceReporter.metrics r))) ->
  (forall r k m, In r results -> In (k, m) (PerformanceReporter.metrics r) ->
     ~ PerformanceReporter.value m == 0) ->
  PerformanceReporter.detect_regressions results (Some results) = Ok [].
Proof.
  intros ND NDm NZ.
  assert (Own : forall n k m b, matched results results n k m b ->
                                b = PerformanceReporter.value m).
  { intros n k m b (r & I & <- & Im & F).
    rewrite (find_own_value results r k m ND I) in F; [congruence|].
    apply lookup_in_nodup; auto. }
  cbn [PerformanceReporter.detect_regressions].
  destruct (scan_results_cases results results)
    as [[-> A]|[_ (n & k & m & b & M & Z0)]].
  - f_equal.
    assert (Empty : forall rec,
               ~ In rec (flat_map
                           (fun r => flat_map
                                       (contribution results
                                          (PerformanceReporter.name r))
                                       (PerformanceReporter.metrics r))
                           results)).
    { intros rec I.
      apply in_contributions in I as (n & k & m & b & M & G & _).
      rewrite (Own _ _ _ _ M) in G.
      assert (NZ' : ~ PerformanceReporter.value m == 0).
      { destruct M as (r & I & _ & Im & _). eauto. }
      unfold table_change, regression_of in G.
      cbn [PerformanceReporter.metric_name PerformanceReporter.current
           PerformanceReporter.baseline] in G.
      set (v := PerformanceReporter.value m) in *.
      assert (Z0 : (v - v) / v == 0) by (field; exact NZ').
      destruct (PerformanceReporter.lower_is_better k); rewrite Z0 in G; lra. }
    destruct (flat_map _ results) as [|rec l]; [reflexivity|].
    exfalso. apply (Empty rec). now left.
  - exfalso. pose proof (Own _ _ _ _ M) as ->.
    destruct M as (r & I & _ & Im & _). exact (NZ r k m I Im Z0).
Qed.

Lemma detect_regressions_raises_iff_witness :
  exists e,
    PerformanceReporter.detect_regressions
      [latency_result 5] (Some [latency_result 0]) = Raise e.
Proof.
  apply (proj1 (detect_regressions_raises_iff
                  [latency_result 5] [latency_result 0])).
  exists "latency_benchmark"%string, "avg_latency"%string,
    {| PerformanceReporter.value := 5; PerformanceReporter.unit := "ms" |}, 0.
  split; [|reflexivity].
  exists (latency_result 5). cbn. auto.
Defined.

Lemma detect_regressions_records_witness :
  exists n k m b,
    matched [latency_result 12] [latency_result 10] n k m b
    /\ k = "avg_latency"%string
    /\ b = 10
    /\ PerformanceReporter.value m = 12.
Proof.
  destruct (proj1 detect_regressions_records
              [latency_result 12] [latency_result 10] _ _ eq_refl
              (or_introl eq_refl))
    as (n & k & m & b & M & _ & K & B & C & _).
  exists n, k, m, b. cbn in K, B, C. repeat split; auto.
Defined.

Lemma no_regression_against_itself_witness :
  PerformanceReporter.detect_regressions
    [latency_result 3] (Some [latency_result 3]) = Ok [].
Proof.
  apply no_regression_against_itself.
  - repeat constructor. intros [].
  - intros r [<-|[]]. repeat constructor. intros [].
  - intros r k m [<-|[]] [[= <- <-]|[]]. discriminate.
Defined.

(** *** check_regression, in full *)

Section CheckRegression.

Import BenchmarkAnalyzer.

Variable base : list benchmark.

Lemma scan_cases (data : list benchmark) :
  (scan base data = Ok (flat_map (benchmark_contribution base) data)
   /\ forall c b, matched_benchmark data base c b -> ~ latency_avg b == 0)
  \/ (scan base data = Raise ZeroDivisionError
      /\ exists c b, matched_benchmark data base c b /\ latency_avg b == 0).
Proof.
  unfold matched_benchmark.
  induction data as [|c data IH]; cbn [scan flat_map].
  - left. split; [reflexivity|]. intros c b [[] _].
  - unfold benchmark_contribution at 1.
    destruct (find_benchmark base (name c)) as [b|] eqn:F.
    + destruct (Qeq_dec (latency_avg b) 0) as [Z0|N].
      * right. rewrite (truediv_zero _ _ Z0). split; [reflexivity|].
        exists c, b. repeat split; auto. now left.
      * rewrite (truediv_ok _ _ N). cbn [bind].
        fold (latency_change c b).
        assert (E : (if gt (latency_change c b) (5 # 100)
                     then Ok [{| reg_benchmark := name c;
                                 baseline := latency_avg b;
                                 current := latency_avg c;
                                 regression_pct100 := latency_change c b * 100 |}]
                     else Ok [])
                    = Ok (if gt (latency_change c b) (5 # 100)
                          then [regression_of_benchmark c b] else []))
          by (now destruct (gt _ _)).
        rewrite E. cbn [bind].
        destruct IH as [[-> A]|[-> (c' & b' & [I F'] & Z')]].
        -- left. split; [reflexivity|].
           intros c0 b0 [[<-|I] F0]; [congruence|eauto].
        -- right. split; [reflexivity|].
           exists c', b'. repeat split; auto. now right.
    + cbn [bind].
      destruct IH as [[-> A]|[-> (c' & b' & [I F'] & Z')]].
      * left. split; [reflexivity|].
        intros c0 b0 [[<-|I] F0]; [congruence|eauto].
      * right. split; [reflexivity|].
        exists c', b'. repeat split; auto. now right.
Qed.

Lemma in_benchmark_contributions (data : list benchmark) (rec : regression) :
  In rec (flat_map (benchmark_contribution base) data)
  <-> exists c b,
        matched_benchmark data base c b
        /\ 5 # 100 < latency_change c b
        /\ rec = regression_of_benchmark c b.
Proof.
  rewrite in_flat_map. unfold matched_benchmark. split.
  - intros (c & I & C). unfold benchmark_contribution in C.
    destruct (find_benchmark base (name c)) as [b|] eqn:F; [|destruct C].
    destruct (gt _ _) eqn:G; [|destruct C]. destruct C as [<-|[]].
    apply gt_true in G. exists c, b. auto.
  - intros (c & b & [I F] & G & ->). exists c. split; [exact I|].
    unfold benchmark_contribution. rewrite F, (proj2 (gt_true _ _) G).
    now left.
Qed.

End CheckRegression.

(** X26.  When [check_regression], given a baseline file, returns, each of
    its records comes from a benchmark that has a baseline entry of the same
    name, carries the two average latencies, and shows a rise of more than
    5% of the baseline; on a positive baseline its current latency is above
    the baseline. *)
Theorem check_regression_records
    (data base : list BenchmarkAnalyzer.benchmark)
    (regressions : list BenchmarkAnalyzer.regression)
    (rec : BenchmarkAnalyzer.regression) :
  BenchmarkAnalyzer.check_regression data (Some base) = Ok regressions ->
  In rec regressions ->
  exists c b,
    matched_benchmark data base c b
    /\ BenchmarkAnalyzer.reg_benchmark rec = BenchmarkAnalyzer.name c
    /\ BenchmarkAnalyzer.baseline rec = BenchmarkAnalyzer.latency_avg b
    /\ BenchmarkAnalyzer.current rec = BenchmarkAnalyzer.latency_avg c
    /\ 5 # 100 < latency_change c b
    /\ (0 < BenchmarkAnalyzer.latency_avg b ->
        BenchmarkAnalyzer.latency_avg b < BenchmarkAnalyzer.latency_avg c).
Proof.
  cbn [BenchmarkAnalyzer.check_regression].
  destruct (scan_cases base data) as [[-> A]|[-> B]]; [|discriminate].
  intros [= <-] I.
  apply in_benchmark_contributions in I as (c & b & M & G & ->).
  exists c, b. split; [exact M|]. repeat (split; [reflexivity|]).
  split; [exact G|]. intros P. unfold latency_change in G.
  pose proof (ratio_gt_positive _ _ (5 # 100) ltac:(reflexivity) P G). lra.
Qed.

Lemma check_regression_records_witness :
  exists c b,
    matched_benchmark [latency_benchmark 7] [latency_benchmark 6] c b
    /\ BenchmarkAnalyzer.latency_avg b < BenchmarkAnalyzer.latency_avg c.
Proof.
  destruct (check_regression_records
              [latency_benchmark 7] [latency_benchmark 6] _ _ eq_refl
              (or_introl eq_refl)) as (c & b & M & _ & B & C & _ & W).
  exists c, b. split; [exact M|]. apply W.
  cbn in B. rewrite <- B. reflexivity.
Defined.

(** X27.  [check_regression] against a baseline raises exactly when some benchmark
    has a baseline entry of the same name with an average latency of 0. *)
Theorem check_regression_raises_iff
    (data base : list BenchmarkAnalyzer.benchmark) :
  (exists e, BenchmarkAnalyzer.check_regression data (Some base) = Raise e)
  <-> exists c b,
        matched_benchmark data base c b
        /\ BenchmarkAnalyzer.latency_avg b == 0.
Proof.
  cbn [BenchmarkAnalyzer.check_regression].
  destruct (scan_cases base data) as [[-> A]|[-> B]].
  - split; [intros [e C]; discriminate|].
    intros (c & b & M & Z0). now destruct (A c b M).
  - split; [intros _; exact B|]. intros _. now eexists.
Qed.

Lemma check_regression_raises_iff_witness :
  exists e,
    BenchmarkAnalyzer.check_regression
      [{| BenchmarkAnalyzer.name := "Single_Operation_2Layer";
          BenchmarkAnalyzer.latency_avg := 7 |}]
      (Some [{| BenchmarkAnalyzer.name := "Single_Operation_2Layer";
                BenchmarkAnalyzer.latency_avg := 0 |}]) = Raise e.
Proof.
  apply (proj2 (check_regression_raises_iff _ _)).
  eexists _, _. split; [split; [now left|reflexivity]|reflexivity].
Defined.

(** *** A concurrent run whose calls are all answered in positive time *)

Lemma client_worker_loop_well_formed (client_id : Z)
    (xs : list DaemonPerformanceTester.exchange) :
  Forall well_formed xs ->
  forall self latencies errors,
    exists latencies' errors' self',
      DaemonPerformanceTester.client_worker_loop
        self client_id xs latencies errors
      = (Ok (latencies', errors'), self').
Proof.
  induction 1 as [|x xs W F IH]; intros self lat errs.
  - now eexists _, _, _.
  - cbn [DaemonPerformanceTester.client_worker_loop].
    destruct (well_formed_call self x W) as (d & s & r & E & D & G).
    destruct (DaemonPerformanceTester.send_json_rpc self x) as [t s1].
    cbn [fst] in E. subst t. destruct s.
    + apply IH.
    + destruct (G eq_refl) as [msg ->]. apply IH.
Qed.

Lemma run_clients_well_formed (opc : Z)
    (threads : list (Z * list DaemonPerformanceTester.exchange)) :
  Forall (fun th => len (snd th) = opc /\ Forall well_formed (snd th))
         threads ->
  forall self,
    (total (fun r => len (fst r))
           (fst (DaemonPerformanceTester.run_clients self threads))
     + total (fun r => len (snd r))
             (fst (DaemonPerformanceTester.run_clients self threads))
     = len threads * opc)%Z.
Proof.
  induction 1 as [|[id xs] threads [L W] F IH]; intros self.
  - reflexivity.
  - cbn [DaemonPerformanceTester.run_clients snd] in *.
    unfold DaemonPerformanceTester.client_worker.
    destruct (client_worker_loop_well_formed id xs W self [] [])
      as (lat & errs & s1 & E).
    rewrite E.
    pose proof (client_worker_loop_counts id xs self [] [] lat errs s1 E) as C.
    rewrite (@len_nil Q), (@len_nil error_entry) in C.
    specialize (IH s1).
    destruct (DaemonPerformanceTester.run_clients s1 threads) as [rs s2].
    cbn [fst] in *. unfold total in *. cbn [map fold_right fst snd].
    rewrite len_cons. lia.
Qed.

(** X29.  In a concurrent run of positive wall-clock duration in which each
    of the [num_clients] workers (at least one) makes
    [operations_per_client] calls (at least one) and every reply arrives
    in positive time and is empty or a JSON object that has a result
    member, or no error member, or an error member that is an object with
    a code, the merged summary is returned and accounts for every call:
    [operation_count + len(errors) = num_clients * operations_per_client],
    with a success rate within [0,100]. *)
Theorem concurrent_run_accounts_for_every_call
    (self : DaemonPerformanceTester.t) (num_clients operations_per_client : Z)
    (threads : list (Z * list DaemonPerformanceTester.exchange))
    (total_test_time daemon_memory : Q) :
  0 < total_test_time ->
  (0 < num_clients)%Z -> (0 < operations_per_client)%Z ->
  len threads = num_clients ->
  Forall (fun th => len (snd th) = operations_per_client
                    /\ Forall well_formed (snd th)) threads ->
  exists m,
    fst (DaemonPerformanceTester.benchmark_concurrent_clients self true
           num_clients operations_per_client threads
           total_test_time daemon_memory) = Ok m
    /\ (operation_count m + len (errors m)
        = num_clients * operations_per_client)%Z
    /\ 0 <= success_rate_percent m <= 100.
Proof.
  intros T Pn Po L W.
  pose proof (run_clients_well_formed operations_per_client threads W self)
    as A.
  rewrite L in A.
  unfold DaemonPerformanceTester.benchmark_concurrent_clients. cbn [negb].
  destruct (DaemonPerformanceTester.run_clients self threads) as [rs s1].
  cbn [fst] in *. cbv zeta.
  rewrite <- !len_concat in A.
  destruct (concat (map fst rs)) as [|x rest] eqn:P.
  - cbn [bind]. eexists. split; [reflexivity|].
    cbn [operation_count errors success_rate_percent].
    rewrite len_nil in *. split; [lia|lra].
  - destruct (statistics_ordered x rest)
      as (p50 & p95 & p99 & E50 & E95 & E99 & _).
    change DaemonPerformanceTester._percentile
      with CLIPerformanceTester._percentile.
    rewrite E50, E95, E99. cbn [mean bind].
    rewrite truediv_ok by (apply div1000_nonzero; lra).
    rewrite truediv_ok by (apply inject_Z_nonzero; lia).
    cbn [bind]. eexists. split; [reflexivity|].
    cbn [operation_count errors success_rate_percent].
    split; [exact A|].
    assert (B : 0 < inject_Z (len (x :: rest))
                <= inject_Z (num_clients * operations_per_client)).
    { split.
      - change 0 with (inject_Z 0). rewrite <- Zlt_Qlt, len_cons.
        unfold len. lia.
      - rewrite <- Zle_Qle.
        assert (0 <= len (concat (map snd rs)))%Z by (unfold len; lia).
        lia. }
    split.
    + apply Qmult_le_0_compat; [|lra]. apply Qle_shift_div_l; lra.
    + assert (inject_Z (len (x :: rest))
              / inject_Z (num_clients * operations_per_client) <= 1)
        by (apply Qle_shift_div_r; lra).
      lra.
Qed.

Lemma concurrent_run_accounts_for_every_call_witness :
  exists m,
    fst (DaemonPerformanceTester.benchmark_concurrent_clients daemon0 true
           2 2 asymmetric_run 110 20) = Ok m
    /\ (operation_count m + len (errors m) = 2 * 2)%Z
    /\ 0 <= success_rate_percent m <= 100.
Proof.
  apply concurrent_run_accounts_for_every_call;
    try reflexivity.
  repeat constructor; cbn; try reflexivity; left; discriminate.
Defined.
